(** * LiveOS ISO builder (imagecustomizerlib): a shallow embedding

    The Go package under verification converts a full disk image into a
    LiveOS ISO, merges saved configuration between runs, rewrites grub
    configuration, classifies the files of [/boot], carries files over from
    an input ISO and estimates disk sizes.  This development embeds the
    functions of that package that the properties below are about and
    proves or refutes each property on the embedding.

    Conventions.
    - Go [string] is [string] (a sequence of bytes).
    - Go [error] is [error]: a message with the list of errors it wraps
      ([fmt.Errorf] with [%w]); the nil error is [None].
    - Code that touches the file system, the logger or another tool runs in
      [IO]: it threads the chronological trace of the operations performed
      so far, and the outcome of each operation is given by a [World], a
      deterministic function of that history.
    - Go maps are [gmap]; ranging over a map is a fold over its entries in
      an arbitrary order. *)

From Stdlib Require Import ZArith QArith Qround Ascii Floats.SpecFloat.
From stdpp Require Import base option list gmap strings fin_maps.

Local Open Scope Z_scope.
Local Open Scope stdpp_scope.

(** ** Strings *)

Module GoStrings.

(** The line feed written [\n] in Go string literals. *)
Definition nl : string := String "010"%char "".

(** [strings.HasPrefix]. *)
Fixpoint HasPrefix (s prefix : string) : bool :=
  match prefix, s with
  | EmptyString, _ => true
  | String _ _, EmptyString => false
  | String p prefix', String c s' => if decide (p = c) then HasPrefix s' prefix' else false
  end.

(** [s[n:]] for [n <= len(s)]. *)
Fixpoint drop_string (n : nat) (s : string) : string :=
  match n, s with
  | O, _ => s
  | S n', String _ s' => drop_string n' s'
  | S _, EmptyString => EmptyString
  end.

(** [strings.TrimPrefix]. *)
Definition TrimPrefix (s prefix : string) : string :=
  if HasPrefix s prefix then drop_string (String.length prefix) s else s.

(** [strings.Replace(s, old, new, -1)] for a non-empty [old]: the
    non-overlapping occurrences of [old], found left to right, become
    [new].  [skip] counts the bytes of the occurrence still to be passed. *)
Fixpoint replace_from (s old new : string) (skip : nat) : string :=
  match s with
  | EmptyString => EmptyString
  | String c s' =>
      match skip with
      | S k => replace_from s' old new k
      | O =>
          if HasPrefix s old
          then new +:+ replace_from s' old new (String.length old - 1)
          else String c (replace_from s' old new O)
      end
  end.

(** With an empty [old], Go puts [new] in front of every character and at
    the end (every byte here, every UTF-8 sequence in Go). *)
Fixpoint intersperse_all (s new : string) : string :=
  match s with
  | EmptyString => new
  | String c s' => new +:+ String c (intersperse_all s' new)
  end.

Definition ReplaceAll (s old new : string) : string :=
  match old with
  | EmptyString => intersperse_all s new
  | String _ _ => replace_from s old new O
  end.

(** The white space of Go's [asciiSpace] table: tab, line feed, vertical
    tab, form feed, carriage return, space. *)
Definition isSpace (c : ascii) : bool :=
  match c with
  | "009" | "010" | "011" | "012" | "013" | " " => true
  | _ => false
  end%char.

Fixpoint trimLeft (s : string) : string :=
  match s with
  | EmptyString => EmptyString
  | String c s' => if isSpace c then trimLeft s' else s
  end.

(** Removes trailing white space: a character is kept when it is not a
    space or something is kept after it. *)
Fixpoint trimRight (s : string) : string :=
  match s with
  | EmptyString => EmptyString
  | String c s' =>
      match trimRight s' with
      | EmptyString => if isSpace c then EmptyString else String c EmptyString
      | t => String c t
      end
  end.

(** [strings.TrimSpace] on the ASCII white space.  Go also strips the
    Unicode spaces outside ASCII (U+0085, U+00A0, ...); a byte above 127 is
    an ordinary character here. *)
Definition TrimSpace (s : string) : string := trimRight (trimLeft s).

Fixpoint last_char (s : string) : option ascii :=
  match s with
  | EmptyString => None
  | String c EmptyString => Some c
  | String _ s' => last_char s'
  end.

Definition first_char (s : string) : option ascii :=
  match s with
  | EmptyString => None
  | String c _ => Some c
  end.

(** No line feed occurs in [s]. *)
Fixpoint no_newline (s : string) : bool :=
  match s with
  | EmptyString => true
  | String c s' => if decide (c = "010"%char) then false else no_newline s'
  end.

End GoStrings.
Export GoStrings.

(** ** Paths ([path/filepath] on Unix) *)

Module GoPath.

Definition slash : ascii := "/"%char.

(** The pieces of [s] between separators. *)
Fixpoint split_slash (s : string) : list string :=
  match s with
  | EmptyString => [EmptyString]
  | String c s' =>
      if decide (c = slash) then EmptyString :: split_slash s'
      else match split_slash s' with
           | h :: t => String c h :: t
           | [] => [String c EmptyString]
           end
  end.

Fixpoint join_slash (l : list string) : string :=
  match l with
  | [] => EmptyString
  | [x] => x
  | x :: rest => x +:+ String slash (join_slash rest)
  end.

(** One step of [Clean]: [stack] holds the kept elements, last one first. *)
Definition clean_step (rooted : bool) (stack : list string) (elem : string) : list string :=
  if decide (elem = "" \/ elem = ".") then stack
  else if decide (elem = "..") then
    match stack with
    | top :: below => if decide (top = "..") then elem :: stack else below
    | [] => if rooted then [] else [elem]
    end
  else elem :: stack.

(** [filepath.Clean]: the shortest equivalent path, by lexical processing. *)
Definition Clean (path : string) : string :=
  let rooted := HasPrefix path "/" in
  let kept := rev (fold_left (clean_step rooted) (split_slash path) []) in
  let out := (if rooted then "/" else "") +:+ join_slash kept in
  if decide (out = "") then "." else out.

Fixpoint drop_empty (elem : list string) : list string :=
  match elem with
  | [] => []
  | e :: rest => if decide (e = "") then drop_empty rest else elem
  end.

(** [filepath.Join]: the elements from the first non-empty one on, joined
    by separators and cleaned; the empty string when all are empty. *)
Definition Join (elem : list string) : string :=
  match drop_empty elem with
  | [] => ""
  | l => Clean (join_slash l)
  end.

(** Drops trailing separators. *)
Fixpoint strip_trailing_slashes (s : string) : string :=
  match s with
  | EmptyString => EmptyString
  | String c s' =>
      match strip_trailing_slashes s' with
      | EmptyString => if decide (c = slash) then EmptyString else String c EmptyString
      | t => String c t
      end
  end.

(** [filepath.Base]: the last element of the path. *)
Definition Base (path : string) : string :=
  if decide (path = "") then "."
  else
    let elem := List.last (split_slash (strip_trailing_slashes path)) "" in
    if decide (elem = "") then "/" else elem.

(** [filepath.Dir]: all but the last element, cleaned. *)
Definition Dir (path : string) : string :=
  match rev (split_slash path) with
  | _ :: before => Clean (join_slash (rev before ++ [""]))
  | [] => Clean ""
  end.

End GoPath.

(** ** Regular expressions ([regexp], the fragment used by the package) *)

Module GoRegexp.

Inductive regex : Type :=
| ReNone                      (* matches nothing *)
| ReEps                       (* the empty string *)
| ReChar (c : ascii)          (* one literal character *)
| ReAnyNotNL                  (* [.]: any character but the line feed *)
| ReCat (r1 r2 : regex)
| ReStar (r : regex).

(** A literal string ([\.] in a pattern is the literal dot). *)
Fixpoint ReLit (s : string) : regex :=
  match s with
  | EmptyString => ReEps
  | String c s' => ReCat (ReChar c) (ReLit s')
  end.

Fixpoint nullable (r : regex) : bool :=
  match r with
  | ReNone | ReChar _ | ReAnyNotNL => false
  | ReEps | ReStar _ => true
  | ReCat r1 r2 => nullable r1 && nullable r2
  end.

(** What remains to be matched after reading [c]; an alternative is kept as
    a list of expressions. *)
Fixpoint deriv (c : ascii) (r : regex) : list regex :=
  match r with
  | ReNone | ReEps => []
  | ReChar c' => if decide (c = c') then [ReEps] else []
  | ReAnyNotNL => if decide (c = "010"%char) then [] else [ReEps]
  | ReCat r1 r2 =>
      map (fun d => ReCat d r2) (deriv c r1) ++ (if nullable r1 then deriv c r2 else [])
  | ReStar r1 => map (fun d => ReCat d (ReStar r1)) (deriv c r1)
  end.

(** Some prefix of [s] is matched by one of [rs]. *)
Fixpoint prefix_matches (rs : list regex) (s : string) : bool :=
  existsb nullable rs ||
  match s with
  | EmptyString => false
  | String c s' => prefix_matches (flat_map (deriv c) rs) s'
  end.

(** [r.FindStringIndex(s) != nil]: the expression matches somewhere in [s]. *)
Fixpoint FindStringIndex_found (r : regex) (s : string) : bool :=
  prefix_matches [r] s ||
  match s with
  | EmptyString => false
  | String _ s' => FindStringIndex_found r s'
  end.

(** What an expression matches: the strings it denotes. *)
Inductive matches : regex -> string -> Prop :=
| matches_eps : matches ReEps ""
| matches_char c : matches (ReChar c) (String c "")
| matches_any c : c ≠ "010"%char -> matches ReAnyNotNL (String c "")
| matches_cat r1 r2 s1 s2 :
    matches r1 s1 -> matches r2 s2 -> matches (ReCat r1 r2) (s1 +:+ s2)
| matches_star_nil r : matches (ReStar r) ""
| matches_star_cons r s1 s2 :
    matches r s1 -> matches (ReStar r) s2 -> matches (ReStar r) (s1 +:+ s2).

End GoRegexp.
Export GoRegexp.

(** ** Errors *)

(** A Go error value built by [fmt.Errorf]: [Error()] is the formatted
    message, [Unwrap()] the operands of the [%w] verbs, in order. *)
#[warnings="-register-all"]
Inductive error : Type :=
| Errorf (msg : string) (unwrap : list error).

Definition Error (e : error) : string :=
  match e with Errorf msg _ => msg end.

Definition Unwrap (e : error) : list error :=
  match e with Errorf _ ws => ws end.

(** [errors.Is]-style reachability through [Unwrap]. *)
Inductive wraps : error -> error -> Prop :=
| wraps_refl e : wraps e e
| wraps_step msg ws w e : w ∈ ws -> wraps w e -> wraps (Errorf msg ws) e.

(** [t] occurs inside [s]. *)
Definition mentions (s t : string) : Prop :=
  exists p q, s = p +:+ t +:+ q.

(** The result of a Go function returning [(T, error)]. *)
Inductive Result (A : Type) : Type :=
| Ok (a : A)
| Err (e : error).
Arguments Ok {A} a.
Arguments Err {A} e.

(** ** Data model *)

Record IsoWorkingDirs := {
  isoBuildDir : string;
  isoArtifactsDir : string;
  isomakerBuildDir : string
}.

Record isoImageNameInfo := {
  tag : string;
  releaseVersion : string;
  baseName : string;
  name : string
}.

(** [safechroot.FileToCopy], as far as this package fills it in. *)
Record FileToCopy := {
  Src : string;
  Content : option string;
  Dest : string;
  Permissions : option N;
  NoDereference : bool
}.

(** [imagecustomizerapi.AdditionalFile], [imagecustomizerapi.Iso] and
    [imagecustomizerapi.Pxe], as far as this package reads them. *)
Record AdditionalFile := {
  af_Source : string;
  af_Content : option string;
  af_Destination : string;
  af_Permissions : option N
}.

Record Iso := {
  iso_AdditionalFiles : list AdditionalFile;
  iso_ExtraCommandLine : string
}.

Record Pxe := {
  pxe_IsoImageBaseUrl : string;
  pxe_IsoImageFileUrl : string
}.

(** The arguments handed to [isomakerlib.NewIsoMakerWithConfig] (the empty
    target system configuration is left out). *)
Record IsoMakerConfig := {
  im_unattendedInstall : bool;
  im_enableBiosBoot : bool;
  im_enableRpmRepo : bool;
  im_baseDirPath : string;
  im_buildDir : string;
  im_releaseVersion : string;
  im_resourcesDir : string;
  im_additionalIsoFiles : list FileToCopy;
  im_bootDir : string;
  im_initrdPath : string;
  im_grubCfgPath : string;
  im_repoDirPath : string;
  im_outputDir : string;
  im_outputBaseName : string;
  im_imageNameTag : string
}.

(** ** Constants of the package *)

Definition bootx64Binary : string := "bootx64.efi".
Definition grubx64Binary : string := "grubx64.efi".
Definition grubx64NoPrefixBinary : string := "grubx64-noprefix.efi".
Definition grubCfgDir : string := "/boot/grub2".
Definition isoGrubCfg : string := "grub.cfg".
Definition pxeGrubCfg : string := "grub-pxe.cfg".
Definition pxeKernelsArgs : string := "ip=dhcp rd.live.azldownloader=enable".
Definition isoBootDir : string := "boot".
Definition initrdImage : string := "initrd.img".
Definition vmLinuzPrefix : string := "vmlinuz-".
Definition isoInitrdPath : string := "/boot/" +:+ initrdImage.
Definition isoKernelPath : string := "/boot/vmlinuz".
Definition liveOSDir : string := "liveos".
Definition liveOSImage : string := "rootfs.img".
Definition savedConfigsDir : string := "azl-image-customizer".
Definition savedConfigsFileName : string := "saved-configs.yaml".

(** [fmt.Sprintf(searchCommandTemplate, label)]. *)
Definition searchCommandTemplate (label : string) : string :=
  "search --label " +:+ label +:+ " --set root".

(** [fmt.Sprintf(rootValueLiveOSTemplate, label)]. *)
Definition rootValueLiveOSTemplate (label : string) : string :=
  "live:LABEL=" +:+ label.

(** [fmt.Sprintf(rootValuePxeTemplate, url)]. *)
Definition rootValuePxeTemplate (url : string) : string :=
  "live:" +:+ url.

(** [fmt.Sprintf(kernelArgsLiveOSTemplate, dir, image)]. *)
Definition kernelArgsLiveOSTemplate (dir image : string) : string :=
  " rd.shell rd.live.image rd.live.dir=" +:+ dir +:+ " rd.live.squashimg=" +:+ image
  +:+ " rd.live.overlay=1 rd.live.overlay.overlayfs rd.live.overlay.nouserconfirmprompt ".

(** ** Floating point ([float64] is IEEE 754 binary64) *)

Module Float64.

(** [float64(n)] for an unsigned integer [n]: the nearest binary64 number. *)
Definition of_uint64 (n : Z) : spec_float := binary_normalize 53 1024 n 0 false.

(** The product of two binary64 numbers, rounded to nearest even. *)
Definition mul : spec_float -> spec_float -> spec_float := SFmul 53 1024.

(** [uint64(f)]: the fractional part is dropped.  Go leaves the result
    open when [f] is negative, not finite or too large; zero stands for
    the first two here, and the values that arise below are less than
    2^64. *)
Definition to_uint64 (f : spec_float) : Z :=
  match f with
  | S754_finite false m e => if 0 <=? e then Z.pos m * 2 ^ e else Z.pos m / 2 ^ (- e)
  | _ => 0
  end.

End Float64.

(** The safety factor 1.5, that is 3 * 2^-1, as a binary64 number. *)
Definition expansionSafetyFactor : spec_float :=
  Eval cbv in binary_normalize 53 1024 3 (-1) false.

(** Modelled from the spec: [diskutils.KiB], declared in another package;
    the disk-usage query reports kilobytes of 1024 bytes. *)
Definition KiB : Z := 1024.

(** Modelled from the spec: [diskutils.MiB], declared in another package;
    the megabytes of the disk layout are mebibytes (the ESP spans 1 MiB to
    9 MiB). *)
Definition MiB : Z := 1024 * 1024.

(** The exclusion patterns of [extractBootDirFiles], in order. *)
Definition exclusions : list regex :=
  [ ReCat (ReLit "/boot/initrd.img") (ReStar ReAnyNotNL);
    ReCat (ReLit "/boot/initramfs-")
      (ReCat (ReStar ReAnyNotNL) (ReCat (ReLit ".img") (ReStar ReAnyNotNL)));
    ReLit "/boot/efi/boot/grub2/grub.cfg" ].

(** The inner loop of [extractBootDirFiles]: some pattern matches. *)
Definition excluded (sourcePath : string) : bool :=
  existsb (fun exclusion => FindStringIndex_found exclusion sourcePath) exclusions.

Definition getImageNameFromImageBaseName (isoOutputBaseName : string) : isoImageNameInfo :=
  let baseName := isoOutputBaseName in
  let releaseVersion := "" in
  let tag := "" in
  {| tag := tag; releaseVersion := releaseVersion; baseName := baseName;
     name := baseName +:+ releaseVersion +:+ tag +:+ ".iso" |}.

(** [containsGrubNoPrefix]. *)
Fixpoint containsGrubNoPrefix (filePaths : list string) : bool :=
  match filePaths with
  | [] => false
  | filePath :: rest =>
      if decide (GoPath.Base filePath = grubx64NoPrefixBinary) then true
      else containsGrubNoPrefix rest
  end.

(** ** Builder state, saved configuration and the outside world *)

Section Builder.

(** [DracutPackageInformation] is declared in another file of the package;
    its fields are never inspected by the functions embedded here. *)
Context {DracutPackageInformation : Type}.

(** [IsoArtifacts]: the artifact table.  [additionalFiles] maps a path on
    the build machine to a path on the ISO media. *)
Record IsoArtifacts := {
  kernelVersion : string;
  dracutPackageInfo : option DracutPackageInformation;
  bootx64EfiPath : string;
  grubx64EfiPath : string;
  isoGrubCfgPath : string;
  pxeGrubCfgPath : string;
  savedConfigsFilePath : string;
  vmlinuzPath : string;
  initrdImagePath : string;
  squashfsImagePath : string;
  additionalFiles : gmap string string
}.

Record LiveOSIsoBuilder := {
  workingDirs : IsoWorkingDirs;
  artifacts : IsoArtifacts;
  cleanupDirs : list string
}.

(** [SavedConfigs], flattened: [Iso.KernelCommandLine.ExtraCommandLine],
    [Pxe.IsoImageBaseUrl], [Pxe.IsoImageFileUrl], [OS.DracutPackageInfo]. *)
Record SavedConfigs := {
  ExtraCommandLine : string;
  IsoImageBaseUrl : string;
  IsoImageFileUrl : string;
  DracutPackageInfo : option DracutPackageInformation
}.

(** One entry per operation performed on the file system, the logger or an
    external tool, in the order performed. *)
Inductive Event : Type :=
| EvRemoveAll (path : string)
| EvMkdirAll (path : string)
| EvPathExists (path : string)
| EvEnumerateDirFiles (dir : string)
| EvLoadSavedConfigs (path : string)
| EvPersistSavedConfigs (cfg : SavedConfigs) (path : string)
| EvReadFile (path : string)
| EvWriteFile (content path : string)
| EvCopyFile (src dst : string)
| EvLogInfo (msg : string)
| EvLogDebug (msg : string)
| EvNewIsoMaker (cfg : IsoMakerConfig)
| EvIsoMakerMake (cfg : IsoMakerConfig)
| EvPopulatePXEArtifactsDir (isoImagePath buildDir outputPXEArtifactsDir outputImageBase : string)
| EvDiskUsage (rootDir : string).

Definition Trace := list Event.

(** Does the event change the file system? *)
Definition mutates_filesystem (ev : Event) : bool :=
  match ev with
  | EvRemoveAll _ | EvMkdirAll _ | EvPersistSavedConfigs _ _ | EvWriteFile _ _
  | EvCopyFile _ _ | EvIsoMakerMake _ | EvPopulatePXEArtifactsDir _ _ _ _ => true
  | _ => false
  end.

(** The outcome of every operation, as a function of what happened before
    it.  [load_saved_configs] is [loadSavedConfigs]: [Ok None] is the nil
    pointer returned when there is no saved configuration.
    [persist_saved_configs] is the method [persistSavedConfigs].
    [range_order] is the order in which a [range] visits a map.
    [populate_pxe] runs [populatePXEArtifactsDir] as one operation. *)
Record World := {
  os_RemoveAll : Trace -> string -> option error;
  os_MkdirAll : Trace -> string -> option error;
  file_PathExists : Trace -> string -> Result bool;
  file_EnumerateDirFiles : Trace -> string -> Result (list string);
  load_saved_configs : Trace -> string -> Result (option SavedConfigs);
  persist_saved_configs : Trace -> SavedConfigs -> string -> option error;
  file_Read : Trace -> string -> Result string;
  file_Write : Trace -> string -> string -> option error;
  file_CopyNoDereference : Trace -> string -> string -> option error;
  isomaker_New : Trace -> IsoMakerConfig -> option error;
  isomaker_Make : Trace -> IsoMakerConfig -> option error;
  populate_pxe : Trace -> string -> string -> string -> string -> option error;
  shell_du : Trace -> string -> Result string;
  range_order : Trace -> gmap string string -> list (string * string)
}.

(** Functions of other files of the package and of Go's library that are
    pure transformations of their arguments.  The grub helpers return the
    rewritten configuration (a second result that the callers here ignore
    is left out); [setLinuxPath] and [setInitrdPath] also return the path
    they replaced. *)
Record Helpers := {
  DefaultVolumeId : string;
  linuxCommand : string;
  initrdCommand : string;
  SELinuxMode : Type;
  SELinuxModeDisabled : SELinuxMode;
  verifyDracutPXESupport : option DracutPackageInformation -> option error;
  url_JoinPath : string -> string -> Result string;
  GetAbsPathWithBase : string -> string -> string;
  replaceSearchCommandAll : string -> string -> Result string;
  isGrubMkconfigConfig : string -> bool;
  setLinuxPath : string -> string -> Result (string * string);
  setInitrdPath : string -> string -> Result (string * string);
  replaceToken : string -> string -> string -> Result string;
  setLinuxOrInitrdPathAll : string -> string -> string -> bool -> Result string;
  replaceKernelCommandLineArgValueAll : string -> string -> string -> bool -> Result string;
  updateSELinuxCommandLineHelperAll : string -> SELinuxMode -> bool -> bool -> Result string;
  appendKernelCommandLineArgsAll : string -> string -> bool -> bool -> Result string;
  removeCommandAll : string -> string -> Result string
}.

(** Effectful code: from the trace so far to a result and the new trace. *)
Definition IO (A : Type) : Type := Trace -> A * Trace.

Definition ret {A} (a : A) : IO A := fun tr => (a, tr).

Definition bind {A B} (m : IO A) (k : A -> IO B) : IO B :=
  fun tr => let '(a, tr') := m tr in k a tr'.

(** Perform one operation: ask the world, then record the event. *)
Definition perform {A} (outcome : Trace -> A) (ev : Event) : IO A :=
  fun tr => (outcome tr, tr ++ [ev]).

(** Record an event that has no outcome (a log line). *)
Definition emit (ev : Event) : IO unit :=
  fun tr => (tt, tr ++ [ev]).

End Builder.

Arguments IsoArtifacts : clear implicits.
Arguments LiveOSIsoBuilder : clear implicits.
Arguments SavedConfigs : clear implicits.
Arguments Event : clear implicits.
Arguments Trace : clear implicits.
Arguments World : clear implicits.
Arguments Helpers : clear implicits.
Arguments IO : clear implicits.

Declare Scope io_scope.
Delimit Scope io_scope with io.
Notation "x <- m ;; k" := (bind m (fun x => k))
  (at level 100, m at next level, right associativity) : io_scope.
Notation "m ;;; k" := (bind m (fun _ => k))
  (at level 100, right associativity) : io_scope.

(** [fmt.Errorf(prefix + "%w", e)]. *)
Definition wrapf (prefix : string) (e : error) : error :=
  Errorf (prefix +:+ Error e) [e].

(** Early return on the error of a pure helper, wrapped with [prefix]. *)
Definition try_wrap {A B} (prefix : string) (r : Result A) (k : A -> Result B) : Result B :=
  match r with
  | Ok a => k a
  | Err e => Err (wrapf prefix e)
  end.

Notation "'let?' x ':=' r 'or_wrap' p 'in' k" := (try_wrap p r (fun x => k))
  (at level 10, x pattern, r at level 100, p at level 100, k at level 200).

(** ** The functions of the package *)

Section Functions.

Context {DracutPackageInformation : Type}.
Context (H : Helpers DracutPackageInformation) (w : World DracutPackageInformation).

Abbreviation Builder := (LiveOSIsoBuilder DracutPackageInformation).
Abbreviation Artifacts := (IsoArtifacts DracutPackageInformation).
Abbreviation Saved := (SavedConfigs DracutPackageInformation).
Abbreviation IO := (IO DracutPackageInformation).

Local Open Scope io_scope.

(** *** Field updates *)

Definition with_artifacts (b : Builder) (a : Artifacts) : Builder :=
  {| workingDirs := workingDirs b; artifacts := a; cleanupDirs := cleanupDirs b |}.

Definition set_kernelVersion (v : string) (a : Artifacts) : Artifacts :=
  {| kernelVersion := v; dracutPackageInfo := dracutPackageInfo a;
     bootx64EfiPath := bootx64EfiPath a; grubx64EfiPath := grubx64EfiPath a;
     isoGrubCfgPath := isoGrubCfgPath a; pxeGrubCfgPath := pxeGrubCfgPath a;
     savedConfigsFilePath := savedConfigsFilePath a; vmlinuzPath := vmlinuzPath a;
     initrdImagePath := initrdImagePath a; squashfsImagePath := squashfsImagePath a;
     additionalFiles := additionalFiles a |}.

Definition set_dracutPackageInfo (v : option DracutPackageInformation) (a : Artifacts) : Artifacts :=
  {| kernelVersion := kernelVersion a; dracutPackageInfo := v;
     bootx64EfiPath := bootx64EfiPath a; grubx64EfiPath := grubx64EfiPath a;
     isoGrubCfgPath := isoGrubCfgPath a; pxeGrubCfgPath := pxeGrubCfgPath a;
     savedConfigsFilePath := savedConfigsFilePath a; vmlinuzPath := vmlinuzPath a;
     initrdImagePath := initrdImagePath a; squashfsImagePath := squashfsImagePath a;
     additionalFiles := additionalFiles a |}.

Definition set_bootx64EfiPath (v : string) (a : Artifacts) : Artifacts :=
  {| kernelVersion := kernelVersion a; dracutPackageInfo := dracutPackageInfo a;
     bootx64EfiPath := v; grubx64EfiPath := grubx64EfiPath a;
     isoGrubCfgPath := isoGrubCfgPath a; pxeGrubCfgPath := pxeGrubCfgPath a;
     savedConfigsFilePath := savedConfigsFilePath a; vmlinuzPath := vmlinuzPath a;
     initrdImagePath := initrdImagePath a; squashfsImagePath := squashfsImagePath a;
     additionalFiles := additionalFiles a |}.

Definition set_grubx64EfiPath (v : string) (a : Artifacts) : Artifacts :=
  {| kernelVersion := kernelVersion a; dracutPackageInfo := dracutPackageInfo a;
     bootx64EfiPath := bootx64EfiPath a; grubx64EfiPath := v;
     isoGrubCfgPath := isoGrubCfgPath a; pxeGrubCfgPath := pxeGrubCfgPath a;
     savedConfigsFilePath := savedConfigsFilePath a; vmlinuzPath := vmlinuzPath a;
     initrdImagePath := initrdImagePath a; squashfsImagePath := squashfsImagePath a;
     additionalFiles := additionalFiles a |}.

Definition set_isoGrubCfgPath (v : string) (a : Artifacts) : Artifacts :=
  {| kernelVersion := kernelVersion a; dracutPackageInfo := dracutPackageInfo a;
     bootx64EfiPath := bootx64EfiPath a; grubx64EfiPath := grubx64EfiPath a;
     isoGrubCfgPath := v; pxeGrubCfgPath := pxeGrubCfgPath a;
     savedConfigsFilePath := savedConfigsFilePath a; vmlinuzPath := vmlinuzPath a;
     initrdImagePath := initrdImagePath a; squashfsImagePath := squashfsImagePath a;
     additionalFiles := additionalFiles a |}.

Definition set_pxeGrubCfgPath (v : string) (a : Artifacts) : Artifacts :=
  {| kernelVersion := kernelVersion a; dracutPackageInfo := dracutPackageInfo a;
     bootx64EfiPath := bootx64EfiPath a; grubx64EfiPath := grubx64EfiPath a;
     isoGrubCfgPath := isoGrubCfgPath a; pxeGrubCfgPath := v;
     savedConfigsFilePath := savedConfigsFilePath a; vmlinuzPath := vmlinuzPath a;
     initrdImagePath := initrdImagePath a; squashfsImagePath := squashfsImagePath a;
     additionalFiles := additionalFiles a |}.

Definition set_vmlinuzPath (v : string) (a : Artifacts) : Artifacts :=
  {| kernelVersion := kernelVersion a; dracutPackageInfo := dracutPackageInfo a;
     bootx64EfiPath := bootx64EfiPath a; grubx64EfiPath := grubx64EfiPath a;
     isoGrubCfgPath := isoGrubCfgPath a; pxeGrubCfgPath := pxeGrubCfgPath a;
     savedConfigsFilePath := savedConfigsFilePath a; vmlinuzPath := v;
     initrdImagePath := initrdImagePath a; squashfsImagePath := squashfsImagePath a;
     additionalFiles := additionalFiles a |}.

Definition set_additionalFiles (v : gmap string string) (a : Artifacts) : Artifacts :=
  {| kernelVersion := kernelVersion a; dracutPackageInfo := dracutPackageInfo a;
     bootx64EfiPath := bootx64EfiPath a; grubx64EfiPath := grubx64EfiPath a;
     isoGrubCfgPath := isoGrubCfgPath a; pxeGrubCfgPath := pxeGrubCfgPath a;
     savedConfigsFilePath := savedConfigsFilePath a; vmlinuzPath := vmlinuzPath a;
     initrdImagePath := initrdImagePath a; squashfsImagePath := squashfsImagePath a;
     additionalFiles := v |}.

Definition set_ExtraCommandLine (v : string) (c : Saved) : Saved :=
  {| ExtraCommandLine := v; IsoImageBaseUrl := IsoImageBaseUrl c;
     IsoImageFileUrl := IsoImageFileUrl c; DracutPackageInfo := DracutPackageInfo c |}.

Definition set_IsoImageBaseUrl (v : string) (c : Saved) : Saved :=
  {| ExtraCommandLine := ExtraCommandLine c; IsoImageBaseUrl := v;
     IsoImageFileUrl := IsoImageFileUrl c; DracutPackageInfo := DracutPackageInfo c |}.

Definition set_IsoImageFileUrl (v : string) (c : Saved) : Saved :=
  {| ExtraCommandLine := ExtraCommandLine c; IsoImageBaseUrl := IsoImageBaseUrl c;
     IsoImageFileUrl := v; DracutPackageInfo := DracutPackageInfo c |}.

Definition set_DracutPackageInfo (v : option DracutPackageInformation) (c : Saved) : Saved :=
  {| ExtraCommandLine := ExtraCommandLine c; IsoImageBaseUrl := IsoImageBaseUrl c;
     IsoImageFileUrl := IsoImageFileUrl c; DracutPackageInfo := v |}.

(** *** Cleanup *)

Definition addCleanupDir (b : Builder) (dirName : string) : Builder :=
  {| workingDirs := workingDirs b; artifacts := artifacts b;
     cleanupDirs := cleanupDirs b ++ [dirName] |}.

Definition RemoveAll (path : string) : IO (option error) :=
  perform (fun tr => os_RemoveAll w tr path) (EvRemoveAll path).

(** The body of the loop of [cleanUp]: remove one directory and fold its
    failure into [err]. *)
Definition cleanUp_body (dir : string) (err : option error) : IO (option error) :=
  cleanupErr <- RemoveAll dir ;;
  ret match cleanupErr with
      | Some ce =>
          match err with
          | Some e =>
              Some (Errorf (Error e +:+ ":" +:+ nl +:+ "failed to remove (" +:+ dir +:+ "): " +:+ Error ce)
                           [e; ce])
          | None =>
              Some (Errorf ("failed to clean-up (" +:+ dir +:+ "): " +:+ Error ce) [ce])
          end
      | None => err
      end.

(** [for i := len(b.cleanupDirs) - 1; i >= 0; i--]: [n] is [i + 1]. *)
Fixpoint cleanUp_loop (dirs : list string) (n : nat) (err : option error) : IO (option error) :=
  match n with
  | O => ret err
  | S i =>
      match dirs !! i with
      | Some dir => err' <- cleanUp_body dir err ;; cleanUp_loop dirs i err'
      | None => ret err
      end
  end.

Definition cleanUp (b : Builder) : IO (option error) :=
  cleanUp_loop (cleanupDirs b) (length (cleanupDirs b)) None.

(** The loop of [cleanUp], told as a walk over the directories in the order
    in which they are visited. *)
Fixpoint cleanUp_walk (visited : list string) (err : option error) (tr : Trace DracutPackageInformation)
    : option error * Trace DracutPackageInformation :=
  match visited with
  | [] => (err, tr)
  | dir :: rest =>
      let '(err', tr') := cleanUp_body dir err tr in
      cleanUp_walk rest err' tr'
  end.

(** The deferred function of [createLiveOSIsoImage]: remove the build
    directory and fold a failure into the error being returned. *)
Definition createLiveOSIsoImage_deferred (b : Builder) (err : option error) : IO (option error) :=
  let dir := isoBuildDir (workingDirs b) in
  cleanupErr <- RemoveAll dir ;;
  ret match cleanupErr with
      | Some ce =>
          match err with
          | Some e =>
              Some (Errorf (Error e +:+ ":" +:+ nl +:+ "failed to clean-up (" +:+ dir +:+ "): " +:+ Error ce)
                           [e; ce])
          | None =>
              Some (Errorf ("failed to clean-up (" +:+ dir +:+ "): " +:+ Error ce) [ce])
          end
      | None => err
      end.

(** *** Saved configuration *)

Definition loadSavedConfigs (path : string) : IO (Result (option Saved)) :=
  perform (fun tr => load_saved_configs w tr path) (EvLoadSavedConfigs path).

Definition persistSavedConfigs (cfg : Saved) (path : string) : IO (option error) :=
  perform (fun tr => persist_saved_configs w tr cfg path) (EvPersistSavedConfigs cfg path).

(** The body of [if savedConfigs != nil] in [updateSavedConfigs]: the
    assignments to [updatedSavedConfigs], in order. *)
Definition mergeSavedConfigs (savedConfigs : Saved) (newKernelArgs newPxeIsoImageBaseUrl
    newPxeIsoImageFileUrl : string) (newDracutPackageInfo : option DracutPackageInformation)
    (updatedSavedConfigs : Saved) : Saved :=
  let u1 :=
    if decide (ExtraCommandLine savedConfigs ≠ "") then
      let savedArgs := TrimSpace (ExtraCommandLine savedConfigs) in
      let newArgs := TrimSpace newKernelArgs in
      set_ExtraCommandLine (savedArgs +:+ " " +:+ newArgs) updatedSavedConfigs
    else updatedSavedConfigs in
  let u2 :=
    if decide (newPxeIsoImageBaseUrl = "" /\ IsoImageBaseUrl savedConfigs ≠ "")
    then set_IsoImageBaseUrl (IsoImageBaseUrl savedConfigs) u1 else u1 in
  let u3 :=
    if decide (newPxeIsoImageFileUrl = "" /\ IsoImageFileUrl savedConfigs ≠ "")
    then set_IsoImageFileUrl (IsoImageFileUrl savedConfigs) u2 else u2 in
  let u4 :=
    if decide (newPxeIsoImageBaseUrl ≠ "") then set_IsoImageFileUrl "" u3 else u3 in
  let u5 :=
    if decide (newPxeIsoImageFileUrl ≠ "") then set_IsoImageBaseUrl "" u4 else u4 in
  match newDracutPackageInfo with
  | None => set_DracutPackageInfo (DracutPackageInfo savedConfigs) u5
  | Some _ => u5
  end.

Definition updateSavedConfigs (savedConfigsFilePath newKernelArgs newPxeIsoImageBaseUrl
    newPxeIsoImageFileUrl : string) (newDracutPackageInfo : option DracutPackageInformation)
    : IO (Result Saved) :=
  let updatedSavedConfigs :=
    {| ExtraCommandLine := newKernelArgs;
       IsoImageBaseUrl := newPxeIsoImageBaseUrl;
       IsoImageFileUrl := newPxeIsoImageFileUrl;
       DracutPackageInfo := newDracutPackageInfo |} in
  loaded <- loadSavedConfigs savedConfigsFilePath ;;
  match loaded with
  | Err e =>
      ret (Err (wrapf ("failed to load saved configurations (" +:+ savedConfigsFilePath +:+ "):" +:+ nl) e))
  | Ok savedConfigs =>
      let updatedSavedConfigs :=
        match savedConfigs with
        | Some savedConfigs =>
            mergeSavedConfigs savedConfigs newKernelArgs newPxeIsoImageBaseUrl
              newPxeIsoImageFileUrl newDracutPackageInfo updatedSavedConfigs
        | None => updatedSavedConfigs
        end in
      err <- persistSavedConfigs updatedSavedConfigs savedConfigsFilePath ;;
      match err with
      | Some e => ret (Err (wrapf ("failed to save iso configs:" +:+ nl) e))
      | None => ret (Ok updatedSavedConfigs)
      end
  end.

(** *** Grub configuration *)

Definition ReadFile (path : string) : IO (Result string) :=
  perform (fun tr => file_Read w tr path) (EvReadFile path).

Definition WriteFile (content path : string) : IO (option error) :=
  perform (fun tr => file_Write w tr content path) (EvWriteFile content path).

Definition conflictError : error :=
  Errorf "cannot set both iso image base url and full image url at the same time." [].

(** The value that [generatePxeGrubCfg] gives to the [root] kernel argument:
    [live:] followed by the file URL or, when that is empty, by the base
    URL joined with the name of the generated image. *)
Definition pxeRootValue (pxeIsoImageBaseUrl pxeIsoImageFileUrl outputImageBase : string)
    : Result string :=
  if decide (pxeIsoImageFileUrl = "") then
    let? pxeIsoImageFileUrl :=
      url_JoinPath H pxeIsoImageBaseUrl (name (getImageNameFromImageBaseName outputImageBase))
      or_wrap "failed to concatenate URL (" +:+ pxeIsoImageBaseUrl +:+ ") and ("
              +:+ outputImageBase +:+ ")" +:+ nl in
    Ok (rootValuePxeTemplate pxeIsoImageFileUrl)
  else Ok (rootValuePxeTemplate pxeIsoImageFileUrl).

(** [generatePxeGrubCfg] up to the content to be written. *)
Definition pxeGrubCfgContent (inputContentString pxeIsoImageBaseUrl pxeIsoImageFileUrl
    outputImageBase : string) : Result string :=
  if decide (pxeIsoImageBaseUrl ≠ "" /\ pxeIsoImageFileUrl ≠ "") then Err conflictError
  else
    let? inputContentString := removeCommandAll H inputContentString "search"
      or_wrap "failed to remove the 'search' commands from PXE grub.cfg:" +:+ nl in
    match pxeRootValue pxeIsoImageBaseUrl pxeIsoImageFileUrl outputImageBase with
    | Err e => Err e
    | Ok rootValue =>
        let? inputContentString :=
          replaceKernelCommandLineArgValueAll H inputContentString "root" rootValue true
          or_wrap "failed to update the root kernel argument with the PXE iso image url in the PXE grub.cfg:" +:+ nl in
        let? inputContentString :=
          appendKernelCommandLineArgsAll H inputContentString pxeKernelsArgs true false
          or_wrap "failed to append the kernel arguments (" +:+ pxeKernelsArgs +:+ ") in the PXE grub.cfg:" +:+ nl in
        Ok inputContentString
    end.

Definition generatePxeGrubCfg (inputContentString pxeIsoImageBaseUrl pxeIsoImageFileUrl
    outputImageBase pxeGrubCfgFileName : string) : IO (option error) :=
  match pxeGrubCfgContent inputContentString pxeIsoImageBaseUrl pxeIsoImageFileUrl outputImageBase with
  | Err e => ret (Some e)
  | Ok inputContentString =>
      err <- WriteFile inputContentString pxeGrubCfgFileName ;;
      match err with
      | Some e => ret (Some (wrapf ("failed to write " +:+ pxeGrubCfgFileName +:+ ":" +:+ nl) e))
      | None => ret None
      end
  end.

(** [updateGrubCfg] between reading and writing the ISO grub.cfg. *)
Definition isoGrubCfgContent (inputContentString : string) (savedConfigs : Saved) : Result string :=
  let searchCommand := searchCommandTemplate (DefaultVolumeId H) in
  let? inputContentString := replaceSearchCommandAll H inputContentString searchCommand
    or_wrap "failed to update the search command in the iso grub.cfg:" +:+ nl in
  let grubMkconfigEnabled := isGrubMkconfigConfig H inputContentString in
  let paths :=
    if negb grubMkconfigEnabled then
      let? (inputContentString, oldLinuxPath) := setLinuxPath H inputContentString isoKernelPath
        or_wrap "failed to update the kernel file path in the iso grub.cfg:" +:+ nl in
      let? inputContentString := replaceToken H inputContentString oldLinuxPath isoKernelPath
        or_wrap "failed to update all the kernel file path occurances in the iso grub.cfg:" +:+ nl in
      let? (inputContentString, oldInitrdPath) := setInitrdPath H inputContentString isoInitrdPath
        or_wrap "failed to update the initrd file path in the iso grub.cfg:" +:+ nl in
      let? inputContentString := replaceToken H inputContentString oldInitrdPath isoInitrdPath
        or_wrap "failed to update all the initrd file path occurances in the iso grub.cfg:" +:+ nl in
      Ok inputContentString
    else
      let? inputContentString :=
        setLinuxOrInitrdPathAll H inputContentString (linuxCommand H) isoKernelPath true
        or_wrap "failed to update the kernel file path in the iso grub.cfg:" +:+ nl in
      let? inputContentString :=
        setLinuxOrInitrdPathAll H inputContentString (initrdCommand H) isoInitrdPath true
        or_wrap "failed to update the initrd file path in the iso grub.cfg:" +:+ nl in
      Ok inputContentString in
  match paths with
  | Err e => Err e
  | Ok inputContentString =>
      let rootValue := rootValueLiveOSTemplate (DefaultVolumeId H) in
      let? inputContentString :=
        replaceKernelCommandLineArgValueAll H inputContentString "root" rootValue true
        or_wrap "failed to update the root kernel argument in the iso grub.cfg:" +:+ nl in
      let? inputContentString :=
        updateSELinuxCommandLineHelperAll H inputContentString (SELinuxModeDisabled H) true false
        or_wrap "failed to set SELinux mode:" +:+ nl in
      let liveosKernelArgs := kernelArgsLiveOSTemplate liveOSDir liveOSImage in
      let additionalKernelCommandline :=
        liveosKernelArgs +:+ " " +:+ ExtraCommandLine savedConfigs in
      let? inputContentString :=
        appendKernelCommandLineArgsAll H inputContentString additionalKernelCommandline true false
        or_wrap "failed to update the kernel arguments with the LiveOS configuration and user configuration in the iso grub.cfg:" +:+ nl in
      Ok inputContentString
  end.

Definition updateGrubCfg (isoGrubCfgFileName pxeGrubCfgFileName : string)
    (savedConfigs : Saved) (outputImageBase : string) : IO (option error) :=
  read <- ReadFile isoGrubCfgFileName ;;
  match read with
  | Err e => ret (Some e)
  | Ok inputContentString =>
      match isoGrubCfgContent inputContentString savedConfigs with
      | Err e => ret (Some e)
      | Ok inputContentString =>
          err <- WriteFile inputContentString isoGrubCfgFileName ;;
          match err with
          | Some e => ret (Some (wrapf ("failed to write " +:+ isoGrubCfgFileName +:+ ":" +:+ nl) e))
          | None =>
              match verifyDracutPXESupport H (DracutPackageInfo savedConfigs) with
              | Some e =>
                  emit (EvLogInfo ("cannot generate grub.cfg for PXE booting." +:+ nl +:+ Error e)) ;;;
                  ret None
              | None =>
                  err <- generatePxeGrubCfg inputContentString (IsoImageBaseUrl savedConfigs)
                           (IsoImageFileUrl savedConfigs) outputImageBase pxeGrubCfgFileName ;;
                  match err with
                  | Some e =>
                      ret (Some (wrapf ("failed to create grub configuration for PXE booting." +:+ nl) e))
                  | None => ret None
                  end
              end
          end
      end
  end.

(** *** Classifying the files of /boot *)

Definition EnumerateDirFiles (dir : string) : IO (Result (list string)) :=
  perform (fun tr => file_EnumerateDirFiles w tr dir) (EvEnumerateDirFiles dir).

(** [file.NewFileCopyBuilder(src, dst).SetNoDereference().Run()]. *)
Definition CopyNoDereference (src dst : string) : IO (option error) :=
  perform (fun tr => file_CopyNoDereference w tr src dst) (EvCopyFile src dst).

(** The [switch] on the file name and the test for the kernel prefix in the
    loop of [extractBootDirFiles]: the new artifact table, the (possibly
    changed) target path, and [scheduleAdditionalFile]. *)
Definition classifyBootFile (usingGrubNoPrefix : bool) (artifactsDir : string)
    (a : Artifacts) (targetPath : string) : Artifacts * string * bool :=
  let targetFileName := GoPath.Base targetPath in
  let '(a, targetPath, scheduleAdditionalFile) :=
    if decide (targetFileName = bootx64Binary) then
      (set_bootx64EfiPath targetPath a, targetPath, false)
    else if decide (targetFileName = grubx64Binary \/ targetFileName = grubx64NoPrefixBinary) then
      (set_grubx64EfiPath targetPath a, targetPath, false)
    else if decide (targetFileName = isoGrubCfg) then
      let targetPath :=
        if usingGrubNoPrefix then GoPath.Join [artifactsDir; "EFI/BOOT"; isoGrubCfg]
        else targetPath in
      let a := set_isoGrubCfgPath targetPath a in
      let a := set_pxeGrubCfgPath (GoPath.Join [GoPath.Dir (isoGrubCfgPath a); pxeGrubCfg]) a in
      (a, targetPath, false)
    else (a, targetPath, true) in
  if HasPrefix targetFileName vmLinuzPrefix then
    let targetPath := GoPath.Join [GoPath.Dir targetPath; "vmlinuz"] in
    (set_vmlinuzPath targetPath a, targetPath, false)
  else (a, targetPath, scheduleAdditionalFile).

Definition notCopyingMessage (sourcePath : string) : string :=
  "Not copying " +:+ sourcePath +:+ ". File is either unnecessary or will be re-generated.".

(** One iteration of the loop over the files of /boot.  The builder is
    returned together with the error that ends the function, if any. *)
Definition extractBootDirFiles_body (usingGrubNoPrefix : bool) (writeableRootfsDir : string)
    (b : Builder) (sourcePath : string) : IO (Builder * option error) :=
  if excluded sourcePath then
    emit (EvLogDebug (notCopyingMessage sourcePath)) ;;;
    ret (b, None)
  else
    let artifactsDir := isoArtifactsDir (workingDirs b) in
    let targetPath := ReplaceAll sourcePath writeableRootfsDir artifactsDir in
    let '(a, targetPath, scheduleAdditionalFile) :=
      classifyBootFile usingGrubNoPrefix artifactsDir (artifacts b) targetPath in
    let b := with_artifacts b a in
    err <- CopyNoDereference sourcePath targetPath ;;
    match err with
    | Some e =>
        ret (b, Some (wrapf ("failed to extract files from under the boot folder:" +:+ nl) e))
    | None =>
        if scheduleAdditionalFile then
          ret (with_artifacts b
                 (set_additionalFiles
                    (<[targetPath := TrimPrefix targetPath artifactsDir]> (additionalFiles a)) a),
               None)
        else ret (b, None)
    end.

Fixpoint extractBootDirFiles_loop (usingGrubNoPrefix : bool) (writeableRootfsDir : string)
    (bootFolderFilePaths : list string) (b : Builder) : IO (Builder * option error) :=
  match bootFolderFilePaths with
  | [] => ret (b, None)
  | sourcePath :: rest =>
      r <- extractBootDirFiles_body usingGrubNoPrefix writeableRootfsDir b sourcePath ;;
      match r with
      | (b, Some e) => ret (b, Some e)
      | (b, None) => extractBootDirFiles_loop usingGrubNoPrefix writeableRootfsDir rest b
      end
  end.

Definition missingShimError : error :=
  Errorf ("failed to find the boot efi file (" +:+ bootx64Binary +:+ "):" +:+ nl
          +:+ "this file is provided by the (shim) package") [].

Definition missingGrubError : error :=
  Errorf ("failed to find the grub efi file (" +:+ grubx64Binary +:+ " or "
          +:+ grubx64NoPrefixBinary +:+ "):" +:+ nl
          +:+ "this file is provided by either the (grub2-efi-binary) or the (grub2-efi-binary-noprefix) package") [].

Definition extractBootDirFiles (b : Builder) (writeableRootfsDir : string)
    : IO (Builder * option error) :=
  let b := with_artifacts b (set_additionalFiles ∅ (artifacts b)) in
  scanned <- EnumerateDirFiles (GoPath.Join [writeableRootfsDir; "/boot"]) ;;
  match scanned with
  | Err e => ret (b, Some (wrapf ("failed to scan /boot folder:" +:+ nl) e))
  | Ok bootFolderFilePaths =>
      let usingGrubNoPrefix := containsGrubNoPrefix bootFolderFilePaths in
      r <- extractBootDirFiles_loop usingGrubNoPrefix writeableRootfsDir bootFolderFilePaths b ;;
      match r with
      | (b, Some e) => ret (b, Some e)
      | (b, None) =>
          if decide (bootx64EfiPath (artifacts b) = "") then ret (b, Some missingShimError)
          else if decide (grubx64EfiPath (artifacts b) = "") then ret (b, Some missingGrubError)
          else ret (b, None)
      end
  end.

(** The builder that [createLiveOSIsoImage] starts from. *)
Definition newLiveOSIsoBuilder (buildDir : string) : Builder :=
  let isoBuildDir := GoPath.Join [buildDir; "tmp"] in
  let isoArtifactsDir := GoPath.Join [isoBuildDir; "artifacts"] in
  let isomakerBuildDir := GoPath.Join [isoBuildDir; "isomaker-tmp"] in
  {| workingDirs := {| isoBuildDir := isoBuildDir; isoArtifactsDir := isoArtifactsDir;
                       isomakerBuildDir := isomakerBuildDir |};
     artifacts := {| kernelVersion := ""; dracutPackageInfo := None;
                     bootx64EfiPath := ""; grubx64EfiPath := "";
                     isoGrubCfgPath := ""; pxeGrubCfgPath := "";
                     savedConfigsFilePath :=
                       GoPath.Join [isoArtifactsDir; savedConfigsDir; savedConfigsFileName];
                     vmlinuzPath := ""; initrdImagePath := ""; squashfsImagePath := "";
                     additionalFiles := ∅ |};
     cleanupDirs := [] |}.

(** The builder as [prepareLiveOSDir] hands it to [extractBootDirFiles] on
    the way from a full image: created by [createLiveOSIsoImage], then given
    the kernel version ([findKernelVersion]) and the dracut package
    information ([getDracutVersion]) of the rootfs. *)
Definition builderBeforeBootScan (buildDir foundKernelVersion : string)
    (foundDracutPackageInfo : option DracutPackageInformation) : Builder :=
  let b := newLiveOSIsoBuilder buildDir in
  with_artifacts b
    (set_dracutPackageInfo foundDracutPackageInfo
       (set_kernelVersion foundKernelVersion (artifacts b))).

(** *** Carrying files over from the input ISO *)

(** The inner loop of the carry-over in [createLiveOSIsoImage]: is
    [inputTargetFile] the target of an entry of the new build? *)
Definition targetFile_found (newFiles : gmap string string) (inputTargetFile : string) : bool :=
  existsb (fun entry => bool_decide (inputTargetFile = entry.2)) (map_to_list newFiles).

(** The outer loop, over the entries of the input ISO in the order in
    which the [range] visits them. *)
Fixpoint carryOver_loop (inputEntries : list (string * string)) (newFiles : gmap string string)
    : gmap string string :=
  match inputEntries with
  | [] => newFiles
  | (inputSourceFile, inputTargetFile) :: rest =>
      carryOver_loop rest
        (if targetFile_found newFiles inputTargetFile then newFiles
         else <[inputSourceFile := inputTargetFile]> newFiles)
  end.

Definition rangeMap (m : gmap string string) : IO (list (string * string)) :=
  fun tr => (range_order w tr m, tr).

(** [if inputIsoArtifacts != nil { ... }] in [createLiveOSIsoImage]. *)
Definition carryOverAdditionalFiles (inputIsoArtifacts : option Builder) (isoBuilder : Builder)
    : IO Builder :=
  match inputIsoArtifacts with
  | None => ret isoBuilder
  | Some input =>
      inputEntries <- rangeMap (additionalFiles (artifacts input)) ;;
      ret (with_artifacts isoBuilder
             (set_additionalFiles
                (carryOver_loop inputEntries (additionalFiles (artifacts isoBuilder)))
                (artifacts isoBuilder)))
  end.

(** *** Assembling the ISO and the PXE folder *)

Definition PathExists (path : string) : IO (Result bool) :=
  perform (fun tr => file_PathExists w tr path) (EvPathExists path).

Definition MkdirAll (path : string) : IO (option error) :=
  perform (fun tr => os_MkdirAll w tr path) (EvMkdirAll path).

Definition populatePXEArtifactsDir (isoImagePath buildDir outputPXEArtifactsDir
    outputImageBase : string) : IO (option error) :=
  perform (fun tr => populate_pxe w tr isoImagePath buildDir outputPXEArtifactsDir outputImageBase)
          (EvPopulatePXEArtifactsDir isoImagePath buildDir outputPXEArtifactsDir outputImageBase).

Definition micIsoConfigToIsoMakerConfig (baseConfigPath : string) (isoConfig : option Iso)
    : list FileToCopy * string :=
  match isoConfig with
  | None => ([], "")
  | Some isoConfig =>
      (map (fun additionalFile =>
              let absSourceFile :=
                if decide (af_Source additionalFile ≠ "")
                then GetAbsPathWithBase H baseConfigPath (af_Source additionalFile)
                else "" in
              {| Src := absSourceFile; Content := af_Content additionalFile;
                 Dest := af_Destination additionalFile;
                 Permissions := af_Permissions additionalFile;
                 NoDereference := false |})
           (iso_AdditionalFiles isoConfig),
       iso_ExtraCommandLine isoConfig)
  end.

Definition createIsoImage (b : Builder) (additionalIsoFiles : list FileToCopy)
    (isoOutputDir isoOutputBaseName : string) : IO (Result string) :=
  let a := artifacts b in
  let nameInfo := getImageNameFromImageBaseName isoOutputBaseName in
  let isoImagePath := GoPath.Join [isoOutputDir; name nameInfo] in
  let squashfsImageToCopy :=
    {| Src := squashfsImagePath a; Content := None;
       Dest := GoPath.Join [liveOSDir; liveOSImage];
       Permissions := None; NoDereference := false |} in
  let additionalIsoFiles := additionalIsoFiles ++ [squashfsImageToCopy] in
  bootFiles <- rangeMap (additionalFiles a) ;;
  let additionalIsoFiles :=
    additionalIsoFiles ++
    map (fun entry => {| Src := entry.1; Content := None; Dest := entry.2;
                         Permissions := None; NoDereference := true |}) bootFiles in
  savedExists <- PathExists (savedConfigsFilePath a) ;;
  match savedExists with
  | Err e =>
      ret (Err (wrapf ("failed to check if (" +:+ savedConfigsFilePath a +:+ ") exists:" +:+ nl) e))
  | Ok savedExists =>
      let additionalIsoFiles :=
        if savedExists then
          additionalIsoFiles ++
          [ {| Src := savedConfigsFilePath a; Content := None;
               Dest := GoPath.Join ["/"; savedConfigsDir; savedConfigsFileName];
               Permissions := None; NoDereference := false |} ]
        else additionalIsoFiles in
      pxeExists <- PathExists (pxeGrubCfgPath a) ;;
      match pxeExists with
      | Err e =>
          ret (Err (wrapf ("failed to check if (" +:+ pxeGrubCfgPath a +:+ ") exists:" +:+ nl) e))
      | Ok pxeExists =>
          let additionalIsoFiles :=
            if pxeExists then
              additionalIsoFiles ++
              [ {| Src := pxeGrubCfgPath a; Content := None;
                   Dest := GoPath.Join ["/"; grubCfgDir; pxeGrubCfg];
                   Permissions := None; NoDereference := false |} ]
            else additionalIsoFiles in
          err <- MkdirAll isoOutputDir ;;
          match err with
          | Some e => ret (Err e)
          | None =>
              let cfg :=
                {| im_unattendedInstall := false; im_enableBiosBoot := false;
                   im_enableRpmRepo := false; im_baseDirPath := "";
                   im_buildDir := isomakerBuildDir (workingDirs b);
                   im_releaseVersion := releaseVersion nameInfo;
                   im_resourcesDir := ""; im_additionalIsoFiles := additionalIsoFiles;
                   im_bootDir := isoBootDir; im_initrdPath := initrdImagePath a;
                   im_grubCfgPath := isoGrubCfgPath a; im_repoDirPath := "";
                   im_outputDir := isoOutputDir; im_outputBaseName := isoOutputBaseName;
                   im_imageNameTag := tag nameInfo |} in
              err <- perform (fun tr => isomaker_New w tr cfg) (EvNewIsoMaker cfg) ;;
              match err with
              | Some e => ret (Err e)
              | None =>
                  err <- perform (fun tr => isomaker_Make w tr cfg) (EvIsoMakerMake cfg) ;;
                  match err with
                  | Some e => ret (Err e)
                  | None => ret (Ok isoImagePath)
                  end
              end
          end
      end
  end.

Definition createIsoImageAndPXEFolder (b : Builder) (additionalIsoFiles : list FileToCopy)
    (outputImageDir outputImageBase outputPXEArtifactsDir : string) : IO (option error) :=
  created <- createIsoImage b additionalIsoFiles outputImageDir outputImageBase ;;
  match created with
  | Err e => ret (Some e)
  | Ok isoImagePath =>
      if decide (outputPXEArtifactsDir ≠ "") then
        match verifyDracutPXESupport H (dracutPackageInfo (artifacts b)) with
        | Some e => ret (Some (wrapf ("cannot generate the PXE artifacts folder." +:+ nl) e))
        | None =>
            populatePXEArtifactsDir isoImagePath (isoBuildDir (workingDirs b))
              outputPXEArtifactsDir outputImageBase
        end
      else ret None
  end.

Definition createImageFromUnchangedOS (b : Builder) (baseConfigPath : string)
    (isoConfig : option Iso) (pxeConfig : option Pxe)
    (outputImageDir outputImageBase outputPXEArtifactsDir : string)
    : IO (Builder * option error) :=
  emit (EvLogInfo "Creating LiveOS iso image using unchanged OS partitions") ;;;
  let '(additionalIsoFiles, extraCommandLine) :=
    micIsoConfigToIsoMakerConfig baseConfigPath isoConfig in
  let pxeIsoImageBaseUrl :=
    match pxeConfig with Some p => pxe_IsoImageBaseUrl p | None => "" end in
  let pxeIsoImageFileUrl :=
    match pxeConfig with Some p => pxe_IsoImageFileUrl p | None => "" end in
  merged <- updateSavedConfigs (savedConfigsFilePath (artifacts b)) extraCommandLine
              pxeIsoImageBaseUrl pxeIsoImageFileUrl (dracutPackageInfo (artifacts b)) ;;
  match merged with
  | Err e =>
      ret (b, Some (wrapf ("failed to combine saved configurations with new configuration:" +:+ nl) e))
  | Ok updatedSavedConfigs =>
      let b := with_artifacts b
                 (set_dracutPackageInfo (DracutPackageInfo updatedSavedConfigs) (artifacts b)) in
      err <- updateGrubCfg (isoGrubCfgPath (artifacts b)) (pxeGrubCfgPath (artifacts b))
               updatedSavedConfigs outputImageBase ;;
      match err with
      | Some e => ret (b, Some (wrapf ("failed to update grub.cfg:" +:+ nl) e))
      | None =>
          err <- createIsoImageAndPXEFolder b additionalIsoFiles outputImageDir outputImageBase
                   outputPXEArtifactsDir ;;
          match err with
          | Some e =>
              ret (b, Some (wrapf ("failed to generate iso image and/or PXE artifacts folder" +:+ nl) e))
          | None => ret (b, None)
          end
      end
  end.

(** *** Disk size estimate *)

Definition uint64_modulus : Z := 2 ^ 64.

Definition is_digit (c : ascii) : bool :=
  (48 <=? nat_of_ascii c)%nat && (nat_of_ascii c <=? 57)%nat.

(** The white space of the class [\s]: tab, line feed, form feed, carriage
    return, space. *)
Definition is_class_space (c : ascii) : bool :=
  match c with
  | "009" | "010" | "012" | "013" | " " => true
  | _ => false
  end%char.

(** The longest run of digits at the start of [s], and what follows it. *)
Fixpoint leading_digits (s : string) : string * string :=
  match s with
  | EmptyString => (EmptyString, EmptyString)
  | String c s' =>
      if is_digit c then let '(d, rest) := leading_digits s' in (String c d, rest)
      else (EmptyString, s)
  end.

(** The first submatch of [^(\d+)\s+] in the output of [du]: the leading
    digits, when there is at least one and white space follows. *)
Definition du_size_submatch (duStdout : string) : option string :=
  match leading_digits duStdout with
  | (String d ds, String c _) => if is_class_space c then Some (String d ds) else None
  | _ => None
  end.

Fixpoint decimal_value (acc : Z) (digits : string) : Z :=
  match digits with
  | EmptyString => acc
  | String c rest => decimal_value (10 * acc + (Z.of_nat (nat_of_ascii c) - 48)) rest
  end.

Definition quote : string := String "034"%char "".

(** [strconv.ParseUint(digits, 10, 64)] on a non-empty string of digits:
    the value, or a range error when it does not fit 64 bits. *)
Definition ParseUint64 (digits : string) : Result Z :=
  let v := decimal_value 0 digits in
  if v <? uint64_modulus then Ok v
  else Err (Errorf ("strconv.ParseUint: parsing " +:+ quote +:+ digits +:+ quote
                    +:+ ": value out of range") []).

Definition getSizeOnDiskInBytes (rootDir : string) : IO (Result Z) :=
  emit (EvLogDebug ("Calculating total size for (" +:+ rootDir +:+ ")")) ;;;
  du <- perform (fun tr => shell_du w tr rootDir) (EvDiskUsage rootDir) ;;
  match du with
  | Err e =>
      ret (Err (wrapf ("failed to find the size of the specified folder using 'du' for ("
                       +:+ rootDir +:+ "):" +:+ nl) e))
  | Ok duStdout =>
      match du_size_submatch duStdout with
      | None => ret (Err (Errorf ("failed to parse 'du -s' output (" +:+ duStdout +:+ ").") []))
      | Some sizeInKbsString =>
          match ParseUint64 sizeInKbsString with
          | Err e =>
              ret (Err (wrapf ("failed to parse disk size (18446744073709551615):" +:+ nl) e))
          | Ok sizeInKbs => ret (Ok ((sizeInKbs * KiB) mod uint64_modulus))
          end
      end
  end.

(** The arithmetic of [getDiskSizeEstimateInMBs] on the measured size:
    [sizeInBytes/diskutils.MiB + 1], then
    [uint64(float64(sizeInMBs) * safetyFactor)]. *)
Definition diskSizeEstimateInMBs (sizeInBytes : Z) (safetyFactor : spec_float) : Z :=
  let sizeInMBs := (sizeInBytes / MiB + 1) mod uint64_modulus in
  Float64.to_uint64 (Float64.mul (Float64.of_uint64 sizeInMBs) safetyFactor).

Definition getDiskSizeEstimateInMBs (rootDir : string) (safetyFactor : spec_float)
    : IO (Result Z) :=
  measured <- getSizeOnDiskInBytes rootDir ;;
  match measured with
  | Err e =>
      ret (Err (wrapf ("failed to get folder size on disk while estimating total disk size:" +:+ nl) e))
  | Ok sizeInBytes => ret (Ok (diskSizeEstimateInMBs sizeInBytes safetyFactor))
  end.

End Functions.
(** ** Vocabulary of the properties *)

Section Vocabulary.

Context {DracutPackageInformation : Type}.

(** A slot of the artifact table that the classifier fills with the target
    path of the files whose name satisfies [is_name], and leaves alone
    otherwise. *)
Definition slot_of (get : IsoArtifacts DracutPackageInformation -> string)
    (is_name : string -> Prop) : Prop :=
  (forall m a, get (set_additionalFiles m a) = get a)
  /\ (forall u dir a targetPath,
        (is_name (GoPath.Base targetPath) ->
         get (classifyBootFile u dir a targetPath).1.1 = targetPath)
        /\ (~ is_name (GoPath.Base targetPath) ->
            get (classifyBootFile u dir a targetPath).1.1 = get a)).

(** The scan of /boot found a file with such a name: a file of the list
    that is not excluded and whose target path has a base name satisfying
    [is_name]. *)
Definition found_in (is_name : string -> Prop) (writeableRootfsDir : string)
    (b : LiveOSIsoBuilder DracutPackageInformation) (files : list string) : Prop :=
  exists f, f ∈ files /\ excluded f = false
            /\ is_name (GoPath.Base (ReplaceAll f writeableRootfsDir
                                       (isoArtifactsDir (workingDirs b)))).

(** Some entry of the map has this ISO-media path as its target. *)
Definition has_target (files : gmap string string) (targetFile : string) : Prop :=
  exists sourceFile, files !! sourceFile = Some targetFile.

(** The path matches one of the exclusion patterns, searched anywhere in
    it: [/boot/initrd\.img.*], [/boot/initramfs-.*\.img.*] (the dot of a
    pattern does not match a line feed) or [/boot/efi/boot/grub2/grub\.cfg]. *)
Definition matches_exclusion (path : string) : Prop :=
  mentions path "/boot/initrd.img"
  \/ (exists p mid q, path = p +:+ "/boot/initramfs-" +:+ mid +:+ ".img" +:+ q
                      /\ no_newline mid = true)
  \/ mentions path "/boot/efi/boot/grub2/grub.cfg".

Definition is_shim (name : string) : Prop := name = bootx64Binary.

Definition is_grub (name : string) : Prop :=
  name = grubx64Binary \/ name = grubx64NoPrefixBinary.

End Vocabulary.

(** The estimate as the specification words it: the content size in
    bytes multiplied by 1.5, rounded up to whole megabytes. *)
Definition spec_diskSizeEstimateInMBs (sizeInBytes : Z) : Z :=
  Qceiling (inject_Z sizeInBytes * (3 # 2) / inject_Z MiB).

(** ** A sample world and sample helpers

    Used to run the functions on concrete inputs.  In the sample world
    every operation succeeds; [saved] is the saved configuration found on
    disk, [files] the files found by a directory scan, [grubCfg] the content
    of any file read, [duStdout] the output of [du].  The sample package
    information is a number: zero stands for a dracut version without PXE
    support.  The sample grub helpers leave the configuration as it is,
    except that rewriting or appending to the kernel command line appends
    a line, so that the values they are given show in the result. *)

Module Sample.

Definition world (saved : option (SavedConfigs nat)) (files : list string)
    (grubCfg duStdout : string) : World nat :=
  {| os_RemoveAll := fun _ _ => None;
     os_MkdirAll := fun _ _ => None;
     file_PathExists := fun _ _ => Ok false;
     file_EnumerateDirFiles := fun _ _ => Ok files;
     load_saved_configs := fun _ _ => Ok saved;
     persist_saved_configs := fun _ _ _ => None;
     file_Read := fun _ _ => Ok grubCfg;
     file_Write := fun _ _ _ => None;
     file_CopyNoDereference := fun _ _ _ => None;
     isomaker_New := fun _ _ => None;
     isomaker_Make := fun _ _ => None;
     populate_pxe := fun _ _ _ _ _ => None;
     shell_du := fun _ _ => Ok duStdout;
     range_order := fun _ m => map_to_list m |}.

Definition noPxeSupport : error := Errorf "the installed dracut does not support PXE" [].

Definition verify (info : option nat) : option error :=
  match info with
  | Some (S _) => None
  | _ => Some noPxeSupport
  end.

Definition helpers : Helpers nat :=
  {| DefaultVolumeId := "CDROM";
     linuxCommand := "linux";
     initrdCommand := "initrd";
     SELinuxMode := unit;
     SELinuxModeDisabled := tt;
     verifyDracutPXESupport := verify;
     url_JoinPath := fun base elem => Ok (base +:+ "/" +:+ elem);
     GetAbsPathWithBase := fun base path => GoPath.Join [base; path];
     replaceSearchCommandAll := fun content _ => Ok content;
     isGrubMkconfigConfig := fun _ => true;
     setLinuxPath := fun content _ => Ok (content, "");
     setInitrdPath := fun content _ => Ok (content, "");
     replaceToken := fun content _ _ => Ok content;
     setLinuxOrInitrdPathAll := fun content _ _ _ => Ok content;
     replaceKernelCommandLineArgValueAll :=
       fun content arg value _ => Ok (content +:+ nl +:+ arg +:+ "=" +:+ value);
     updateSELinuxCommandLineHelperAll := fun content _ _ _ => Ok content;
     appendKernelCommandLineArgsAll := fun content args _ _ => Ok (content +:+ nl +:+ args);
     removeCommandAll := fun content _ => Ok content |}.

(** A builder as [createIsoBuilderFromIsoImage] leaves it after scanning
    an extracted ISO. *)
Definition builder (info : option nat) : LiveOSIsoBuilder nat :=
  {| workingDirs := {| isoBuildDir := "/build/tmp"; isoArtifactsDir := "/build/tmp/artifacts";
                       isomakerBuildDir := "/build/tmp/isomaker-tmp" |};
     artifacts := {| kernelVersion := ""; dracutPackageInfo := info;
                     bootx64EfiPath := "/x/efi/boot/bootx64.efi";
                     grubx64EfiPath := "/x/efi/boot/grubx64.efi";
                     isoGrubCfgPath := "/x/boot/grub2/grub.cfg";
                     pxeGrubCfgPath := "/x/boot/grub2/grub-pxe.cfg";
                     savedConfigsFilePath := "/x/azl-image-customizer/saved-configs.yaml";
                     vmlinuzPath := "/x/boot/vmlinuz"; initrdImagePath := "/x/boot/initrd.img";
                     squashfsImagePath := "/x/liveos/rootfs.img";
                     additionalFiles := ∅ |};
     cleanupDirs := ["/build/tmp"; "/x"] |}.

End Sample.


(** ** The rest of the package

    The functions below complete the build: scanning an extracted ISO,
    finding the kernel, staging the artifacts for dracut, creating the
    squashfs and initrd images, and the two entry points that create an ISO
    from a full disk image and a writeable disk image from a squashfs. *)

(** [%d] of an unsigned integer: its decimal digits, produced from the
    least significant one on as [strconv] does.  [fuel] bounds the number of
    digits. *)
Fixpoint decimal_digits (fuel : nat) (n : Z) (acc : string) : string :=
  match fuel with
  | O => acc
  | S fuel' =>
      let acc := String (ascii_of_nat (48 + Z.to_nat (n mod 10))) acc in
      if n <? 10 then acc else decimal_digits fuel' (n / 10) acc
  end.

(** A 64-bit unsigned integer has at most twenty digits. *)
Definition FormatUint64 (n : Z) : string := decimal_digits 20 n "".

(** The build-time configuration of dracut written into the rootfs. *)
Definition dracutConfig : string :=
  "add_dracutmodules+=" +:+ quote +:+ " dmsquash-live livenet " +:+ quote +:+ nl
  +:+ "add_drivers+=" +:+ quote +:+ " overlay " +:+ quote +:+ nl
  +:+ "hostonly=" +:+ quote +:+ "no" +:+ quote +:+ nl.

Definition isoBootloadersDir : string := "/efi/boot".

(** [kernelModulesDir] of [findKernelVersion]. *)
Definition kernelModulesDir : string := "/usr/lib/modules".

(** The packages that [generateInitrdImage] requires in the rootfs. *)
Definition requiredRpms : list string := ["squashfs-tools"; "tar"; "device-mapper"; "curl"].

(** [%v] of a slice of strings: the elements between brackets, separated
    by spaces. *)
Fixpoint join_space (l : list string) : string :=
  match l with
  | [] => ""
  | [x] => x
  | x :: rest => x +:+ " " +:+ join_space rest
  end.

Definition FormatStrings (l : list string) : string := "[" +:+ join_space l +:+ "]".

(** *** The disk layout of the writeable image

    [imagecustomizerapi.Disk], [Partition], [FileSystem] and [MountPoint], as
    far as [createWriteableImageFromSquashfs] fills them in.  A field left
    at its zero value (a nil pointer, an unset type) is [None]; sizes are
    in bytes. *)

Inductive PartitionTableType : Type := PartitionTableTypeGpt.

Inductive PartitionType : Type := PartitionTypeESP.

Inductive FileSystemType : Type := FileSystemTypeFat32 | FileSystemTypeExt4.

Record Partition := {
  part_Id : string;
  part_Start : option Z;
  part_End : option Z;
  part_Type : option PartitionType
}.

Record Disk := {
  disk_PartitionTableType : PartitionTableType;
  disk_MaxSize : option Z;
  disk_Partitions : list Partition
}.

Record MountPoint := {
  mp_Path : string;
  mp_Options : string
}.

Record FileSystem := {
  fs_DeviceId : string;
  fs_PartitionId : string;
  fs_Type : FileSystemType;
  fs_MountPoint : option MountPoint
}.

(** The disk that [createWriteableImageFromSquashfs] defines for an
    estimate of [safeDiskSizeMB] megabytes: a boot partition and a rootfs
    partition.  The products are those of [uint64]. *)
Definition squashfsDiskConfig (safeDiskSizeMB : Z) : Disk :=
  let maxDiskSizeMB := (safeDiskSizeMB * MiB) mod uint64_modulus in
  let bootPartitionStart := (1 * MiB) mod uint64_modulus in
  let bootPartitionEnd := (9 * MiB) mod uint64_modulus in
  {| disk_PartitionTableType := PartitionTableTypeGpt;
     disk_MaxSize := Some maxDiskSizeMB;
     disk_Partitions :=
       [ {| part_Id := "esp"; part_Start := Some bootPartitionStart;
            part_End := Some bootPartitionEnd; part_Type := Some PartitionTypeESP |};
         {| part_Id := "rootfs"; part_Start := Some bootPartitionEnd;
            part_End := None; part_Type := None |} ] |}.

Definition squashfsFileSystemConfigs : list FileSystem :=
  [ {| fs_DeviceId := "esp"; fs_PartitionId := "esp"; fs_Type := FileSystemTypeFat32;
       fs_MountPoint := Some {| mp_Path := "/boot/efi"; mp_Options := "umask=0077" |} |};
    {| fs_DeviceId := "rootfs"; fs_PartitionId := "rootfs"; fs_Type := FileSystemTypeExt4;
       fs_MountPoint := Some {| mp_Path := "/"; mp_Options := "" |} |} ].

Section Host.

Context {DracutPackageInformation : Type}.

Abbreviation Builder := (LiveOSIsoBuilder DracutPackageInformation).
Abbreviation Artifacts := (IsoArtifacts DracutPackageInformation).

(** *** Scanning an extracted ISO *)

Definition set_savedConfigsFilePath (v : string) (a : Artifacts) : Artifacts :=
  {| kernelVersion := kernelVersion a; dracutPackageInfo := dracutPackageInfo a;
     bootx64EfiPath := bootx64EfiPath a; grubx64EfiPath := grubx64EfiPath a;
     isoGrubCfgPath := isoGrubCfgPath a; pxeGrubCfgPath := pxeGrubCfgPath a;
     savedConfigsFilePath := v; vmlinuzPath := vmlinuzPath a;
     initrdImagePath := initrdImagePath a; squashfsImagePath := squashfsImagePath a;
     additionalFiles := additionalFiles a |}.

Definition set_initrdImagePath (v : string) (a : Artifacts) : Artifacts :=
  {| kernelVersion := kernelVersion a; dracutPackageInfo := dracutPackageInfo a;
     bootx64EfiPath := bootx64EfiPath a; grubx64EfiPath := grubx64EfiPath a;
     isoGrubCfgPath := isoGrubCfgPath a; pxeGrubCfgPath := pxeGrubCfgPath a;
     savedConfigsFilePath := savedConfigsFilePath a; vmlinuzPath := vmlinuzPath a;
     initrdImagePath := v; squashfsImagePath := squashfsImagePath a;
     additionalFiles := additionalFiles a |}.

Definition set_squashfsImagePath (v : string) (a : Artifacts) : Artifacts :=
  {| kernelVersion := kernelVersion a; dracutPackageInfo := dracutPackageInfo a;
     bootx64EfiPath := bootx64EfiPath a; grubx64EfiPath := grubx64EfiPath a;
     isoGrubCfgPath := isoGrubCfgPath a; pxeGrubCfgPath := pxeGrubCfgPath a;
     savedConfigsFilePath := savedConfigsFilePath a; vmlinuzPath := vmlinuzPath a;
     initrdImagePath := initrdImagePath a; squashfsImagePath := v;
     additionalFiles := additionalFiles a |}.

(** The [switch] on the file name and the test for the kernel prefix in the
    loop of [createIsoBuilderFromIsoImage]: the new artifact table and
    [scheduleAdditionalFile]. *)
Definition classifyIsoFile (a : Artifacts) (isoFile : string) : Artifacts * bool :=
  let fileName := GoPath.Base isoFile in
  let '(a, scheduleAdditionalFile) :=
    if decide (fileName = bootx64Binary) then (set_bootx64EfiPath isoFile a, false)
    else if decide (fileName = grubx64Binary) then (set_grubx64EfiPath isoFile a, false)
    else if decide (fileName = isoGrubCfg) then
      let a := set_isoGrubCfgPath isoFile a in
      (set_pxeGrubCfgPath (GoPath.Join [GoPath.Dir (isoGrubCfgPath a); pxeGrubCfg]) a, false)
    else if decide (fileName = liveOSImage) then (set_squashfsImagePath isoFile a, false)
    else if decide (fileName = initrdImage) then (set_initrdImagePath isoFile a, false)
    else if decide (fileName = savedConfigsFileName) then (set_savedConfigsFilePath isoFile a, false)
    else (a, true) in
  if HasPrefix fileName vmLinuzPrefix then (set_vmlinuzPath isoFile a, false)
  else (a, scheduleAdditionalFile).

(** One iteration of the loop over the files of the extracted ISO. *)
Definition createIsoBuilderFromIsoImage_body (isoExpansionFolder : string) (a : Artifacts)
    (isoFile : string) : Artifacts :=
  let '(a, scheduleAdditionalFile) := classifyIsoFile a isoFile in
  if scheduleAdditionalFile then
    set_additionalFiles (<[isoFile := TrimPrefix isoFile isoExpansionFolder]> (additionalFiles a)) a
  else a.

Definition createIsoBuilderFromIsoImage_loop (isoExpansionFolder : string)
    (isoFiles : list string) (a : Artifacts) : Artifacts :=
  fold_left (createIsoBuilderFromIsoImage_body isoExpansionFolder) isoFiles a.

(** *** Operations on the host

    The operations that the functions below perform beyond those of
    [Event].  An object of another package (a loop device, a mount, a
    chroot, the connection to an image) is identified by the data this
    package builds it from or reads from it: a loop device by its device
    path, a mount by its source and target, a chroot and an image
    connection by their root directory. *)
Inductive HostOp : Type :=
| OsRemove (path : string)
| OsMkdirTemp (dir pattern : string)
| OsReadDir (path : string)
| FileIsDirEmpty (path : string)
| FileCopy (src dst : string)
| FileMove (src dst : string)
| CopyPartitionFiles (src dst : string)
| ShellExecuteLive (squashErrors : bool) (program : string) (args : list string)
| NewLoopback (file : string)
| LoopbackClose (devicePath : string)
| LoopbackCleanClose (devicePath : string)
| NewMount (source target fstype : string) (flags : N) (data : string) (makeAndDelete : bool)
| MountClose (source target : string)
| MountCleanClose (source target : string)
| ConnectToExistingImage (rawImageFile buildDir chrootDirName : string)
    (includeDefaultMounts : bool)
| ImageConnectionClose (rootDir : string)
| NewChroot (rootDir : string) (isExistingDir : bool)
| ChrootInitialize (rootDir tarPath : string) (includeDefaultMounts : bool)
| ChrootClose (rootDir : string) (leaveOnDisk : bool)
| IsPackageInstalled (rootDir packageName : string)
| ChrootUnsafeRun (rootDir : string) (squashErrors : bool) (program : string)
    (args : list string)
| GetDracutVersion (rootfsDir : string)
| CreateNewImage (rawImageFile : string) (diskConfig : Disk)
    (fileSystemConfigs : list FileSystem) (buildDir chrootDirName installSourceDir : string).

(** What each operation returns.  [OsReadDir] gives the names of the
    entries, the only part of them that is read; [NewLoopback] the device
    path; [ConnectToExistingImage] the root directory of the chroot of the
    connection; [NewChroot] whether the object is non-nil;
    [GetDracutVersion] both of its results, since the caller stores the
    first whatever the second is; [ChrootUnsafeRun] runs
    [shell.ExecuteLive] inside the chroot; [CreateNewImage] installs the OS
    by copying the partition files of [installSourceDir]. *)
Definition outcome (op : HostOp) : Type :=
  match op with
  | OsRemove _ | FileCopy _ _ | FileMove _ _ | CopyPartitionFiles _ _
  | ShellExecuteLive _ _ _ | LoopbackCleanClose _ | NewMount _ _ _ _ _ _
  | MountCleanClose _ _ | ChrootInitialize _ _ _ | ChrootUnsafeRun _ _ _ _
  | CreateNewImage _ _ _ _ _ _ => option error
  | OsMkdirTemp _ _ | NewLoopback _ | ConnectToExistingImage _ _ _ _ => Result string
  | OsReadDir _ => Result (list string)
  | FileIsDirEmpty _ => Result bool
  | LoopbackClose _ | MountClose _ _ | ImageConnectionClose _ | ChrootClose _ _ => unit
  | NewChroot _ _ | IsPackageInstalled _ _ => bool
  | GetDracutVersion _ => (option DracutPackageInformation * option error)%type
  end.

(** The history of a run: the operations of [Event] and those of [HostOp],
    in the order performed. *)
Inductive HostEvent : Type :=
| HBase (ev : Event DracutPackageInformation)
| HCall (op : HostOp).

Definition History := list HostEvent.

(** The host: the outcome of every operation as a function of the history.
    [world_after h] is the world of the operations of [Event] as it stands
    after [h]; its outcomes are functions of the events performed since. *)
Record Host := {
  world_after : History -> World DracutPackageInformation;
  host_call : History -> forall op : HostOp, outcome op
}.

Definition HostIO (A : Type) : Type := History -> A * History.

Definition hret {A} (a : A) : HostIO A := fun h => (a, h).

Definition hbind {A B} (m : HostIO A) (k : A -> HostIO B) : HostIO B :=
  fun h => let '(a, h') := m h in k a h'.

End Host.

Arguments HostOp : clear implicits.
Arguments HostEvent : clear implicits.
Arguments History : clear implicits.
Arguments Host : clear implicits.
Arguments HostIO : clear implicits.

Declare Scope host_scope.
Delimit Scope host_scope with host.
Notation "x <- m ;; k" := (hbind m (fun x => k))
  (at level 100, m at next level, right associativity) : host_scope.
Notation "m ;;; k" := (hbind m (fun _ => k))
  (at level 100, right associativity) : host_scope.

Section HostFunctions.

Context {DracutPackageInformation : Type}.
Context (H : Helpers DracutPackageInformation) (host : Host DracutPackageInformation).

Abbreviation Builder := (LiveOSIsoBuilder DracutPackageInformation).
Abbreviation HostIO := (HostIO DracutPackageInformation).

Local Open Scope host_scope.

(** Perform one operation of the host. *)
Definition call (op : HostOp) : HostIO (outcome op) :=
  fun h => (host_call host h op, h ++ [HCall op]).

(** Run a function of the first part: in the world as it stands after the
    history, from an empty trace; its events are appended to the history. *)
Definition lift {A} (m : World DracutPackageInformation -> IO DracutPackageInformation A)
    : HostIO A :=
  fun h => let '(a, tr) := m (world_after host h) [] in (a, h ++ map HBase tr).

Definition logDebug (msg : string) : HostIO unit := lift (fun _ => emit (EvLogDebug msg)).

Definition logInfo (msg : string) : HostIO unit := lift (fun _ => emit (EvLogInfo msg)).

(** *** Preparing the rootfs *)

Definition populateWriteableRootfsDir (sourceDir writeableRootfsDir : string)
    : HostIO (option error) :=
  logDebug "Creating writeable rootfs" ;;;
  err <- lift (fun w => MkdirAll w writeableRootfsDir) ;;
  match err with
  | Some e => hret (Some (wrapf ("failed to create folder " +:+ writeableRootfsDir +:+ ":" +:+ nl) e))
  | None =>
      err <- call (CopyPartitionFiles (sourceDir +:+ "/.") writeableRootfsDir) ;;
      match err with
      | Some e =>
          hret (Some (wrapf ("failed to copy rootfs contents to a writeable folder ("
                             +:+ writeableRootfsDir +:+ "):" +:+ nl) e))
      | None => hret None
      end
  end.

Definition stageIsoMakerInitrdArtifacts (b : Builder)
    (writeableRootfsDir isoMakerArtifactsStagingDir : string) : HostIO (option error) :=
  logDebug "Staging isomaker artifacts into writeable image" ;;;
  let targetBootloadersInChroot := GoPath.Join [isoMakerArtifactsStagingDir; "/efi/EFI/BOOT"] in
  let targetBootloadersDir := GoPath.Join [writeableRootfsDir; targetBootloadersInChroot] in
  err <- lift (fun w => MkdirAll w targetBootloadersDir) ;;
  match err with
  | Some e => hret (Some (wrapf ("failed to create " +:+ targetBootloadersDir +:+ nl) e))
  | None =>
      let sourceBoot64EfiPath := bootx64EfiPath (artifacts b) in
      let targetBoot64EfiPath := GoPath.Join [targetBootloadersDir; bootx64Binary] in
      err <- call (FileCopy sourceBoot64EfiPath targetBoot64EfiPath) ;;
      match err with
      | Some e => hret (Some (wrapf ("failed to stage bootloader file (bootx64.efi):" +:+ nl) e))
      | None =>
          let sourceGrub64EfiPath := grubx64EfiPath (artifacts b) in
          let targetGrub64EfiPath := GoPath.Join [targetBootloadersDir; grubx64Binary] in
          err <- call (FileCopy sourceGrub64EfiPath targetGrub64EfiPath) ;;
          match err with
          | Some e => hret (Some (wrapf ("failed to stage bootloader file (grubx64.efi):" +:+ nl) e))
          | None =>
              let targetVmlinuzLocalDir :=
                GoPath.Join [writeableRootfsDir; isoMakerArtifactsStagingDir] in
              let sourceVmlinuzPath := vmlinuzPath (artifacts b) in
              let targetVmlinuzPath := GoPath.Join [targetVmlinuzLocalDir; "vmlinuz"] in
              err <- call (FileCopy sourceVmlinuzPath targetVmlinuzPath) ;;
              match err with
              | Some e => hret (Some (wrapf ("failed to stage vmlinuz:" +:+ nl) e))
              | None => hret None
              end
          end
      end
  end.

Definition prepareRootfsForDracut (writeableRootfsDir : string) : HostIO (option error) :=
  logDebug "Preparing writeable image for dracut" ;;;
  let fstabFile := GoPath.Join [writeableRootfsDir; "/etc/fstab"] in
  logDebug ("Deleting fstab from " +:+ fstabFile) ;;;
  err <- call (OsRemove fstabFile) ;;
  match err with
  | Some e => hret (Some (wrapf ("failed to delete fstab:" +:+ nl) e))
  | None =>
      let targetConfigFile :=
        GoPath.Join [writeableRootfsDir; "/etc/dracut.conf.d/20-live-cd.conf"] in
      err <- lift (fun w => WriteFile w dracutConfig targetConfigFile) ;;
      match err with
      | Some e => hret (Some (wrapf ("failed to create " +:+ targetConfigFile +:+ ":" +:+ nl) e))
      | None => hret None
      end
  end.

(** *** Finding the kernel *)

(** The loop of [findKernelVersion] that filters out the empty
    directories; it returns at the first failing query. *)
Fixpoint findKernelVersion_loop (kernelParentPath : string) (kernelDirs : list string)
    (filteredKernelDirs : list string) : HostIO (Result (list string)) :=
  match kernelDirs with
  | [] => hret (Ok filteredKernelDirs)
  | kernelDir :: rest =>
      let kernelPath := GoPath.Join [kernelParentPath; kernelDir] in
      empty <- call (FileIsDirEmpty kernelPath) ;;
      match empty with
      | Err e => hret (Err e)
      | Ok empty =>
          findKernelVersion_loop kernelParentPath rest
            (if empty then filteredKernelDirs else filteredKernelDirs ++ [kernelDir])
      end
  end.

Definition noKernelError : error :=
  Errorf ("did not find any kernels installed under (" +:+ kernelModulesDir +:+ ")") [].

Definition severalKernelsError : error :=
  Errorf ("unsupported scenario: found more than one kernel under (" +:+ kernelModulesDir +:+ ")") [].

Definition findKernelVersion (b : Builder) (writeableRootfsDir : string)
    : HostIO (Builder * option error) :=
  let kernelParentPath := GoPath.Join [writeableRootfsDir; kernelModulesDir] in
  kernelDirs <- call (OsReadDir kernelParentPath) ;;
  match kernelDirs with
  | Err e =>
      hret (b, Some (wrapf ("failed to enumerate kernels under (" +:+ kernelParentPath
                            +:+ "):" +:+ nl) e))
  | Ok kernelDirs =>
      filtered <- findKernelVersion_loop kernelParentPath kernelDirs [] ;;
      match filtered with
      | Err e => hret (b, Some e)
      | Ok [] => hret (b, Some noKernelError)
      | Ok [kernelDir] =>
          let b := with_artifacts b (set_kernelVersion kernelDir (artifacts b)) in
          logDebug ("Found installed kernel version (" +:+ kernelVersion (artifacts b) +:+ ")") ;;;
          hret (b, None)
      | Ok _ => hret (b, Some severalKernelsError)
      end
  end.

(** *** The LiveOS directory *)

Definition prepareLiveOSDir (b : Builder)
    (inputSavedConfigsFilePath writeableRootfsDir isoMakerArtifactsStagingDir
     extraCommandLine pxeIsoImageBaseUrl pxeIsoImageFileUrl outputImageBase : string)
    : HostIO (Builder * option error) :=
  logDebug "Creating LiveOS squashfs image" ;;;
  found <- findKernelVersion b writeableRootfsDir ;;
  match found with
  | (b, Some e) => hret (b, Some e)
  | (b, None) =>
      version <- call (GetDracutVersion writeableRootfsDir) ;;
      let b := with_artifacts b (set_dracutPackageInfo version.1 (artifacts b)) in
      match version.2 with
      | Some e => hret (b, Some e)
      | None =>
          extracted <- lift (fun w => extractBootDirFiles w b writeableRootfsDir) ;;
          match extracted with
          | (b, Some e) => hret (b, Some e)
          | (b, None) =>
              exists_ <- lift (fun w => PathExists w inputSavedConfigsFilePath) ;;
              match exists_ with
              | Err e => hret (b, Some e)
              | Ok exists_ =>
                  copied <-
                    (if exists_ : bool
                     then call (FileCopy inputSavedConfigsFilePath
                                  (savedConfigsFilePath (artifacts b)))
                     else hret None) ;;
                  match copied with
                  | Some e => hret (b, Some (wrapf ("failed to saved arguments file:" +:+ nl) e))
                  | None =>
                      merged <-
                        lift (fun w =>
                                updateSavedConfigs w (savedConfigsFilePath (artifacts b))
                                  extraCommandLine pxeIsoImageBaseUrl pxeIsoImageFileUrl
                                  (dracutPackageInfo (artifacts b))) ;;
                      match merged with
                      | Err e =>
                          hret (b, Some (wrapf ("failed to combine saved configurations with new configuration:" +:+ nl) e))
                      | Ok updatedSavedConfigs =>
                          err <-
                            lift (fun w =>
                                    updateGrubCfg H w (isoGrubCfgPath (artifacts b))
                                      (pxeGrubCfgPath (artifacts b)) updatedSavedConfigs
                                      outputImageBase) ;;
                          match err with
                          | Some e => hret (b, Some (wrapf ("failed to update grub.cfg:" +:+ nl) e))
                          | None =>
                              err <- stageIsoMakerInitrdArtifacts b writeableRootfsDir
                                       isoMakerArtifactsStagingDir ;;
                              match err with
                              | Some e =>
                                  hret (b, Some (wrapf ("failed to stage isomaker initrd artifacts:" +:+ nl) e))
                              | None =>
                                  err <- prepareRootfsForDracut writeableRootfsDir ;;
                                  match err with
                                  | Some e =>
                                      hret (b, Some (wrapf ("failed to prepare rootfs for dracut:" +:+ nl) e))
                                  | None => hret (b, None)
                                  end
                              end
                          end
                      end
                  end
              end
          end
      end
  end.

(** *** The squashfs and initrd images *)

Definition createSquashfsImage (b : Builder) (writeableRootfsDir : string)
    : HostIO (Builder * option error) :=
  logDebug ("Creating squashfs of " +:+ writeableRootfsDir) ;;;
  let squashfsImagePath := GoPath.Join [isoArtifactsDir (workingDirs b); liveOSImage] in
  exists_ <- lift (fun w => PathExists w squashfsImagePath) ;;
  removed <-
    match exists_ with
    | Ok true => call (OsRemove squashfsImagePath)
    | _ => hret None
    end ;;
  match removed with
  | Some e =>
      hret (b, Some (wrapf ("failed to delete existing squashfs image (" +:+ squashfsImagePath
                            +:+ "):" +:+ nl) e))
  | None =>
      let mksquashfsParams := [writeableRootfsDir; squashfsImagePath] in
      err <- call (ShellExecuteLive false "mksquashfs" mksquashfsParams) ;;
      match err with
      | Some e => hret (b, Some (wrapf ("failed to create squashfs:" +:+ nl) e))
      | None =>
          hret (with_artifacts b (set_squashfsImagePath squashfsImagePath (artifacts b)), None)
      end
  end.

(** The loop of [generateInitrdImage] over the required packages: the
    first one that is not installed, if any. *)
Fixpoint generateInitrdImage_loop (rootDir : string) (rpms : list string)
    : HostIO (option string) :=
  match rpms with
  | [] => hret None
  | requiredRpm :: rest =>
      logDebug ("Checking if (" +:+ requiredRpm +:+ ") is installed") ;;;
      installed <- call (IsPackageInstalled rootDir requiredRpm) ;;
      if installed : bool then generateInitrdImage_loop rootDir rest
      else hret (Some requiredRpm)
  end.

Definition missingPackageError (requiredRpm : string) : error :=
  Errorf ("package (" +:+ requiredRpm +:+ ") is not installed:" +:+ nl
          +:+ "the following packages must be installed to generate an iso: "
          +:+ FormatStrings requiredRpms) [].

Definition generateInitrdImage (b : Builder)
    (rootfsSourceDir artifactsSourceDir artifactsTargetDir : string)
    : HostIO (Builder * option error) :=
  logDebug "Generating initrd" ;;;
  chroot <- call (NewChroot rootfsSourceDir true) ;;
  if negb chroot then
    hret (b, Some (Errorf ("failed to create a new chroot object for " +:+ rootfsSourceDir +:+ ".") []))
  else
    r <-
      (err <- call (ChrootInitialize rootfsSourceDir "" true) ;;
       match err with
       | Some e =>
           hret (b, Some (wrapf ("failed to initialize chroot object for " +:+ rootfsSourceDir
                                 +:+ ":" +:+ nl) e))
       | None =>
           missing <- generateInitrdImage_loop rootfsSourceDir requiredRpms ;;
           match missing with
           | Some requiredRpm => hret (b, Some (missingPackageError requiredRpm))
           | None =>
               let initrdPathInChroot := "/initrd.img" in
               let dracutParams :=
                 [initrdPathInChroot; "--kver"; kernelVersion (artifacts b);
                  "--filesystems"; "squashfs";
                  "--include"; artifactsSourceDir; artifactsTargetDir] in
               err <- call (ChrootUnsafeRun rootfsSourceDir true "dracut" dracutParams) ;;
               match err with
               | Some e => hret (b, Some (wrapf ("failed to run dracut:" +:+ nl) e))
               | None =>
                   let generatedInitrdPath := GoPath.Join [rootfsSourceDir; initrdPathInChroot] in
                   let targetInitrdPath :=
                     GoPath.Join [isoArtifactsDir (workingDirs b); initrdImage] in
                   err <- call (FileCopy generatedInitrdPath targetInitrdPath) ;;
                   match err with
                   | Some e => hret (b, Some (wrapf ("failed to copy generated initrd:" +:+ nl) e))
                   | None =>
                       hret (with_artifacts b
                               (set_initrdImagePath targetInitrdPath (artifacts b)), None)
                   end
               end
           end
       end) ;;
    (* defer chroot.Close(true) *)
    call (ChrootClose rootfsSourceDir true) ;;;
    hret r.

Definition prepareArtifactsFromFullImage (b : Builder)
    (inputSavedConfigsFilePath rawImageFile extraCommandLine pxeIsoImageBaseUrl
     pxeIsoImageFileUrl outputImageBase : string) : HostIO (Builder * option error) :=
  logInfo "Preparing iso artifacts" ;;;
  logDebug ("Connecting to raw image (" +:+ rawImageFile +:+ ")") ;;;
  rawImageConnection <-
    call (ConnectToExistingImage rawImageFile (isoBuildDir (workingDirs b))
            "readonly-rootfs-mount" false) ;;
  match rawImageConnection with
  | Err e => hret (b, Some e)
  | Ok rootDir =>
      r <-
        (let writeableRootfsDir := GoPath.Join [isoBuildDir (workingDirs b); "writeable-rootfs"] in
         err <- populateWriteableRootfsDir rootDir writeableRootfsDir ;;
         match err with
         | Some e =>
             hret (b, Some (wrapf ("failed to copy the contents of rootfs from image ("
                                   +:+ rawImageFile +:+ ") to local folder ("
                                   +:+ writeableRootfsDir +:+ "):" +:+ nl) e))
         | None =>
             let isoMakerArtifactsStagingDir := "/boot-staging" in
             prepared <- prepareLiveOSDir b inputSavedConfigsFilePath writeableRootfsDir
                           isoMakerArtifactsStagingDir extraCommandLine pxeIsoImageBaseUrl
                           pxeIsoImageFileUrl outputImageBase ;;
             match prepared with
             | (b, Some e) =>
                 hret (b, Some (wrapf ("failed to convert rootfs folder to a LiveOS folder:" +:+ nl) e))
             | (b, None) =>
                 squashed <- createSquashfsImage b writeableRootfsDir ;;
                 match squashed with
                 | (b, Some e) =>
                     hret (b, Some (wrapf ("failed to create squashfs image:" +:+ nl) e))
                 | (b, None) =>
                     let isoMakerArtifactsDirInInitrd := "/boot" in
                     generated <- generateInitrdImage b writeableRootfsDir
                                    isoMakerArtifactsStagingDir isoMakerArtifactsDirInInitrd ;;
                     match generated with
                     | (b, Some e) =>
                         hret (b, Some (wrapf ("failed to generate initrd image:" +:+ nl) e))
                     | (b, None) => hret (b, None)
                     end
                 end
             end
         end) ;;
      (* defer rawImageConnection.Close() *)
      call (ImageConnectionClose rootDir) ;;;
      hret r
  end.

(** *** From a full disk image to an ISO *)

Definition createLiveOSIsoImage (buildDir baseConfigPath : string)
    (inputIsoArtifacts : option Builder) (isoConfig : option Iso) (pxeConfig : option Pxe)
    (rawImageFile outputImageDir outputImageBase outputPXEArtifactsDir : string)
    : HostIO (option error) :=
  let '(additionalIsoFiles, extraCommandLine) :=
    micIsoConfigToIsoMakerConfig H baseConfigPath isoConfig in
  let pxeIsoImageBaseUrl :=
    match pxeConfig with Some p => pxe_IsoImageBaseUrl p | None => "" end in
  let pxeIsoImageFileUrl :=
    match pxeConfig with Some p => pxe_IsoImageFileUrl p | None => "" end in
  let isoBuilder := newLiveOSIsoBuilder buildDir in
  err <-
    (let inputSavedConfigsFilePath :=
       match inputIsoArtifacts with
       | Some input => savedConfigsFilePath (artifacts input)
       | None => ""
       end in
     prepared <- prepareArtifactsFromFullImage isoBuilder inputSavedConfigsFilePath
                   rawImageFile extraCommandLine pxeIsoImageBaseUrl pxeIsoImageFileUrl
                   outputImageBase ;;
     match prepared with
     | (_, Some e) => hret (Some e)
     | (isoBuilder, None) =>
         isoBuilder <- lift (fun w => carryOverAdditionalFiles w inputIsoArtifacts isoBuilder) ;;
         err <- lift (fun w =>
                        createIsoImageAndPXEFolder H w isoBuilder additionalIsoFiles
                          outputImageDir outputImageBase outputPXEArtifactsDir) ;;
         match err with
         | Some e =>
             hret (Some (wrapf ("failed to generate iso image and/or PXE artifacts folder" +:+ nl) e))
         | None => hret None
         end
     end) ;;
  (* the deferred removal of the build directory *)
  lift (fun w => createLiveOSIsoImage_deferred w isoBuilder err).

(** *** Extracting an ISO *)

(** [unix.MS_RDONLY]. *)
Definition MS_RDONLY : N := 1.

Definition extractIsoImageContents (buildDir isoImageFile isoExpansionFolder : string)
    : HostIO (option error) :=
  mountDir <- call (OsMkdirTemp buildDir "tmp-iso-mount-") ;;
  match mountDir with
  | Err e => hret (Some (wrapf ("failed to create temporary mount folder for iso:" +:+ nl) e))
  | Ok mountDir =>
      r <-
        (isoImageLoopDevice <- call (NewLoopback isoImageFile) ;;
         match isoImageLoopDevice with
         | Err e =>
             hret (Some (wrapf ("failed to create loop device for (" +:+ isoImageFile
                                +:+ "):" +:+ nl) e))
         | Ok devicePath =>
             r <-
               (isoImageMount <-
                  call (NewMount devicePath mountDir "iso9660" MS_RDONLY "" false) ;;
                match isoImageMount with
                | Some e => hret (Some e)
                | None =>
                    r <-
                      (err <- lift (fun w => MkdirAll w isoExpansionFolder) ;;
                       match err with
                       | Some e =>
                           hret (Some (wrapf ("failed to create folder " +:+ isoExpansionFolder
                                              +:+ ":" +:+ nl) e))
                       | None =>
                           err <- call (CopyPartitionFiles (mountDir +:+ "/.") isoExpansionFolder) ;;
                           match err with
                           | Some e =>
                               hret (Some (wrapf ("failed to copy iso image contents to a writeable folder ("
                                                  +:+ isoExpansionFolder +:+ "):" +:+ nl) e))
                           | None =>
                               err <- call (MountCleanClose devicePath mountDir) ;;
                               match err with
                               | Some e => hret (Some e)
                               | None =>
                                   err <- call (LoopbackCleanClose devicePath) ;;
                                   match err with
                                   | Some e => hret (Some e)
                                   | None => hret None
                                   end
                               end
                           end
                       end) ;;
                    (* defer isoImageMount.Close() *)
                    call (MountClose devicePath mountDir) ;;;
                    hret r
                end) ;;
             (* defer isoImageLoopDevice.Close() *)
             call (LoopbackClose devicePath) ;;;
             hret r
         end) ;;
      (* defer os.RemoveAll(mountDir) *)
      lift (fun w => RemoveAll w mountDir) ;;;
      hret r
  end.

(** The loop of [populatePXEArtifactsDir] that moves the boot loaders from
    [<pxe-folder>/efi/boot] to [<pxe-folder>]. *)
Fixpoint populatePXEArtifactsDir_loop (bootloaderSrcDir outputPXEArtifactsDir : string)
    (bootloaderFiles : list string) : HostIO (option error) :=
  match bootloaderFiles with
  | [] => hret None
  | bootloaderFile :: rest =>
      let sourcePath := GoPath.Join [bootloaderSrcDir; bootloaderFile] in
      let targetPath := GoPath.Join [outputPXEArtifactsDir; bootloaderFile] in
      err <- call (FileMove sourcePath targetPath) ;;
      match err with
      | Some e =>
          hret (Some (wrapf ("failed to move boot loader file from (" +:+ sourcePath
                             +:+ ") to (" +:+ targetPath
                             +:+ ") while generated the PXE artifacts folder:" +:+ nl) e))
      | None => populatePXEArtifactsDir_loop bootloaderSrcDir outputPXEArtifactsDir rest
      end
  end.

(** [populatePXEArtifactsDir], operation by operation.  (In the first part
    the world runs it as a single operation.) *)
Definition populatePXEArtifactsDirOnHost (isoImagePath buildDir outputPXEArtifactsDir
    outputImageBase : string) : HostIO (option error) :=
  logInfo ("Copying PXE artifacts to (" +:+ outputPXEArtifactsDir +:+ ")") ;;;
  err <- lift (fun w => RemoveAll w outputPXEArtifactsDir) ;;
  match err with
  | Some e => hret (Some (wrapf ("failed to remove (" +:+ outputPXEArtifactsDir +:+ "):" +:+ nl) e))
  | None =>
      err <- extractIsoImageContents buildDir isoImagePath outputPXEArtifactsDir ;;
      match err with
      | Some e => hret (Some e)
      | None =>
          let isoGrubCfgPath := GoPath.Join [outputPXEArtifactsDir; grubCfgDir; isoGrubCfg] in
          let pxeGrubCfgPath := GoPath.Join [outputPXEArtifactsDir; grubCfgDir; pxeGrubCfg] in
          err <- call (FileCopy pxeGrubCfgPath isoGrubCfgPath) ;;
          match err with
          | Some e =>
              hret (Some (wrapf ("failed to copy (" +:+ pxeGrubCfgPath +:+ ") to ("
                                 +:+ isoGrubCfgPath
                                 +:+ ") while populating the PXE artifacts directory:" +:+ nl) e))
          | None =>
              err <- lift (fun w => RemoveAll w pxeGrubCfgPath) ;;
              match err with
              | Some e =>
                  hret (Some (wrapf ("failed to remove file (" +:+ pxeGrubCfgPath +:+ "):" +:+ nl) e))
              | None =>
                  let bootloaderSrcDir :=
                    GoPath.Join [outputPXEArtifactsDir; isoBootloadersDir] in
                  let bootloaderFiles := [bootx64Binary; grubx64Binary] in
                  err <- populatePXEArtifactsDir_loop bootloaderSrcDir outputPXEArtifactsDir
                           bootloaderFiles ;;
                  match err with
                  | Some e => hret (Some e)
                  | None =>
                      let isoEFIDir := GoPath.Join [outputPXEArtifactsDir; "efi"] in
                      err <- lift (fun w => RemoveAll w isoEFIDir) ;;
                      match err with
                      | Some e =>
                          hret (Some (wrapf ("failed to remove folder (" +:+ isoEFIDir
                                             +:+ "):" +:+ nl) e))
                      | None =>
                          let artifactsIsoImagePath :=
                            GoPath.Join [outputPXEArtifactsDir;
                                         name (getImageNameFromImageBaseName outputImageBase)] in
                          err <- call (FileCopy isoImagePath artifactsIsoImagePath) ;;
                          match err with
                          | Some e =>
                              hret (Some (wrapf ("failed to copy (" +:+ isoImagePath
                                                 +:+ ") while populating the PXE artifacts directory:"
                                                 +:+ nl) e))
                          | None => hret None
                          end
                      end
                  end
              end
          end
      end
  end.

(** *** From an ISO to a builder *)

Definition createIsoBuilderFromIsoImage (buildDir buildDirAbs isoImageFile : string)
    : HostIO (Builder * option error) :=
  let isoBuilder := newLiveOSIsoBuilder buildDir in
  let isoBuildDir := isoBuildDir (workingDirs isoBuilder) in
  r <-
    (err <- lift (fun w => MkdirAll w isoBuildDir) ;;
     match err with
     | Some e =>
         hret (isoBuilder, Some (wrapf ("failed to create folder " +:+ isoBuildDir +:+ ":" +:+ nl) e))
     | None =>
         let isoBuilder := addCleanupDir isoBuilder isoBuildDir in
         isoExpansionFolder <- call (OsMkdirTemp buildDirAbs "expanded-input-iso-") ;;
         match isoExpansionFolder with
         | Err e =>
             hret (isoBuilder,
                   Some (wrapf ("failed to create a temporary iso expansion folder for iso:" +:+ nl) e))
         | Ok isoExpansionFolder =>
             let isoBuilder := addCleanupDir isoBuilder isoExpansionFolder in
             err <- extractIsoImageContents buildDir isoImageFile isoExpansionFolder ;;
             match err with
             | Some e =>
                 hret (isoBuilder,
                       Some (wrapf ("failed to extract iso contents from input iso file:" +:+ nl) e))
             | None =>
                 isoFiles <- lift (fun w => EnumerateDirFiles w isoExpansionFolder) ;;
                 match isoFiles with
                 | Err e =>
                     hret (isoBuilder,
                           Some (wrapf ("failed to enumerate expanded iso files under "
                                        +:+ isoExpansionFolder +:+ ":" +:+ nl) e))
                 | Ok isoFiles =>
                     let a := set_additionalFiles ∅ (artifacts isoBuilder) in
                     hret (with_artifacts isoBuilder
                             (createIsoBuilderFromIsoImage_loop isoExpansionFolder isoFiles a),
                           None)
                 end
             end
         end
     end) ;;
  (* the deferred clean-up, on failure only *)
  match r with
  | (isoBuilder, Some err) =>
      cleanupErr <- lift (fun w => cleanUp w isoBuilder) ;;
      match cleanupErr with
      | Some ce =>
          hret (isoBuilder,
                Some (Errorf (Error err +:+ ":" +:+ nl +:+ "failed to clean-up:" +:+ nl +:+ Error ce)
                        [err; ce]))
      | None => hret (isoBuilder, Some err)
      end
  | (isoBuilder, None) => hret (isoBuilder, None)
  end.

(** *** From a squashfs to a writeable disk image *)

Definition createWriteableImageFromSquashfs (b : Builder) (buildDir rawImageFile : string)
    : HostIO (option error) :=
  logInfo ("Creating writeable image from squashfs (" +:+ squashfsImagePath (artifacts b) +:+ ")") ;;;
  squashMountDir <- call (OsMkdirTemp buildDir "tmp-squashfs-mount-") ;;
  match squashMountDir with
  | Err e => hret (Some (wrapf ("failed to create temporary mount folder for squashfs:" +:+ nl) e))
  | Ok squashMountDir =>
      r <-
        (squashfsLoopDevice <- call (NewLoopback (squashfsImagePath (artifacts b))) ;;
         match squashfsLoopDevice with
         | Err e =>
             hret (Some (wrapf ("failed to create loop device for ("
                                +:+ squashfsImagePath (artifacts b) +:+ "):" +:+ nl) e))
         | Ok devicePath =>
             r <-
               (isoImageMount <- call (NewMount devicePath squashMountDir "squashfs" 0 "" false) ;;
                match isoImageMount with
                | Some e => hret (Some e)
                | None =>
                    r <-
                      (safeDiskSizeMB <-
                         lift (fun w => getDiskSizeEstimateInMBs w squashMountDir
                                          expansionSafetyFactor) ;;
                       match safeDiskSizeMB with
                       | Err e =>
                           hret (Some (wrapf ("failed to calculate the disk size of "
                                              +:+ squashMountDir +:+ ":" +:+ nl) e))
                       | Ok safeDiskSizeMB =>
                           logDebug ("safeDiskSizeMB = " +:+ FormatUint64 safeDiskSizeMB) ;;;
                           let diskConfig := squashfsDiskConfig safeDiskSizeMB in
                           let fileSystemConfigs := squashfsFileSystemConfigs in
                           let writeableChrootDir := "writeable-raw-image" in
                           err <- call (CreateNewImage rawImageFile diskConfig fileSystemConfigs
                                          buildDir writeableChrootDir (squashMountDir +:+ "/.")) ;;
                           match err with
                           | Some e =>
                               hret (Some (wrapf ("failed to copy squashfs into new writeable image ("
                                                  +:+ rawImageFile +:+ "):" +:+ nl) e))
                           | None =>
                               err <- call (MountCleanClose devicePath squashMountDir) ;;
                               match err with
                               | Some e => hret (Some e)
                               | None =>
                                   err <- call (LoopbackCleanClose devicePath) ;;
                                   match err with
                                   | Some e => hret (Some e)
                                   | None => hret None
                                   end
                               end
                           end
                       end) ;;
                    (* defer isoImageMount.Close() *)
                    call (MountClose devicePath squashMountDir) ;;;
                    hret r
                end) ;;
             (* defer squashfsLoopDevice.Close() *)
             call (LoopbackClose devicePath) ;;;
             hret r
         end) ;;
      (* defer os.RemoveAll(squashMountDir) *)
      lift (fun w => RemoveAll w squashMountDir) ;;;
      hret r
  end.

End HostFunctions.

(** ** Vocabulary of the further properties *)

(** The file names that the classifier of /boot gives a slot of the
    artifact table instead of an entry of the additional files. *)
Definition is_boot_slot_name (name : string) : Prop :=
  name = bootx64Binary \/ name = grubx64Binary \/ name = grubx64NoPrefixBinary
  \/ name = isoGrubCfg \/ HasPrefix name vmLinuzPrefix = true.

(** The paths that the scan of [files] may record in the additional files:
    the copies, under the artifacts directory [dir], of the files that are
    neither excluded nor given a slot. *)
Definition recordable (writeableRootfsDir dir : string) (files : list string) (k : string)
    : Prop :=
  exists src, src ∈ files /\ excluded src = false
              /\ k = ReplaceAll src writeableRootfsDir dir
              /\ ~ is_boot_slot_name (GoPath.Base k).

(** Where the scan of /boot copies a file whose path under the artifacts
    directory [dir] is [targetPath]: to that path, except that grub.cfg
    goes to [EFI/BOOT] when the no-prefix grub is in use and that a kernel
    is renamed [vmlinuz]. *)
Definition bootFileDestination (usingGrubNoPrefix : bool) (dir targetPath : string) : string :=
  if decide (GoPath.Base targetPath = isoGrubCfg) then
    if usingGrubNoPrefix then GoPath.Join [dir; "EFI/BOOT"; isoGrubCfg] else targetPath
  else if HasPrefix (GoPath.Base targetPath) vmLinuzPrefix then
    GoPath.Join [GoPath.Dir targetPath; "vmlinuz"]
  else targetPath.

(** What the scan of /boot does with one file: a log line for an excluded
    file, a copy for any other. *)
Definition bootFileStep {DracutPackageInformation : Type} (usingGrubNoPrefix : bool)
    (writeableRootfsDir dir sourcePath : string) : Event DracutPackageInformation :=
  if excluded sourcePath then EvLogDebug (notCopyingMessage sourcePath)
  else EvCopyFile sourcePath
         (bootFileDestination usingGrubNoPrefix dir
            (ReplaceAll sourcePath writeableRootfsDir dir)).

(** The string is made of decimal digits. *)
Fixpoint only_digits (s : string) : bool :=
  match s with
  | EmptyString => true
  | String c s' => is_digit c && only_digits s'
  end.

(** The output of [du] that [getSizeOnDiskInBytes] can parse: one or more
    digits, [digits], followed by a white space character. *)
Definition du_output_of (digits duStdout : string) : Prop :=
  digits ≠ "" /\ only_digits digits = true
  /\ exists c rest, duStdout = digits +:+ String c rest /\ is_class_space c = true.

(** The same for the classifier of an extracted ISO. *)
Definition is_iso_slot_name (name : string) : Prop :=
  name = bootx64Binary \/ name = grubx64Binary \/ name = isoGrubCfg
  \/ name = liveOSImage \/ name = initrdImage \/ name = savedConfigsFileName
  \/ HasPrefix name vmLinuzPrefix = true.

(** A computation on the host only adds to the history. *)
Definition grows {DracutPackageInformation A : Type} (m : HostIO DracutPackageInformation A)
    : Prop :=
  forall h, exists delta, (m h).2 = h ++ delta.

(** The operations of the loop of [generateInitrdImage] over the required
    packages: a log line or the query of a package. *)
Definition is_package_check {DracutPackageInformation : Type} (rootDir : string)
    (ev : HostEvent DracutPackageInformation) : Prop :=
  exists requiredRpm,
    ev = HBase (EvLogDebug ("Checking if (" +:+ requiredRpm +:+ ") is installed"))
    \/ ev = HCall (IsPackageInstalled rootDir requiredRpm).

(** The slots that the classifier of an extracted ISO fills by file name,
    each with the name it looks for. *)
Definition iso_slots {DracutPackageInformation : Type}
    : list (string * (IsoArtifacts DracutPackageInformation -> string)) :=
  [ (bootx64Binary, bootx64EfiPath); (grubx64Binary, grubx64EfiPath);
    (isoGrubCfg, isoGrubCfgPath); (liveOSImage, squashfsImagePath);
    (initrdImage, initrdImagePath); (savedConfigsFileName, savedConfigsFilePath) ].

(** ** Worlds and hosts with failures

    [Faulty.world fails present saved files grubCfg duStdout] is a world in
    which the operations chosen by [fails] fail with [Faulty.failure] and
    the others succeed; a path exists when [present] says so.

    [Faulty.host] is a host over such a world.  Its operations fail when
    [failing] says so; [dirs] are the entries of any directory read,
    [empty] tells the empty directories, [installed] the installed
    packages, [info] is the dracut information of the rootfs.  A temporary
    directory is named after its pattern, the loop device is [/dev/loop0],
    and the image is connected at [/mnt/raw]. *)

Module Faulty.

Definition failure : error := Errorf "operation failed" [].

Definition world (fails : Event nat -> bool) (present : string -> bool)
    (saved : option (SavedConfigs nat)) (files : list string) (grubCfg duStdout : string)
    : World nat :=
  {| os_RemoveAll := fun _ path => if fails (EvRemoveAll path) then Some failure else None;
     os_MkdirAll := fun _ path => if fails (EvMkdirAll path) then Some failure else None;
     file_PathExists :=
       fun _ path => if fails (EvPathExists path) then Err failure else Ok (present path);
     file_EnumerateDirFiles :=
       fun _ dir => if fails (EvEnumerateDirFiles dir) then Err failure else Ok files;
     load_saved_configs :=
       fun _ path => if fails (EvLoadSavedConfigs path) then Err failure else Ok saved;
     persist_saved_configs :=
       fun _ cfg path => if fails (EvPersistSavedConfigs cfg path) then Some failure else None;
     file_Read := fun _ path => if fails (EvReadFile path) then Err failure else Ok grubCfg;
     file_Write :=
       fun _ content path => if fails (EvWriteFile content path) then Some failure else None;
     file_CopyNoDereference :=
       fun _ src dst => if fails (EvCopyFile src dst) then Some failure else None;
     isomaker_New := fun _ cfg => if fails (EvNewIsoMaker cfg) then Some failure else None;
     isomaker_Make := fun _ cfg => if fails (EvIsoMakerMake cfg) then Some failure else None;
     populate_pxe :=
       fun _ isoImagePath buildDir outputPXEArtifactsDir outputImageBase =>
         if fails (EvPopulatePXEArtifactsDir isoImagePath buildDir outputPXEArtifactsDir
                     outputImageBase)
         then Some failure else None;
     shell_du := fun _ rootDir => if fails (EvDiskUsage rootDir) then Err failure else Ok duStdout;
     range_order := fun _ m => map_to_list m |}.

Definition orFail (failed : bool) : option error := if failed then Some failure else None.

Definition answer (failing : HostOp -> bool) (dirs : list string) (empty : string -> bool)
    (installed : string -> bool) (info : option nat) (op : HostOp) : @outcome nat op :=
  match op as o return @outcome nat o with
  | OsRemove path => orFail (failing (OsRemove path))
  | OsMkdirTemp dir pattern =>
      if failing (OsMkdirTemp dir pattern) then Err failure
      else Ok (GoPath.Join [dir; pattern +:+ "1"])
  | OsReadDir path => if failing (OsReadDir path) then Err failure else Ok dirs
  | FileIsDirEmpty path =>
      if failing (FileIsDirEmpty path) then Err failure else Ok (empty path)
  | FileCopy src dst => orFail (failing (FileCopy src dst))
  | FileMove src dst => orFail (failing (FileMove src dst))
  | CopyPartitionFiles src dst => orFail (failing (CopyPartitionFiles src dst))
  | ShellExecuteLive squashErrors program args =>
      orFail (failing (ShellExecuteLive squashErrors program args))
  | NewLoopback file => if failing (NewLoopback file) then Err failure else Ok "/dev/loop0"
  | LoopbackClose _ => tt
  | LoopbackCleanClose devicePath => orFail (failing (LoopbackCleanClose devicePath))
  | NewMount source target fstype flags data makeAndDelete =>
      orFail (failing (NewMount source target fstype flags data makeAndDelete))
  | MountClose _ _ => tt
  | MountCleanClose source target => orFail (failing (MountCleanClose source target))
  | ConnectToExistingImage rawImageFile buildDir chrootDirName includeDefaultMounts =>
      if failing (ConnectToExistingImage rawImageFile buildDir chrootDirName includeDefaultMounts)
      then Err failure else Ok "/mnt/raw"
  | ImageConnectionClose _ => tt
  | NewChroot rootDir isExistingDir => negb (failing (NewChroot rootDir isExistingDir))
  | ChrootInitialize rootDir tarPath includeDefaultMounts =>
      orFail (failing (ChrootInitialize rootDir tarPath includeDefaultMounts))
  | ChrootClose _ _ => tt
  | IsPackageInstalled _ packageName => installed packageName
  | ChrootUnsafeRun rootDir squashErrors program args =>
      orFail (failing (ChrootUnsafeRun rootDir squashErrors program args))
  | GetDracutVersion rootfsDir =>
      if failing (GetDracutVersion rootfsDir) then (None, Some failure) else (info, None)
  | CreateNewImage rawImageFile diskConfig fileSystemConfigs buildDir chrootDirName
      installSourceDir =>
      orFail (failing (CreateNewImage rawImageFile diskConfig fileSystemConfigs buildDir
                         chrootDirName installSourceDir))
  end.

Definition host (w : World nat) (failing : HostOp -> bool) (dirs : list string)
    (empty : string -> bool) (installed : string -> bool) (info : option nat) : Host nat :=
  {| world_after := fun _ => w;
     host_call := fun _ op => answer failing dirs empty installed info op |}.

(** Nothing fails. *)
Definition never {A} (_ : A) : bool := false.

End Faulty.

(** * Properties *)

(** ** Auxiliary facts on strings and errors *)

Lemma append_cons (c : ascii) (s t : string) : String c s +:+ t = String c (s +:+ t).
Proof. reflexivity. Qed.

Lemma append_empty_l (s : string) : "" +:+ s = s.
Proof. reflexivity. Qed.

Lemma append_empty_r (s : string) : s +:+ "" = s.
Proof. induction s as [|c s IH]; [reflexivity|]. rewrite append_cons. by f_equal. Qed.

Lemma append_assoc (s t u : string) : (s +:+ t) +:+ u = s +:+ (t +:+ u).
Proof.
  induction s as [|c s IH]; [reflexivity|].
  rewrite !append_cons. by f_equal.
Qed.

Lemma mentions_refl (s : string) : mentions s s.
Proof. exists "", "". by rewrite append_empty_l, append_empty_r. Qed.

Lemma mentions_app_l (p s t : string) : mentions s t -> mentions (p +:+ s) t.
Proof.
  intros (a & b & ->). exists (p +:+ a), b. by rewrite append_assoc.
Qed.

Lemma mentions_app_r (s q t : string) : mentions s t -> mentions (s +:+ q) t.
Proof.
  intros (a & b & ->). exists a, (b +:+ q). by rewrite !append_assoc.
Qed.

Lemma mentions_trans (s t u : string) : mentions s t -> mentions t u -> mentions s u.
Proof.
  intros (a & b & ->) (c & d & ->). exists (a +:+ c), (d +:+ b).
  by rewrite !append_assoc.
Qed.

Lemma wraps_trans (e1 e2 e3 : error) : wraps e1 e2 -> wraps e2 e3 -> wraps e1 e3.
Proof.
  induction 1 as [e|msg ws x e Hin Hx IH]; [done|].
  intros H23. eapply wraps_step; [exact Hin|]. by apply IH.
Qed.

Lemma wraps_wrapf (prefix : string) (e : error) : wraps (wrapf prefix e) e.
Proof. eapply wraps_step; [apply list_elem_of_here|apply wraps_refl]. Qed.

Create HintDb msgs.
#[local] Hint Resolve mentions_refl mentions_app_l mentions_app_r wraps_refl : msgs.

(** ** Cleanup *)

Section CleanUpFacts.

Context {DracutPackageInformation : Type}.
Context (w : World DracutPackageInformation).

Abbreviation Tr := (Trace DracutPackageInformation).

Lemma cleanUp_loop_walk (dirs : list string) (n : nat) (err : option error) (tr : Tr) :
  (n <= length dirs)%nat ->
  cleanUp_loop w dirs n err tr = cleanUp_walk w (rev (take n dirs)) err tr.
Proof.
  revert err tr. induction n as [|i IH]; intros err tr Hn.
  - by rewrite take_0.
  - destruct (lookup_lt_is_Some_2 dirs i) as [dir Hdir]; [lia|].
    rewrite (take_S_r _ _ _ Hdir), rev_unit. cbn [cleanUp_loop cleanUp_walk].
    rewrite Hdir. unfold bind at 1.
    destruct (cleanUp_body w dir err tr) as [err' tr'].
    apply IH. lia.
Qed.

Lemma cleanUp_body_trace (dir : string) (err : option error) (tr : Tr) :
  (cleanUp_body w dir err tr).2 = tr ++ [EvRemoveAll dir].
Proof. reflexivity. Qed.

(** A failure already recorded is still wrapped, and still readable in the
    message, after one more removal. *)
Lemma cleanUp_body_keeps (dir : string) (e : error) (tr : Tr) :
  exists e', (cleanUp_body w dir (Some e) tr).1 = Some e'
             /\ wraps e' e /\ mentions (Error e') (Error e).
Proof.
  unfold cleanUp_body, bind, RemoveAll, perform, ret. cbn.
  destruct (os_RemoveAll w tr dir) as [ce|]; cbn.
  - eexists; split; [reflexivity|]. split.
    + eapply wraps_step; [apply list_elem_of_here|apply wraps_refl].
    + cbn. auto with msgs.
  - exists e. auto with msgs.
Qed.

(** A failing removal is wrapped, and its directory and message are in the
    message, whatever the error so far. *)
Lemma cleanUp_body_records (dir : string) (err : option error) (tr : Tr) (ce : error) :
  os_RemoveAll w tr dir = Some ce ->
  exists e', (cleanUp_body w dir err tr).1 = Some e'
             /\ wraps e' ce /\ mentions (Error e') dir /\ mentions (Error e') (Error ce).
Proof.
  intros Hfail. unfold cleanUp_body, bind, RemoveAll, perform, ret. cbn.
  rewrite Hfail. destruct err as [e|]; cbn.
  - eexists; split; [reflexivity|]. split; [|split].
    + eapply wraps_step; [apply list_elem_of_further, list_elem_of_here|apply wraps_refl].
    + cbn. do 4 apply mentions_app_l. apply mentions_app_r, mentions_refl.
    + cbn. do 6 apply mentions_app_l. apply mentions_refl.
  - eexists; split; [reflexivity|]. split; [|split].
    + eapply wraps_step; [apply list_elem_of_here|apply wraps_refl].
    + cbn. apply mentions_app_l, mentions_app_r, mentions_refl.
    + cbn. do 3 apply mentions_app_l. apply mentions_refl.
Qed.

Lemma cleanUp_body_success (dir : string) (err : option error) (tr : Tr) :
  os_RemoveAll w tr dir = None -> (cleanUp_body w dir err tr).1 = err.
Proof.
  intros Hok. unfold cleanUp_body, bind, RemoveAll, perform, ret. cbn. by rewrite Hok.
Qed.

Lemma cleanUp_walk_trace (visited : list string) (err : option error) (tr : Tr) :
  (cleanUp_walk w visited err tr).2 = tr ++ map EvRemoveAll visited.
Proof.
  revert err tr. induction visited as [|dir rest IH]; intros err tr; cbn [cleanUp_walk].
  - by rewrite app_nil_r.
  - pose proof (cleanUp_body_trace dir err tr) as Htr.
    destruct (cleanUp_body w dir err tr) as [err' tr']. cbn in Htr. subst tr'.
    rewrite IH. cbn. by rewrite <- app_assoc.
Qed.

Lemma cleanUp_walk_keeps (visited : list string) (e : error) (tr : Tr) :
  exists e', (cleanUp_walk w visited (Some e) tr).1 = Some e'
             /\ wraps e' e /\ mentions (Error e') (Error e).
Proof.
  revert e tr. induction visited as [|dir rest IH]; intros e tr; cbn [cleanUp_walk].
  - exists e. auto with msgs.
  - destruct (cleanUp_body_keeps dir e tr) as (e1 & H1 & Hw1 & Hm1).
    destruct (cleanUp_body w dir (Some e) tr) as [err' tr']. cbn in H1. subst err'.
    destruct (IH e1 tr') as (e2 & H2 & Hw2 & Hm2).
    exists e2. split; [done|]. split.
    + by eapply wraps_trans.
    + by eapply mentions_trans.
Qed.

Lemma cleanUp_walk_records (visited : list string) (err : option error) (tr : Tr)
    (i : nat) (dir : string) (ce : error) :
  visited !! i = Some dir ->
  os_RemoveAll w (tr ++ map EvRemoveAll (take i visited)) dir = Some ce ->
  exists e', (cleanUp_walk w visited err tr).1 = Some e'
             /\ wraps e' ce /\ mentions (Error e') dir /\ mentions (Error e') (Error ce).
Proof.
  revert err tr i. induction visited as [|d rest IH]; intros err tr i Hi Hfail; [done|].
  cbn [cleanUp_walk]. destruct i as [|i].
  - cbn in Hi. injection Hi as ->. rewrite take_0 in Hfail. cbn in Hfail.
    rewrite app_nil_r in Hfail.
    destruct (cleanUp_body_records dir err tr ce Hfail) as (e1 & H1 & Hw1 & Hd1 & Hm1).
    destruct (cleanUp_body w dir err tr) as [err' tr']. cbn in H1. subst err'.
    destruct (cleanUp_walk_keeps rest e1 tr') as (e2 & H2 & Hw2 & Hm2).
    exists e2. split; [done|]. split; [by eapply wraps_trans|].
    split; by eapply mentions_trans.
  - cbn in Hi. pose proof (cleanUp_body_trace d err tr) as Htr.
    destruct (cleanUp_body w d err tr) as [err' tr']. cbn in Htr. subst tr'.
    apply (IH err' _ i Hi). rewrite <- app_assoc. exact Hfail.
Qed.

Lemma cleanUp_walk_success (visited : list string) (err : option error) (tr : Tr) :
  (forall i dir, visited !! i = Some dir ->
     os_RemoveAll w (tr ++ map EvRemoveAll (take i visited)) dir = None) ->
  (cleanUp_walk w visited err tr).1 = err.
Proof.
  revert err tr. induction visited as [|d rest IH]; intros err tr Hall; [done|].
  cbn [cleanUp_walk].
  pose proof (cleanUp_body_trace d err tr) as Htr.
  pose proof (cleanUp_body_success d err tr) as Hok.
  destruct (cleanUp_body w d err tr) as [err' tr']. cbn in Htr, Hok. subst tr'.
  rewrite Hok.
  - apply IH. intros i dir Hi. rewrite <- app_assoc. apply (Hall (S i) dir Hi).
  - specialize (Hall O d eq_refl). by rewrite take_0, app_nil_r in Hall.
Qed.

End CleanUpFacts.

(** C9. [cleanUp] removes the registered directories in reverse order of
    registration ([addCleanupDir] appends, and the directory registered
    last is removed first); it attempts every one of them whether or not
    an earlier removal failed; and the error it
    returns wraps every removal failure and names its directory, so that no
    failure is lost, and is nil only when every removal succeeded.  The
    deferred removal of the build directory in [createLiveOSIsoImage]
    likewise wraps both the error being returned and the removal failure. *)
Theorem cleanUp_reverse_order_keeps_every_failure
    {DracutPackageInformation : Type} (w : World DracutPackageInformation)
    (b : LiveOSIsoBuilder DracutPackageInformation) (tr : Trace DracutPackageInformation) :
  let visited := rev (cleanupDirs b) in
  let attempt i := tr ++ map EvRemoveAll (take i visited) in
  (cleanUp w b tr).2 = tr ++ map EvRemoveAll visited
  /\ (forall dir,
        (cleanUp w (addCleanupDir b dir) tr).2
          = tr ++ EvRemoveAll dir :: map EvRemoveAll visited)
  /\ (forall i dir ce,
        visited !! i = Some dir -> os_RemoveAll w (attempt i) dir = Some ce ->
        exists e, (cleanUp w b tr).1 = Some e /\ wraps e ce
                  /\ mentions (Error e) dir /\ mentions (Error e) (Error ce))
  /\ ((forall i dir, visited !! i = Some dir -> os_RemoveAll w (attempt i) dir = None) ->
      (cleanUp w b tr).1 = None)
  /\ (forall err ce,
        os_RemoveAll w tr (isoBuildDir (workingDirs b)) = Some ce ->
        exists e, (createLiveOSIsoImage_deferred w b err tr).1 = Some e /\ wraps e ce
                  /\ (forall e0, err = Some e0 -> wraps e e0))
  /\ (forall err,
        os_RemoveAll w tr (isoBuildDir (workingDirs b)) = None ->
        (createLiveOSIsoImage_deferred w b err tr).1 = err).
Proof.
  intros visited attempt. unfold cleanUp.
  rewrite cleanUp_loop_walk by lia. rewrite firstn_all. fold visited.
  split; [apply cleanUp_walk_trace|].
  split.
  { intros dir. rewrite cleanUp_loop_walk by lia. rewrite firstn_all.
    cbn [cleanupDirs addCleanupDir]. rewrite rev_unit.
    exact (cleanUp_walk_trace w (dir :: visited) None tr). }
  split; [intros i dir ce Hi Hfail; by eapply cleanUp_walk_records|].
  split; [intros Hall; by apply cleanUp_walk_success|].
  split.
  - intros err ce Hfail.
    unfold createLiveOSIsoImage_deferred, bind, RemoveAll, perform, ret. cbn.
    rewrite Hfail. destruct err as [e0|]; eexists; (split; [reflexivity|]); split.
    + eapply wraps_step; [apply list_elem_of_further, list_elem_of_here|apply wraps_refl].
    + intros e1 [= <-]. eapply wraps_step; [apply list_elem_of_here|apply wraps_refl].
    + eapply wraps_step; [apply list_elem_of_here|apply wraps_refl].
    + intros e1 [=].
  - intros err Hok.
    unfold createLiveOSIsoImage_deferred, bind, RemoveAll, perform, ret. cbn.
    by rewrite Hok.
Qed.

(** ** Saved configuration *)

Lemma trimLeft_first (s : string) (c : ascii) :
  first_char (trimLeft s) = Some c -> isSpace c = false.
Proof.
  induction s as [|a s IH]; [done|]. cbn [trimLeft].
  destruct (isSpace a) eqn:Ha; [exact IH|]. cbn. by intros [= <-].
Qed.

Lemma trimRight_first (s : string) (c : ascii) :
  first_char (trimRight s) = Some c -> first_char s = Some c.
Proof.
  destruct s as [|a s]; [done|]. cbn [trimRight].
  destruct (trimRight s); [destruct (isSpace a)|]; by cbn.
Qed.

Lemma trimRight_last (s : string) (c : ascii) :
  last_char (trimRight s) = Some c -> isSpace c = false.
Proof.
  induction s as [|a s IH]; [done|]. cbn [trimRight].
  destruct (trimRight s) as [|b t] eqn:Ht.
  - destruct (isSpace a) eqn:Ha; [done|]. cbn. by intros [= <-].
  - exact IH.
Qed.

Lemma TrimSpace_first (s : string) (c : ascii) :
  first_char (TrimSpace s) = Some c -> isSpace c = false.
Proof. intros Hc. by eapply trimLeft_first, trimRight_first. Qed.

Lemma TrimSpace_last (s : string) (c : ascii) :
  last_char (TrimSpace s) = Some c -> isSpace c = false.
Proof. apply trimRight_last. Qed.

Lemma first_char_app (s t : string) : s ≠ "" -> first_char (s +:+ t) = first_char s.
Proof. by destruct s. Qed.

Lemma last_char_app (s t : string) : t ≠ "" -> last_char (s +:+ t) = last_char t.
Proof.
  intros Ht. induction s as [|a s IH]; [done|].
  rewrite append_cons. cbn [last_char]. destruct (s +:+ t) eqn:E; [|exact IH].
  destruct s, t; done.
Qed.

Lemma first_char_is_Some (s : string) : s ≠ "" -> exists c, first_char s = Some c.
Proof. destruct s; [done|]. eauto. Qed.

Lemma last_char_is_Some (s : string) : s ≠ "" -> exists c, last_char s = Some c.
Proof.
  induction s as [|a s IH]; [done|]. intros _. destruct s as [|b s]; [by eexists|].
  destruct IH as [c Hc]; [done|]. exists c. exact Hc.
Qed.

(** Decide which of the new and saved URLs are empty, then conclude. *)
Ltac url_cases base file sc :=
  destruct (decide (base = "")), (decide (file = "")),
           (decide (IsoImageBaseUrl sc = "")), (decide (IsoImageFileUrl sc = ""));
  repeat destruct (decide _); intuition congruence.

Section SavedConfigsFacts.

Context {DracutPackageInformation : Type}.
Context (w : World DracutPackageInformation).

Abbreviation Cfg := (SavedConfigs DracutPackageInformation).

(** What [updateSavedConfigs] returns is what it persisted, and it is the
    merge of what it loaded. *)
Lemma updateSavedConfigs_inv (path newArgs base file : string)
    (info : option DracutPackageInformation) (tr : Trace DracutPackageInformation) (cfg : Cfg) :
  (updateSavedConfigs w path newArgs base file info tr).1 = Ok cfg ->
  let fresh := {| ExtraCommandLine := newArgs; IsoImageBaseUrl := base;
                  IsoImageFileUrl := file; DracutPackageInfo := info |} in
  (updateSavedConfigs w path newArgs base file info tr).2
    = tr ++ [EvLoadSavedConfigs path; EvPersistSavedConfigs cfg path]
  /\ ((load_saved_configs w tr path = Ok None /\ cfg = fresh)
      \/ (exists sc, load_saved_configs w tr path = Ok (Some sc)
                     /\ cfg = mergeSavedConfigs sc newArgs base file info fresh)).
Proof.
  unfold updateSavedConfigs, bind, loadSavedConfigs, persistSavedConfigs, perform, ret. cbn.
  destruct (load_saved_configs w tr path) as [[sc|]|e]; cbn; [| |done].
  - destruct (persist_saved_configs w _ _ path); cbn; [done|].
    intros [= <-]. rewrite <- app_assoc. split; [done|]. right. by eexists.
  - destruct (persist_saved_configs w _ _ path); cbn; [done|].
    intros [= <-]. rewrite <- app_assoc. split; [done|]. by left.
Qed.

Lemma merge_urls (sc : Cfg) (newArgs base file : string)
    (info : option DracutPackageInformation) (fresh : Cfg) :
  IsoImageBaseUrl fresh = base -> IsoImageFileUrl fresh = file ->
  let cfg := mergeSavedConfigs sc newArgs base file info fresh in
  IsoImageBaseUrl cfg =
    (if decide (file ≠ "") then ""
     else if decide (base = "" /\ IsoImageBaseUrl sc ≠ "") then IsoImageBaseUrl sc else base)
  /\ IsoImageFileUrl cfg =
    (if decide (base ≠ "") then ""
     else if decide (file = "" /\ IsoImageFileUrl sc ≠ "") then IsoImageFileUrl sc else file).
Proof.
  intros Hb Hf. unfold mergeSavedConfigs.
  destruct fresh as [x fb ff fi]; cbn in Hb, Hf; subst fb ff.
  destruct info; repeat destruct (decide _); cbn; split; intuition congruence.
Qed.

Lemma merge_extra (sc : Cfg) (newArgs base file : string)
    (info : option DracutPackageInformation) (fresh : Cfg) :
  ExtraCommandLine sc ≠ "" ->
  ExtraCommandLine (mergeSavedConfigs sc newArgs base file info fresh)
    = TrimSpace (ExtraCommandLine sc) +:+ " " +:+ TrimSpace newArgs.
Proof.
  intros Hne. unfold mergeSavedConfigs.
  destruct info; repeat destruct (decide _); cbn; done.
Qed.

End SavedConfigsFacts.







(** ** Grub configuration and the PXE capability check *)

Section GrubFacts.

Context {DracutPackageInformation : Type}.
Context (H : Helpers DracutPackageInformation) (w : World DracutPackageInformation).

Lemma generatePxeGrubCfg_conflict (content base file outputImageBase pxeFile : string)
    (tr : Trace DracutPackageInformation) :
  base ≠ "" -> file ≠ "" ->
  generatePxeGrubCfg H w content base file outputImageBase pxeFile tr = (Some conflictError, tr).
Proof.
  intros Hb Hf. unfold generatePxeGrubCfg, pxeGrubCfgContent.
  by rewrite decide_True.
Qed.

(** [updateGrubCfg] once the ISO grub.cfg has been read, rewritten and
    written back. *)
Lemma updateGrubCfg_after_iso_write (isoFile pxeFile : string)
    (sc : SavedConfigs DracutPackageInformation) (outputImageBase content content' : string)
    (tr : Trace DracutPackageInformation) :
  file_Read w tr isoFile = Ok content ->
  isoGrubCfgContent H content sc = Ok content' ->
  file_Write w (tr ++ [EvReadFile isoFile]) content' isoFile = None ->
  let tr' := tr ++ [EvReadFile isoFile; EvWriteFile content' isoFile] in
  updateGrubCfg H w isoFile pxeFile sc outputImageBase tr =
    match verifyDracutPXESupport H (DracutPackageInfo sc) with
    | Some e =>
        (None, tr' ++ [EvLogInfo ("cannot generate grub.cfg for PXE booting." +:+ nl +:+ Error e)])
    | None =>
        let '(err, tr'') :=
          generatePxeGrubCfg H w content' (IsoImageBaseUrl sc) (IsoImageFileUrl sc)
            outputImageBase pxeFile tr' in
        (match err with
         | Some e => Some (wrapf ("failed to create grub configuration for PXE booting." +:+ nl) e)
         | None => None
         end, tr'')
    end.
Proof.
  intros Hread Hiso Hwrite tr'.
  unfold updateGrubCfg, bind, ReadFile, WriteFile, perform, emit, ret. cbn.
  rewrite Hread, Hiso. cbn. rewrite Hwrite.
  replace ((tr ++ [EvReadFile isoFile]) ++ [EvWriteFile content' isoFile]) with tr'
    by (unfold tr'; by rewrite <- app_assoc).
  destruct (verifyDracutPXESupport H (DracutPackageInfo sc)); [done|].
  destruct (generatePxeGrubCfg H w content' _ _ outputImageBase pxeFile tr') as [[e|] tr''];
    done.
Qed.

End GrubFacts.

(** C2, as stated, fails: with a dracut version that does not pass the PXE
    check and a PXE artifacts directory requested, the build fails, although
    the same build succeeds without the directory, and succeeds with it
    when the version passes the check. *)
Lemma pxe_dir_requested_without_support_fails :
  let w := Sample.world None [] "menuentry" "" in
  let build info pxeDir :=
    createImageFromUnchangedOS Sample.helpers w (Sample.builder info) "/cfg" None None
      "/out" "myimage" pxeDir [] in
  (build (Some 0%nat) "/out/pxe").1.2 =
    Some (wrapf ("failed to generate iso image and/or PXE artifacts folder" +:+ nl)
            (wrapf ("cannot generate the PXE artifacts folder." +:+ nl) Sample.noPxeSupport))
  /\ (build (Some 0%nat) "").1.2 = None
  /\ (build (Some 1%nat) "/out/pxe").1.2 = None.
Proof. repeat split. Qed.

(** C2, amended.  When the dracut version does not pass the PXE check,
    [updateGrubCfg], once the ISO grub.cfg is written, writes no PXE
    grub.cfg, logs the reason at the information level and succeeds; and
    [createIsoImageAndPXEFolder], once the ISO is created, succeeds when no
    PXE artifacts directory was requested.  When one was requested it fails
    with "cannot generate the PXE artifacts folder", wrapping the reason. *)
Theorem pxe_capability_gap
    {DracutPackageInformation : Type} (H : Helpers DracutPackageInformation)
    (w : World DracutPackageInformation) (b : LiveOSIsoBuilder DracutPackageInformation)
    (sc : SavedConfigs DracutPackageInformation)
    (isoFile pxeFile outputImageDir outputImageBase outputPXEArtifactsDir : string)
    (additionalIsoFiles : list FileToCopy) (content content' isoImagePath : string)
    (e e' : error) (tr tr1 tr2 : Trace DracutPackageInformation) :
  verifyDracutPXESupport H (DracutPackageInfo sc) = Some e ->
  file_Read w tr isoFile = Ok content ->
  isoGrubCfgContent H content sc = Ok content' ->
  file_Write w (tr ++ [EvReadFile isoFile]) content' isoFile = None ->
  verifyDracutPXESupport H (dracutPackageInfo (artifacts b)) = Some e' ->
  createIsoImage w b additionalIsoFiles outputImageDir outputImageBase tr1 = (Ok isoImagePath, tr2) ->
  updateGrubCfg H w isoFile pxeFile sc outputImageBase tr =
    (None, tr ++ [EvReadFile isoFile; EvWriteFile content' isoFile;
                  EvLogInfo ("cannot generate grub.cfg for PXE booting." +:+ nl +:+ Error e)])
  /\ createIsoImageAndPXEFolder H w b additionalIsoFiles outputImageDir outputImageBase
       outputPXEArtifactsDir tr1 =
     (if decide (outputPXEArtifactsDir = "") then None
      else Some (wrapf ("cannot generate the PXE artifacts folder." +:+ nl) e'), tr2).
Proof.
  intros Hv Hread Hiso Hwrite Hv' Hcreate. split.
  - rewrite (updateGrubCfg_after_iso_write H w _ _ _ _ _ _ _ Hread Hiso Hwrite), Hv.
    by rewrite <- app_assoc.
  - unfold createIsoImageAndPXEFolder, bind. rewrite Hcreate.
    destruct (decide (outputPXEArtifactsDir = "")) as [->|Hne].
    + done.
    + rewrite decide_True by done. by rewrite Hv'.
Qed.

Lemma pxe_capability_gap_witness :
  let w := Sample.world None [] "menuentry" "" in
  let b := Sample.builder (Some 0%nat) in
  let sc := {| ExtraCommandLine := ""; IsoImageBaseUrl := ""; IsoImageFileUrl := "";
               DracutPackageInfo := Some 0%nat |} in
  (updateGrubCfg Sample.helpers w "/x/boot/grub2/grub.cfg" "/x/boot/grub2/grub-pxe.cfg"
     sc "myimage" []).1 = None
  /\ (createIsoImageAndPXEFolder Sample.helpers w b [] "/out" "myimage" "" []).1 = None.
Proof.
  intros w b sc.
  pose proof (pxe_capability_gap Sample.helpers w b sc "/x/boot/grub2/grub.cfg"
                "/x/boot/grub2/grub-pxe.cfg" "/out" "myimage" "" [] "menuentry" _ _ _ _
                [] [] _ eq_refl eq_refl eq_refl eq_refl eq_refl eq_refl) as [Hg Hc].
  split; [by rewrite Hg|by rewrite Hc].
Defined.

(** C3, as stated, fails: in a build where the user supplies both URL forms
    (first run, dracut with PXE support), the conflict is reported only
    after the merged configuration has been persisted and the ISO grub.cfg
    has been rewritten on disk. *)
Lemma both_urls_rejected_after_persist_and_grub_write :
  let w := Sample.world None [] "menuentry" "" in
  let pxe := {| pxe_IsoImageBaseUrl := "http://host/liveos";
                pxe_IsoImageFileUrl := "http://host/images/live.iso" |} in
  let cfg := {| ExtraCommandLine := ""; IsoImageBaseUrl := "http://host/liveos";
                IsoImageFileUrl := "http://host/images/live.iso";
                DracutPackageInfo := Some 1%nat |} in
  let build :=
    createImageFromUnchangedOS Sample.helpers w (Sample.builder (Some 1%nat)) "/cfg" None
      (Some pxe) "/out" "myimage" "" [] in
  build.1.2 =
    Some (wrapf ("failed to update grub.cfg:" +:+ nl)
            (wrapf ("failed to create grub configuration for PXE booting." +:+ nl) conflictError))
  /\ (exists content,
        build.2 =
          [EvLogInfo "Creating LiveOS iso image using unchanged OS partitions";
           EvLoadSavedConfigs "/x/azl-image-customizer/saved-configs.yaml";
           EvPersistSavedConfigs cfg "/x/azl-image-customizer/saved-configs.yaml";
           EvReadFile "/x/boot/grub2/grub.cfg";
           EvWriteFile content "/x/boot/grub2/grub.cfg"])
  /\ existsb mutates_filesystem build.2 = true.
Proof. split; [reflexivity|]. split; [eexists; reflexivity|reflexivity]. Qed.

(** The same build with a saved configuration present is not rejected at
    all: the merge clears both URLs before [generatePxeGrubCfg] sees them. *)
Lemma both_urls_with_saved_configuration_not_rejected :
  let saved := {| ExtraCommandLine := ""; IsoImageBaseUrl := ""; IsoImageFileUrl := "";
                  DracutPackageInfo := Some 1%nat |} in
  let w := Sample.world (Some saved) [] "menuentry" "" in
  let pxe := {| pxe_IsoImageBaseUrl := "http://host/liveos";
                pxe_IsoImageFileUrl := "http://host/images/live.iso" |} in
  (createImageFromUnchangedOS Sample.helpers w (Sample.builder None) "/cfg" None
     (Some pxe) "/out" "myimage" "" []).1.2 = None.
Proof. reflexivity. Qed.

(** C3, amended.  [generatePxeGrubCfg], given both URL forms, returns the
    configuration-conflict error before doing anything else: it performs no
    operation and does not write the PXE grub.cfg.  In a build
    ([createImageFromUnchangedOS]) where the user supplies both forms, no
    saved configuration exists, the steps before the check succeed and the
    dracut version passes the PXE check, the build fails with an error
    wrapping the conflict error, after exactly these operations: the merged
    configuration is persisted and the ISO grub.cfg is read and written
    back; nothing is done after the rejection. *)
Theorem both_urls_conflict_rejected_in_generatePxeGrubCfg
    {DracutPackageInformation : Type} (H : Helpers DracutPackageInformation)
    (w : World DracutPackageInformation) (b : LiveOSIsoBuilder DracutPackageInformation)
    (baseConfigPath : string) (isoConfig : option Iso) (pxe : Pxe)
    (outputImageDir outputImageBase outputPXEArtifactsDir content content' : string)
    (tr : Trace DracutPackageInformation) :
  pxe_IsoImageBaseUrl pxe ≠ "" -> pxe_IsoImageFileUrl pxe ≠ "" ->
  let path := savedConfigsFilePath (artifacts b) in
  let isoFile := isoGrubCfgPath (artifacts b) in
  let cfg := {| ExtraCommandLine := (micIsoConfigToIsoMakerConfig H baseConfigPath isoConfig).2;
                IsoImageBaseUrl := pxe_IsoImageBaseUrl pxe;
                IsoImageFileUrl := pxe_IsoImageFileUrl pxe;
                DracutPackageInfo := dracutPackageInfo (artifacts b) |} in
  let tr1 := tr ++ [EvLogInfo "Creating LiveOS iso image using unchanged OS partitions"] in
  let tr2 := tr1 ++ [EvLoadSavedConfigs path] in
  let tr3 := tr2 ++ [EvPersistSavedConfigs cfg path] in
  let tr4 := tr3 ++ [EvReadFile isoFile] in
  let build := createImageFromUnchangedOS H w b baseConfigPath isoConfig (Some pxe)
                 outputImageDir outputImageBase outputPXEArtifactsDir tr in
  (forall c pxeFile tr0,
     generatePxeGrubCfg H w c (pxe_IsoImageBaseUrl pxe) (pxe_IsoImageFileUrl pxe)
       outputImageBase pxeFile tr0 = (Some conflictError, tr0))
  /\ (load_saved_configs w tr1 path = Ok None ->
      persist_saved_configs w tr2 cfg path = None ->
      file_Read w tr3 isoFile = Ok content ->
      isoGrubCfgContent H content cfg = Ok content' ->
      file_Write w tr4 content' isoFile = None ->
      verifyDracutPXESupport H (dracutPackageInfo (artifacts b)) = None ->
      build.1.2 =
        Some (wrapf ("failed to update grub.cfg:" +:+ nl)
                (wrapf ("failed to create grub configuration for PXE booting." +:+ nl)
                   conflictError))
      /\ build.2 = tr4 ++ [EvWriteFile content' isoFile]).
Proof.
  intros Hb Hf path isoFile cfg tr1 tr2 tr3 tr4 build.
  split; [intros; by apply generatePxeGrubCfg_conflict|].
  intros Hload Hpersist Hread Hiso Hwrite Hverify.
  assert (exists b', build =
            (b', Some (wrapf ("failed to update grub.cfg:" +:+ nl)
                         (wrapf ("failed to create grub configuration for PXE booting." +:+ nl)
                            conflictError)),
             tr4 ++ [EvWriteFile content' isoFile])) as [b' ->]; [|done].
  eexists. subst build. unfold createImageFromUnchangedOS.
  unfold bind at 1. unfold emit at 1. fold tr1.
  destruct (micIsoConfigToIsoMakerConfig H baseConfigPath isoConfig) as [files extra] eqn:Hmic.
  cbn [snd] in cfg.
  unfold bind at 1. fold path.
  assert (updateSavedConfigs w path extra (pxe_IsoImageBaseUrl pxe) (pxe_IsoImageFileUrl pxe)
            (dracutPackageInfo (artifacts b)) tr1 = (Ok cfg, tr3)) as ->.
  { unfold updateSavedConfigs, bind, loadSavedConfigs, persistSavedConfigs, perform, ret.
    rewrite Hload. fold cfg. fold tr2. by rewrite Hpersist. }
  unfold bind at 1.
  cbn [artifacts with_artifacts set_dracutPackageInfo isoGrubCfgPath pxeGrubCfgPath].
  fold isoFile.
  rewrite (updateGrubCfg_after_iso_write H w isoFile _ cfg outputImageBase content content' tr3
             Hread Hiso Hwrite).
  cbn [DracutPackageInfo cfg]. rewrite Hverify.
  cbn [IsoImageBaseUrl IsoImageFileUrl cfg].
  rewrite generatePxeGrubCfg_conflict by done.
  unfold ret, tr4. by rewrite <- !app_assoc.
Qed.

Lemma both_urls_conflict_rejected_in_generatePxeGrubCfg_witness :
  let w := Sample.world None [] "menuentry" "" in
  let pxe := {| pxe_IsoImageBaseUrl := "http://host/liveos";
                pxe_IsoImageFileUrl := "http://host/images/live.iso" |} in
  pxe_IsoImageBaseUrl pxe ≠ "" /\ pxe_IsoImageFileUrl pxe ≠ ""
  /\ (generatePxeGrubCfg Sample.helpers w "menuentry" "http://host/liveos"
        "http://host/images/live.iso" "myimage" "/x/boot/grub2/grub-pxe.cfg" [])
     = (Some conflictError, [])
  /\ (createImageFromUnchangedOS Sample.helpers w (Sample.builder (Some 1%nat)) "/cfg" None
        (Some pxe) "/out" "myimage" "" []).1.2
     = Some (wrapf ("failed to update grub.cfg:" +:+ nl)
               (wrapf ("failed to create grub configuration for PXE booting." +:+ nl)
                  conflictError)).
Proof.
  intros w pxe. split; [discriminate|]. split; [discriminate|].
  set (cfg := {| ExtraCommandLine := ""; IsoImageBaseUrl := pxe_IsoImageBaseUrl pxe;
                 IsoImageFileUrl := pxe_IsoImageFileUrl pxe;
                 DracutPackageInfo := Some 1%nat |}).
  set (rewritten := match isoGrubCfgContent Sample.helpers "menuentry" cfg with
                    | Ok content => content
                    | Err _ => ""
                    end).
  destruct (both_urls_conflict_rejected_in_generatePxeGrubCfg Sample.helpers w
              (Sample.builder (Some 1%nat)) "/cfg" None pxe "/out" "myimage" "" "menuentry"
              rewritten [] ltac:(discriminate) ltac:(discriminate)) as [Hcheck Hbuild].
  split; [apply Hcheck|].
  exact (proj1 (Hbuild eq_refl eq_refl eq_refl eq_refl eq_refl eq_refl)).
Defined.

(** C8.  With an empty file URL and a non-empty base URL, the value given
    to the [root] kernel argument of the PXE grub.cfg is [live:] followed by
    the base URL joined ([url.JoinPath]) with the output base name plus
    [.iso]; [generatePxeGrubCfg] rewrites [root] with exactly this value and
    writes the result.  For the base URL [http://host/liveos] and the output
    base name [myimage], [url.JoinPath] giving
    [http://host/liveos/myimage.iso], the value is
    [live:http://host/liveos/myimage.iso]. *)
Theorem pxe_root_value_from_base_url
    {DracutPackageInformation : Type} (H : Helpers DracutPackageInformation)
    (w : World DracutPackageInformation)
    (content base outputImageBase pxeFile joined c1 : string)
    (tr : Trace DracutPackageInformation) :
  base ≠ "" ->
  url_JoinPath H base (outputImageBase +:+ ".iso") = Ok joined ->
  removeCommandAll H content "search" = Ok c1 ->
  pxeRootValue H base "" outputImageBase = Ok ("live:" +:+ joined)
  /\ generatePxeGrubCfg H w content base "" outputImageBase pxeFile tr =
     match replaceKernelCommandLineArgValueAll H c1 "root" ("live:" +:+ joined) true with
     | Err e =>
         (Some (wrapf ("failed to update the root kernel argument with the PXE iso image url in the PXE grub.cfg:" +:+ nl) e), tr)
     | Ok c2 =>
         match appendKernelCommandLineArgsAll H c2 pxeKernelsArgs true false with
         | Err e =>
             (Some (wrapf ("failed to append the kernel arguments (" +:+ pxeKernelsArgs
                           +:+ ") in the PXE grub.cfg:" +:+ nl) e), tr)
         | Ok c3 =>
             (match file_Write w tr c3 pxeFile with
              | Some e => Some (wrapf ("failed to write " +:+ pxeFile +:+ ":" +:+ nl) e)
              | None => None
              end, tr ++ [EvWriteFile c3 pxeFile])
         end
     end
  /\ (base = "http://host/liveos" -> outputImageBase = "myimage" ->
      joined = "http://host/liveos/myimage.iso" ->
      pxeRootValue H base "" outputImageBase = Ok "live:http://host/liveos/myimage.iso").
Proof.
  intros Hbase Hjoin Hremove.
  assert (pxeRootValue H base "" outputImageBase = Ok ("live:" +:+ joined)) as Hroot.
  { unfold pxeRootValue. rewrite decide_True by done.
    change (name (getImageNameFromImageBaseName outputImageBase))
      with (outputImageBase +:+ "" +:+ "" +:+ ".iso").
    rewrite !append_empty_l, Hjoin. reflexivity. }
  split; [exact Hroot|]. split.
  - unfold generatePxeGrubCfg, pxeGrubCfgContent.
    rewrite decide_False by (intros [_ ?]; done).
    rewrite Hremove. cbn [try_wrap]. rewrite Hroot.
    destruct (replaceKernelCommandLineArgValueAll H c1 "root" ("live:" +:+ joined) true)
      as [c2|e]; [|done].
    cbn [try_wrap].
    destruct (appendKernelCommandLineArgsAll H c2 pxeKernelsArgs true false) as [c3|e]; [|done].
    cbn [try_wrap]. unfold bind, WriteFile, perform, ret.
    by destruct (file_Write w tr c3 pxeFile).
  - intros _ _ ->. exact Hroot.
Qed.

Lemma pxe_root_value_from_base_url_witness :
  pxeRootValue Sample.helpers "http://host/liveos" "" "myimage"
    = Ok "live:http://host/liveos/myimage.iso"
  /\ generatePxeGrubCfg Sample.helpers (Sample.world None [] "" "") "menuentry"
       "http://host/liveos" "" "myimage" "/x/boot/grub2/grub-pxe.cfg" []
     = (None,
        [EvWriteFile ("menuentry" +:+ nl +:+ "root=live:http://host/liveos/myimage.iso"
                      +:+ nl +:+ "ip=dhcp rd.live.azldownloader=enable")
                     "/x/boot/grub2/grub-pxe.cfg"]).
Proof.
  pose proof (pxe_root_value_from_base_url Sample.helpers (Sample.world None [] "" "")
                "menuentry" "http://host/liveos" "myimage" "/x/boot/grub2/grub-pxe.cfg"
                "http://host/liveos/myimage.iso" "menuentry" []) as Hthm.
  destruct Hthm as (Hroot & Hgen & _); [discriminate|reflexivity|reflexivity|].
  split; [exact Hroot|]. rewrite Hgen. reflexivity.
Defined.

(** ** Regular expressions: the search agrees with the meaning *)

Lemma append_eq_empty (s t : string) : s +:+ t = "" -> s = "" /\ t = "".
Proof. destruct s; [done|]. by rewrite append_cons. Qed.

Lemma append_eq_cons (s t : string) (c : ascii) (u : string) :
  s +:+ t = String c u ->
  (s = "" /\ t = String c u) \/ (exists s', s = String c s' /\ u = s' +:+ t).
Proof.
  destruct s as [|a s]; [by left|]. rewrite append_cons. intros [= -> <-]. right. by eexists.
Qed.

Lemma nullable_spec (r : regex) : nullable r = true <-> matches r "".
Proof.
  induction r as [| | | |r1 IH1 r2 IH2|r IH]; cbn [nullable].
  - split; [done|inversion 1].
  - split; [constructor|done].
  - split; [done|inversion 1].
  - split; [done|inversion 1].
  - rewrite andb_true_iff, IH1, IH2. split.
    + intros [H1 H2]. exact (matches_cat _ _ "" "" H1 H2).
    + inversion 1 as [| | |? ? s1 s2 H1 H2 Hr Hs| |]. subst.
      apply append_eq_empty in Hs as [-> ->]. done.
  - split; [constructor|done].
Qed.

Lemma deriv_sound (c : ascii) (r : regex) (s : string) (d : regex) :
  d ∈ deriv c r -> matches d s -> matches r (String c s).
Proof.
  revert d s. induction r as [| | | |r1 IH1 r2 IH2|r IH]; intros d s Hd Hm; cbn [deriv] in Hd.
  - by apply elem_of_nil in Hd.
  - by apply elem_of_nil in Hd.
  - destruct (decide (c = c0)) as [->|]; [|by apply elem_of_nil in Hd].
    apply list_elem_of_singleton in Hd as ->. inversion Hm. constructor.
  - destruct (decide (c = "010"%char)); [by apply elem_of_nil in Hd|].
    apply list_elem_of_singleton in Hd as ->. inversion Hm. by constructor.
  - apply elem_of_app in Hd as [Hd|Hd].
    + apply list_elem_of_fmap in Hd as (d1 & -> & Hd1).
      inversion Hm as [| | |? ? s1 s2 H1 H2| |]; subst.
      rewrite <- append_cons. constructor; [by eapply IH1|done].
    + destruct (nullable r1) eqn:Hn; [|by apply elem_of_nil in Hd].
      apply nullable_spec in Hn.
      rewrite <- (append_empty_l (String c s)). constructor; [done|by eapply IH2].
  - apply list_elem_of_fmap in Hd as (d1 & -> & Hd1).
    inversion Hm as [| | |? ? s1 s2 H1 H2| |]; subst.
    rewrite <- append_cons. constructor; [by eapply IH|done].
Qed.

Lemma deriv_complete (c : ascii) (r : regex) (s : string) :
  matches r (String c s) -> exists d, d ∈ deriv c r /\ matches d s.
Proof.
  remember (String c s) as t eqn:Ht. intros Hm. revert c s Ht.
  induction Hm as [|a|a Ha|r1 r2 s1 s2 H1 IH1 H2 IH2|r|r s1 s2 H1 IH1 H2 IH2];
    intros c s Ht; cbn [deriv].
  - done.
  - injection Ht as -> <-. exists ReEps. rewrite decide_True by done.
    split; [apply list_elem_of_here|constructor].
  - injection Ht as -> <-. exists ReEps. rewrite decide_False by done.
    split; [apply list_elem_of_here|constructor].
  - apply append_eq_cons in Ht as [[-> ->]|(s1' & -> & ->)].
    + destruct (IH2 c s eq_refl) as (d & Hd & Hmd).
      exists d. split; [|done]. apply elem_of_app. right.
      by rewrite (proj2 (nullable_spec r1) H1).
    + destruct (IH1 c s1' eq_refl) as (d & Hd & Hmd).
      exists (ReCat d r2). split; [|by constructor].
      apply elem_of_app. left. apply list_elem_of_fmap. by exists d.
  - done.
  - apply append_eq_cons in Ht as [[-> ->]|(s1' & -> & ->)].
    + by apply IH2.
    + destruct (IH1 c s1' eq_refl) as (d & Hd & Hmd).
      exists (ReCat d (ReStar r)). split; [|by constructor].
      apply list_elem_of_fmap. by exists d.
Qed.

(** [prefix_matches]: one of the expressions matches a prefix. *)
Lemma prefix_matches_spec (rs : list regex) (s : string) :
  prefix_matches rs s = true
  <-> exists r s1 s2, r ∈ rs /\ s = s1 +:+ s2 /\ matches r s1.
Proof.
  revert rs. induction s as [|c s IH]; intros rs; cbn [prefix_matches].
  - rewrite orb_false_r, existsb_exists. split.
    + intros (r & Hin & Hn). exists r, "", "".
      split; [by apply list_elem_of_In|]. split; [done|by apply nullable_spec].
    + intros (r & s1 & s2 & Hin & Hs & Hm). symmetry in Hs.
      apply append_eq_empty in Hs as [-> ->].
      exists r. split; [by apply list_elem_of_In|by apply nullable_spec].
  - rewrite orb_true_iff, existsb_exists, IH. split.
    + intros [(r & Hin & Hn)|(d & s1 & s2 & Hd & -> & Hm)].
      * exists r, "", (String c s).
        split; [by apply list_elem_of_In|]. split; [done|by apply nullable_spec].
      * apply list_elem_of_In, in_flat_map in Hd as (r & Hr & Hd).
        exists r, (String c s1), s2. split; [by apply list_elem_of_In|].
        split; [done|]. eapply deriv_sound; [|done]. by apply list_elem_of_In.
    + intros (r & s1 & s2 & Hin & Hs & Hm).
      symmetry in Hs. apply append_eq_cons in Hs as [[-> _]|(s1' & -> & ->)].
      * left. exists r. split; [by apply list_elem_of_In|by apply nullable_spec].
      * right. destruct (deriv_complete c r s1' Hm) as (d & Hd & Hmd).
        exists d, s1', s2. split; [|done].
        apply list_elem_of_In, in_flat_map. exists r.
        split; by apply list_elem_of_In.
Qed.

(** [FindStringIndex_found]: the expression matches a part of the string. *)
Lemma FindStringIndex_found_spec (r : regex) (s : string) :
  FindStringIndex_found r s = true
  <-> exists p m q, s = p +:+ m +:+ q /\ matches r m.
Proof.
  induction s as [|c s IH]; cbn [FindStringIndex_found].
  - rewrite orb_false_r, prefix_matches_spec. split.
    + intros (r' & s1 & s2 & Hin & Hs & Hm). apply list_elem_of_singleton in Hin as ->.
      by exists "", s1, s2.
    + intros (p & m & q & Hs & Hm). symmetry in Hs.
      apply append_eq_empty in Hs as [-> Hs]. apply append_eq_empty in Hs as [-> ->].
      exists r, "", "". split; [apply list_elem_of_here|done].
  - rewrite orb_true_iff, prefix_matches_spec, IH. split.
    + intros [(r' & s1 & s2 & Hin & Hs & Hm)|(p & m & q & -> & Hm)].
      * apply list_elem_of_singleton in Hin as ->. by exists "", s1, s2.
      * by exists (String c p), m, q.
    + intros (p & m & q & Hs & Hm). destruct p as [|a p].
      * left. exists r, m, q. split; [apply list_elem_of_here|done].
      * rewrite append_cons in Hs. injection Hs as <- ->. right. by exists p, m, q.
Qed.

Lemma no_newline_app (s t : string) :
  no_newline (s +:+ t) = no_newline s && no_newline t.
Proof.
  induction s as [|c s IH]; [done|]. rewrite append_cons. cbn [no_newline].
  by destruct (decide _).
Qed.

Lemma matches_lit (l s : string) : matches (ReLit l) s <-> s = l.
Proof.
  revert s. induction l as [|c l IH]; intros s; cbn [ReLit].
  - split; [by inversion 1|intros ->; constructor].
  - split.
    + inversion 1 as [| | |? ? s1 s2 H1 H2| |]; subst.
      inversion H1; subst. apply IH in H2 as ->. done.
    + intros ->. apply (matches_cat _ _ (String c "") l); [constructor|by apply IH].
Qed.

Lemma matches_any_star (s : string) :
  matches (ReStar ReAnyNotNL) s <-> no_newline s = true.
Proof.
  split.
  - remember (ReStar ReAnyNotNL) as r eqn:Hr. intros Hm.
    induction Hm as [| | | |r'|r' s1 s2 H1 _ H2 IH2]; try done.
    injection Hr as ->. rewrite no_newline_app, IH2 by done.
    inversion H1; subst. cbn. by rewrite decide_False.
  - induction s as [|c s IH]; [constructor|]. cbn [no_newline].
    destruct (decide (c = "010"%char)); [done|]. intros Hs.
    apply (matches_star_cons _ (String c "") s); [by constructor|by apply IH].
Qed.

Lemma matches_cat_inv (r1 r2 : regex) (s : string) :
  matches (ReCat r1 r2) s <-> exists s1 s2, s = s1 +:+ s2 /\ matches r1 s1 /\ matches r2 s2.
Proof.
  split.
  - inversion 1; subst. by eexists _, _.
  - intros (s1 & s2 & -> & H1 & H2). by constructor.
Qed.

Lemma found_lit (l f : string) :
  FindStringIndex_found (ReLit l) f = true <-> mentions f l.
Proof.
  rewrite FindStringIndex_found_spec. unfold mentions. split.
  - intros (p & m & q & -> & Hm). apply matches_lit in Hm as ->. by exists p, q.
  - intros (p & q & ->). exists p, l, q. split; [done|by apply matches_lit].
Qed.

Lemma found_lit_any (l f : string) :
  FindStringIndex_found (ReCat (ReLit l) (ReStar ReAnyNotNL)) f = true <-> mentions f l.
Proof.
  rewrite FindStringIndex_found_spec. unfold mentions. split.
  - intros (p & m & q & -> & Hm).
    apply matches_cat_inv in Hm as (s1 & s2 & -> & H1 & _). apply matches_lit in H1 as ->.
    exists p, (s2 +:+ q). by rewrite !append_assoc.
  - intros (p & q & ->). exists p, (l +:+ ""), q. split; [by rewrite append_empty_r|].
    constructor; [by apply matches_lit|constructor].
Qed.

Lemma found_lit_any_lit_any (a b f : string) :
  FindStringIndex_found
    (ReCat (ReLit a) (ReCat (ReStar ReAnyNotNL) (ReCat (ReLit b) (ReStar ReAnyNotNL)))) f = true
  <-> exists p mid q, f = p +:+ a +:+ mid +:+ b +:+ q /\ no_newline mid = true.
Proof.
  rewrite FindStringIndex_found_spec. split.
  - intros (p & m & q & -> & Hm).
    apply matches_cat_inv in Hm as (s1 & m1 & -> & H1 & Hm).
    apply matches_cat_inv in Hm as (mid & m2 & -> & Hmid & Hm).
    apply matches_cat_inv in Hm as (s3 & t & -> & H3 & _).
    apply matches_lit in H1 as ->. apply matches_lit in H3 as ->.
    apply matches_any_star in Hmid.
    exists p, mid, (t +:+ q). split; [by rewrite !append_assoc|done].
  - intros (p & mid & q & -> & Hmid).
    exists p, (a +:+ mid +:+ b +:+ ""), q. split; [by rewrite append_empty_r, !append_assoc|].
    constructor; [by apply matches_lit|].
    constructor; [by apply matches_any_star|].
    constructor; [by apply matches_lit|constructor].
Qed.

Lemma excluded_spec (path : string) : excluded path = true <-> matches_exclusion path.
Proof.
  unfold excluded, exclusions, matches_exclusion. cbn [existsb].
  rewrite orb_false_r, !orb_true_iff, found_lit_any, found_lit_any_lit_any, found_lit.
  tauto.
Qed.

(** ** Classifying the files of /boot *)

Section BootFilesFacts.

Context {DracutPackageInformation : Type}.
Context (w : World DracutPackageInformation).
Context (usingGrubNoPrefix : bool) (writeableRootfsDir : string).

Abbreviation Bld := (LiveOSIsoBuilder DracutPackageInformation).
Abbreviation Art := (IsoArtifacts DracutPackageInformation).

Abbreviation body := (extractBootDirFiles_body w usingGrubNoPrefix writeableRootfsDir).
Abbreviation loop := (extractBootDirFiles_loop w usingGrubNoPrefix writeableRootfsDir).

(** The path a file of /boot is copied to before classification. *)
Abbreviation target_of b sourcePath :=
  (ReplaceAll sourcePath writeableRootfsDir (isoArtifactsDir (workingDirs b))).

Lemma body_excluded (b : Bld) (sourcePath : string) (tr : Trace DracutPackageInformation) :
  excluded sourcePath = true ->
  body b sourcePath tr = (b, None, tr ++ [EvLogDebug (notCopyingMessage sourcePath)]).
Proof. intros Hex. unfold extractBootDirFiles_body. by rewrite Hex. Qed.

Lemma body_kept (b : Bld) (sourcePath : string) (tr : Trace DracutPackageInformation) :
  excluded sourcePath = false ->
  exists b' err targetPath,
    body b sourcePath tr = (b', err, tr ++ [EvCopyFile sourcePath targetPath])
    /\ workingDirs b' = workingDirs b
    /\ (exists m, artifacts b' =
          set_additionalFiles m
            (classifyBootFile usingGrubNoPrefix (isoArtifactsDir (workingDirs b))
               (artifacts b) (target_of b sourcePath)).1.1).
Proof.
  intros Hex. unfold extractBootDirFiles_body. rewrite Hex.
  destruct (classifyBootFile _ _ _ _) as [[a targetPath] schedule] eqn:Hc.
  unfold bind, CopyNoDereference, perform, ret. cbn [fst snd].
  destruct (file_CopyNoDereference w tr sourcePath targetPath) as [e|].
  - eexists _, _, _. split; [reflexivity|]. split; [done|].
    exists (additionalFiles a). by destruct a.
  - destruct schedule.
    + eexists _, _, _. split; [reflexivity|]. split; [done|]. by eexists.
    + eexists _, _, _. split; [reflexivity|]. split; [done|].
      exists (additionalFiles a). by destruct a.
Qed.

Lemma shim_slot : @slot_of DracutPackageInformation bootx64EfiPath is_shim.
Proof.
  split; [done|]. intros u dir a targetPath. unfold classifyBootFile.
  split; intros Hname.
  - rewrite decide_True by done. rewrite Hname. reflexivity.
  - rewrite decide_False by done.
    repeat destruct (decide _); destruct (HasPrefix _ _); done.
Qed.

Lemma grub_slot : @slot_of DracutPackageInformation grubx64EfiPath is_grub.
Proof.
  split; [done|]. intros u dir a targetPath. unfold classifyBootFile.
  split; intros Hname.
  - rewrite decide_False by (destruct Hname as [-> | ->]; discriminate).
    rewrite decide_True by done.
    destruct Hname as [-> | ->]; reflexivity.
  - destruct (decide (GoPath.Base targetPath = bootx64Binary)).
    + by destruct (HasPrefix _ _).
    + rewrite decide_False by done.
      destruct (decide _); destruct (HasPrefix _ _); done.
Qed.

Lemma Base_nonempty (path : string) : GoPath.Base path ≠ "." -> path ≠ "".
Proof. by intros Hb ->. Qed.

Section Slot.

Context (get : Art -> string) (is_name : string -> Prop).
Context (Hslot : slot_of get is_name).
Context (Hnames : forall name, is_name name -> name ≠ ".").
Context (Hdec : forall name, {is_name name} + {~ is_name name}).

Abbreviation found_here := (found_in is_name writeableRootfsDir).

Lemma body_slot (b : Bld) (f : string) (tr : Trace DracutPackageInformation) :
  workingDirs (body b f tr).1.1 = workingDirs b
  /\ (excluded f = false /\ is_name (GoPath.Base (target_of b f)) ->
      get (artifacts (body b f tr).1.1) ≠ "")
  /\ (~ (excluded f = false /\ is_name (GoPath.Base (target_of b f))) ->
      get (artifacts (body b f tr).1.1) = get (artifacts b)).
Proof.
  destruct Hslot as [Hset Hclass].
  destruct (excluded f) eqn:Hex.
  - rewrite body_excluded by done. cbn. split; [done|]. split; [by intros [? _]|done].
  - destruct (body_kept b f tr Hex) as (b' & err & tp & -> & Hwd & m & Ha).
    cbn [fst snd]. split; [done|]. rewrite Ha, Hset.
    split.
    + intros [_ Hname]. rewrite (proj1 (Hclass _ _ _ _) Hname).
      apply Base_nonempty. by apply Hnames.
    + intros Hnot. apply (proj2 (Hclass _ _ _ _)). tauto.
Qed.

Lemma loop_workingDirs (files : list string) (b : Bld) (tr : Trace DracutPackageInformation) :
  workingDirs (loop files b tr).1.1 = workingDirs b.
Proof.
  revert b tr. induction files as [|f rest IH]; intros b tr; [done|].
  cbn [extractBootDirFiles_loop]. unfold bind.
  pose proof (body_slot b f tr) as [Hwd _].
  destruct (body b f tr) as [[b1 [e|]] tr1]; cbn in Hwd |- *; [done|].
  by rewrite IH.
Qed.

(** Nothing found: the slot keeps its value. *)
Lemma loop_slot_kept (files : list string) (b : Bld) (tr : Trace DracutPackageInformation) :
  ~ found_here b files ->
  get (artifacts (loop files b tr).1.1) = get (artifacts b).
Proof.
  revert b tr. induction files as [|f rest IH]; intros b tr Hnone; [done|].
  cbn [extractBootDirFiles_loop]. unfold bind.
  pose proof (body_slot b f tr) as (Hwd & _ & Hkeep).
  destruct (body b f tr) as [[b1 [e|]] tr1]; cbn [fst snd] in *.
  - apply Hkeep. intros [Hex Hname]. apply Hnone. exists f. split; [left|done].
  - rewrite IH.
    + apply Hkeep. intros [Hex Hname]. apply Hnone. exists f. split; [left|done].
    + intros (g & Hg & Hex & Hname). apply Hnone. exists g.
      split; [by right|]. split; [done|]. by rewrite <- Hwd.
Qed.

(** Something found, or the slot already filled, and the loop runs to its
    end: the slot is filled. *)
Lemma loop_slot_filled (files : list string) (b : Bld) (tr : Trace DracutPackageInformation) :
  (loop files b tr).1.2 = None ->
  get (artifacts b) ≠ "" \/ found_here b files ->
  get (artifacts (loop files b tr).1.1) ≠ "".
Proof.
  revert b tr. induction files as [|f rest IH]; intros b tr Hdone Hsome.
  - destruct Hsome as [?|(g & Hg & _)]; [done|]. by apply elem_of_nil in Hg.
  - revert Hdone. cbn [extractBootDirFiles_loop]. unfold bind.
    pose proof (body_slot b f tr) as (Hwd & Hfill & Hkeep).
    destruct (body b f tr) as [[b1 [e|]] tr1]; cbn [fst snd] in *; [done|].
    intros Hdone. apply IH; [done|].
    destruct (excluded f) eqn:Hex.
    + rewrite Hkeep by (by intros [? _]).
      destruct Hsome as [?|(g & Hg & Hgex & Hname)]; [by left|].
      apply elem_of_cons in Hg as [->|Hg]; [congruence|].
      right. exists g. split; [done|]. split; [done|]. by rewrite Hwd.
    + destruct Hsome as [Hb|(g & Hg & Hgex & Hname)].
      * left. destruct (Hdec (GoPath.Base (target_of b f))) as [Hn|Hn].
        -- by apply Hfill.
        -- rewrite Hkeep; [done|]. tauto.
      * apply elem_of_cons in Hg as [->|Hg]; [left; by apply Hfill|].
        right. exists g. split; [done|]. split; [done|]. by rewrite Hwd.
Qed.

End Slot.

End BootFilesFacts.

Section BootFilesLoop.

Context {DracutPackageInformation : Type}.
Context (w : World DracutPackageInformation).
Context (usingGrubNoPrefix : bool) (writeableRootfsDir : string).

Lemma loop_app (before after : list string) (b : LiveOSIsoBuilder DracutPackageInformation)
    (tr : Trace DracutPackageInformation) :
  extractBootDirFiles_loop w usingGrubNoPrefix writeableRootfsDir (before ++ after) b tr =
    match extractBootDirFiles_loop w usingGrubNoPrefix writeableRootfsDir before b tr with
    | (b1, None, tr1) =>
        extractBootDirFiles_loop w usingGrubNoPrefix writeableRootfsDir after b1 tr1
    | stopped => stopped
    end.
Proof.
  revert b tr. induction before as [|f rest IH]; intros b tr; [done|].
  cbn [app extractBootDirFiles_loop]. unfold bind.
  destruct (extractBootDirFiles_body w usingGrubNoPrefix writeableRootfsDir b f tr)
    as [[b1 [e|]] tr1]; [done|].
  apply IH.
Qed.

(** Only files that are not excluded are copied. *)
Lemma loop_copies (files : list string) (b : LiveOSIsoBuilder DracutPackageInformation)
    (tr : Trace DracutPackageInformation) :
  exists delta,
    (extractBootDirFiles_loop w usingGrubNoPrefix writeableRootfsDir files b tr).2 = tr ++ delta
    /\ forall src dst, EvCopyFile src dst ∈ delta -> excluded src = false /\ src ∈ files.
Proof.
  revert b tr. induction files as [|f rest IH]; intros b tr.
  - exists []. split; [by rewrite app_nil_r|]. intros src dst Hin. by apply elem_of_nil in Hin.
  - cbn [extractBootDirFiles_loop]. unfold bind.
    destruct (excluded f) eqn:Hex.
    + rewrite body_excluded by done.
      destruct (IH b (tr ++ [EvLogDebug (notCopyingMessage f)])) as (delta & -> & Hdelta).
      exists (EvLogDebug (notCopyingMessage f) :: delta).
      split; [by rewrite <- app_assoc|].
      intros src dst Hin. apply elem_of_cons in Hin as [[=]|Hin].
      destruct (Hdelta _ _ Hin). split; [done|by right].
    + destruct (body_kept w usingGrubNoPrefix writeableRootfsDir b f tr Hex)
        as (b1 & err & tp & -> & _ & _).
      assert (forall delta : Trace DracutPackageInformation,
                (forall src dst, EvCopyFile src dst ∈ delta -> excluded src = false /\ src ∈ rest) ->
                forall src dst, EvCopyFile src dst ∈ EvCopyFile f tp :: delta ->
                                excluded src = false /\ src ∈ f :: rest) as Hcons.
      { intros delta Hdelta src dst Hin. apply elem_of_cons in Hin as [[= -> ->]|Hin].
        - split; [done|left].
        - destruct (Hdelta _ _ Hin). split; [done|by right]. }
      destruct err as [e|].
      * exists [EvCopyFile f tp]. split; [done|]. apply (Hcons []).
        intros src dst Hin. by apply elem_of_nil in Hin.
      * destruct (IH b1 (tr ++ [EvCopyFile f tp])) as (delta & -> & Hdelta).
        exists (EvCopyFile f tp :: delta). split; [by rewrite <- app_assoc|]. by apply Hcons.
Qed.

End BootFilesLoop.

Lemma mentions_by (s p t q : string) : s = p +:+ t +:+ q -> mentions s t.
Proof. intros ->. by exists p, q. Qed.

(** The scan with any builder whose shim and grub slots are still empty. *)
Lemma extractBootDirFiles_from_empty_slots
    {DracutPackageInformation : Type} (w : World DracutPackageInformation)
    (b : LiveOSIsoBuilder DracutPackageInformation) (writeableRootfsDir : string)
    (files : list string) (tr : Trace DracutPackageInformation) :
  let bootDir := GoPath.Join [writeableRootfsDir; "/boot"] in
  let b0 := with_artifacts b (set_additionalFiles ∅ (artifacts b)) in
  let scan := extractBootDirFiles_loop w (containsGrubNoPrefix files) writeableRootfsDir files
                b0 (tr ++ [EvEnumerateDirFiles bootDir]) in
  file_EnumerateDirFiles w tr bootDir = Ok files ->
  bootx64EfiPath (artifacts b) = "" ->
  grubx64EfiPath (artifacts b) = "" ->
  scan.1.2 = None ->
  (~ found_in is_shim writeableRootfsDir b files ->
   extractBootDirFiles w b writeableRootfsDir tr = (scan.1.1, Some missingShimError, scan.2))
  /\ (found_in is_shim writeableRootfsDir b files ->
      ~ found_in is_grub writeableRootfsDir b files ->
      extractBootDirFiles w b writeableRootfsDir tr = (scan.1.1, Some missingGrubError, scan.2))
  /\ mentions (Error missingShimError) bootx64Binary
  /\ mentions (Error missingShimError) "(shim)"
  /\ mentions (Error missingGrubError) grubx64Binary
  /\ mentions (Error missingGrubError) grubx64NoPrefixBinary
  /\ mentions (Error missingGrubError) "(grub2-efi-binary)"
  /\ mentions (Error missingGrubError) "(grub2-efi-binary-noprefix)".
Proof.
  intros bootDir b0 scan Hscan Hshim0 Hgrub0 Hdone.
  assert (forall name, is_shim name -> name ≠ ".") as Hshim_name by (by intros ? ->).
  assert (forall name, is_grub name -> name ≠ ".") as Hgrub_name by (by intros ? [-> | ->]).
  assert (extractBootDirFiles w b writeableRootfsDir tr =
            (if decide (bootx64EfiPath (artifacts scan.1.1) = "")
             then (scan.1.1, Some missingShimError)
             else if decide (grubx64EfiPath (artifacts scan.1.1) = "")
                  then (scan.1.1, Some missingGrubError)
                  else (scan.1.1, None), scan.2)) as ->.
  { unfold extractBootDirFiles, bind, EnumerateDirFiles, perform, ret.
    fold bootDir. rewrite Hscan. fold b0. fold scan.
    destruct scan as [[b1 err] tr1]. cbn in Hdone. subst err. cbn [fst snd].
    by repeat destruct (decide _). }
  split; [|split].
  - intros Hnone. rewrite decide_True; [done|].
    unfold scan.
    rewrite (loop_slot_kept w _ _ bootx64EfiPath is_shim shim_slot Hshim_name) by exact Hnone.
    exact Hshim0.
  - intros Hfound Hnone.
    rewrite decide_False.
    + rewrite decide_True; [done|]. unfold scan.
      rewrite (loop_slot_kept w _ _ grubx64EfiPath is_grub grub_slot Hgrub_name) by exact Hnone.
      exact Hgrub0.
    + unfold scan.
      apply (loop_slot_filled w _ _ bootx64EfiPath is_shim shim_slot Hshim_name).
      * intros name. unfold is_shim. destruct (decide (name = bootx64Binary)); [by left|by right].
      * exact Hdone.
      * right. exact Hfound.
  - repeat split.
    + by apply (mentions_by _ "failed to find the boot efi file (" _
                  ("):" +:+ nl +:+ "this file is provided by the (shim) package")).
    + by apply (mentions_by _ ("failed to find the boot efi file (bootx64.efi):" +:+ nl
                               +:+ "this file is provided by the ") _ " package").
    + by apply (mentions_by _ "failed to find the grub efi file (" _
                  (" or grubx64-noprefix.efi):" +:+ nl +:+ "this file is provided by either the (grub2-efi-binary) or the (grub2-efi-binary-noprefix) package")).
    + by apply (mentions_by _ "failed to find the grub efi file (grubx64.efi or " _
                  ("):" +:+ nl +:+ "this file is provided by either the (grub2-efi-binary) or the (grub2-efi-binary-noprefix) package")).
    + by apply (mentions_by _ ("failed to find the grub efi file (grubx64.efi or grubx64-noprefix.efi):"
                               +:+ nl +:+ "this file is provided by either the ") _
                  " or the (grub2-efi-binary-noprefix) package").
    + by apply (mentions_by _ ("failed to find the grub efi file (grubx64.efi or grubx64-noprefix.efi):"
                               +:+ nl +:+ "this file is provided by either the (grub2-efi-binary) or the ") _
                  " package").
Qed.

(** C6.  Scanning the /boot of a full image (the builder is the one that
    [createLiveOSIsoImage] created, with the kernel version and the dracut
    information of the rootfs): if the classification of the scanned files
    runs to its end and no shim binary ([bootx64.efi]) was found,
    [extractBootDirFiles] returns the error that names [bootx64.efi] and the
    (shim) package; if a shim binary was found and no grub binary
    ([grubx64.efi] or [grubx64-noprefix.efi]), it returns the error that
    names both file names and the (grub2-efi-binary) and
    (grub2-efi-binary-noprefix) packages. *)
Theorem extractBootDirFiles_missing_bootloader
    {DracutPackageInformation : Type} (w : World DracutPackageInformation)
    (buildDir foundKernelVersion : string)
    (foundDracutPackageInfo : option DracutPackageInformation)
    (writeableRootfsDir : string) (files : list string) (tr : Trace DracutPackageInformation) :
  let b := builderBeforeBootScan buildDir foundKernelVersion foundDracutPackageInfo in
  let bootDir := GoPath.Join [writeableRootfsDir; "/boot"] in
  let b0 := with_artifacts b (set_additionalFiles ∅ (artifacts b)) in
  let scan := extractBootDirFiles_loop w (containsGrubNoPrefix files) writeableRootfsDir files
                b0 (tr ++ [EvEnumerateDirFiles bootDir]) in
  file_EnumerateDirFiles w tr bootDir = Ok files ->
  scan.1.2 = None ->
  (~ found_in is_shim writeableRootfsDir b files ->
   extractBootDirFiles w b writeableRootfsDir tr = (scan.1.1, Some missingShimError, scan.2))
  /\ (found_in is_shim writeableRootfsDir b files ->
      ~ found_in is_grub writeableRootfsDir b files ->
      extractBootDirFiles w b writeableRootfsDir tr = (scan.1.1, Some missingGrubError, scan.2))
  /\ mentions (Error missingShimError) bootx64Binary
  /\ mentions (Error missingShimError) "(shim)"
  /\ mentions (Error missingGrubError) grubx64Binary
  /\ mentions (Error missingGrubError) grubx64NoPrefixBinary
  /\ mentions (Error missingGrubError) "(grub2-efi-binary)"
  /\ mentions (Error missingGrubError) "(grub2-efi-binary-noprefix)".
Proof.
  intros b bootDir b0 scan Hscan Hdone.
  exact (extractBootDirFiles_from_empty_slots w b writeableRootfsDir files tr
           Hscan eq_refl eq_refl Hdone).
Qed.

Lemma extractBootDirFiles_missing_bootloader_witness :
  let root := "/build/tmp/writeable-rootfs" in
  let noShim := [root +:+ "/boot/efi/EFI/BOOT/grubx64.efi"; root +:+ "/boot/grub2/grub.cfg";
                 root +:+ "/boot/vmlinuz-5.15.0"] in
  let noGrub := [root +:+ "/boot/efi/EFI/BOOT/bootx64.efi"; root +:+ "/boot/grub2/grub.cfg";
                 root +:+ "/boot/vmlinuz-5.15.0"] in
  let fresh : LiveOSIsoBuilder nat := builderBeforeBootScan "/build" "5.15.0" (Some 1%nat) in
  let run files := extractBootDirFiles (Sample.world None files "" "") fresh root [] in
  (run noShim).1.2 = Some missingShimError /\ (run noGrub).1.2 = Some missingGrubError.
Proof.
  intros root noShim noGrub fresh run. split.
  - assert (~ found_in is_shim root fresh noShim) as Hnone.
    { intros (f & Hin & _ & Hname). unfold is_shim in Hname.
      repeat (apply elem_of_cons in Hin as [->|Hin]; [vm_compute in Hname; discriminate|]).
      by apply elem_of_nil in Hin. }
    unfold run. subst fresh.
    rewrite (proj1 (extractBootDirFiles_missing_bootloader (Sample.world None noShim "" "")
                      "/build" "5.15.0" (Some 1%nat) root noShim [] eq_refl eq_refl) Hnone).
    reflexivity.
  - assert (found_in is_shim root fresh noGrub) as Hshim.
    { exists (root +:+ "/boot/efi/EFI/BOOT/bootx64.efi").
      split; [apply list_elem_of_here|]. split; reflexivity. }
    assert (~ found_in is_grub root fresh noGrub) as Hnone.
    { intros (f & Hin & _ & Hname). unfold is_grub in Hname.
      repeat (apply elem_of_cons in Hin as [->|Hin];
              [vm_compute in Hname; destruct Hname; discriminate|]).
      by apply elem_of_nil in Hin. }
    unfold run. subst fresh.
    rewrite (proj1 (proj2 (extractBootDirFiles_missing_bootloader
                             (Sample.world None noGrub "" "")
                             "/build" "5.15.0" (Some 1%nat) root noGrub []
                             eq_refl eq_refl)) Hshim Hnone).
    reflexivity.
Defined.

(** C7.  A file of the scanned /boot tree whose path matches an exclusion
    pattern (an initrd image [/boot/initrd.img*], an initramfs image
    [/boot/initramfs-*.img*], or [/boot/efi/boot/grub2/grub.cfg]) is
    excluded by the classifier: the iteration on it leaves the builder
    (every artifact slot and the additional-files map) as it was and only
    logs; the scan of a list that contains it ends in the state and with the
    result of the scan without it, up to that log line; and no scan ever
    copies a file that matches an exclusion pattern. *)
Theorem excluded_boot_files_never_recorded
    {DracutPackageInformation : Type} (w : World DracutPackageInformation)
    (usingGrubNoPrefix : bool) (writeableRootfsDir f : string) (before after : list string)
    (b : LiveOSIsoBuilder DracutPackageInformation) (tr : Trace DracutPackageInformation) :
  matches_exclusion f ->
  excluded f = true
  /\ extractBootDirFiles_body w usingGrubNoPrefix writeableRootfsDir b f tr
     = (b, None, tr ++ [EvLogDebug (notCopyingMessage f)])
  /\ extractBootDirFiles_loop w usingGrubNoPrefix writeableRootfsDir (before ++ f :: after) b tr
     = match extractBootDirFiles_loop w usingGrubNoPrefix writeableRootfsDir before b tr with
       | (b1, None, tr1) =>
           extractBootDirFiles_loop w usingGrubNoPrefix writeableRootfsDir after b1
             (tr1 ++ [EvLogDebug (notCopyingMessage f)])
       | stopped => stopped
       end
  /\ (forall files b0 tr0, exists delta,
        (extractBootDirFiles_loop w usingGrubNoPrefix writeableRootfsDir files b0 tr0).2
          = tr0 ++ delta
        /\ forall src dst, EvCopyFile src dst ∈ delta -> ~ matches_exclusion src).
Proof.
  intros Hex. apply excluded_spec in Hex.
  split; [exact Hex|]. split; [by apply body_excluded|]. split.
  - rewrite loop_app.
    destruct (extractBootDirFiles_loop w usingGrubNoPrefix writeableRootfsDir before b tr)
      as [[b1 [e|]] tr1]; [done|].
    cbn [extractBootDirFiles_loop]. unfold bind. by rewrite body_excluded.
  - intros files b0 tr0.
    destruct (loop_copies w usingGrubNoPrefix writeableRootfsDir files b0 tr0)
      as (delta & Htr & Hdelta).
    exists delta. split; [done|]. intros src dst Hin Hsrc.
    apply excluded_spec in Hsrc. destruct (Hdelta src dst Hin). congruence.
Qed.

Lemma excluded_boot_files_never_recorded_witness :
  let root := "/build/tmp/writeable-rootfs" in
  let w := Sample.world None [] "" "" in
  let b := newLiveOSIsoBuilder "/build" in
  excluded (root +:+ "/boot/initrd.img-5.15.0") = true
  /\ excluded (root +:+ "/boot/efi/boot/grub2/grub.cfg") = true
  /\ excluded (root +:+ "/boot/initramfs-5.15.0.img") = true
  /\ extractBootDirFiles_body w false root b (root +:+ "/boot/initramfs-5.15.0.img") []
     = (b, None, [EvLogDebug (notCopyingMessage (root +:+ "/boot/initramfs-5.15.0.img"))]).
Proof.
  intros root w b. split; [reflexivity|]. split; [reflexivity|].
  assert (matches_exclusion (root +:+ "/boot/initramfs-5.15.0.img")) as Hpattern.
  { right. left. exists root, "5.15.0", "". split; reflexivity. }
  destruct (excluded_boot_files_never_recorded w false root
              (root +:+ "/boot/initramfs-5.15.0.img") [] [] b [] Hpattern)
    as (Hex & Hbody & _).
  split; [exact Hex|exact Hbody].
Defined.

(** ** Carrying files over from the input ISO *)

Lemma targetFile_found_spec (m : gmap string string) (t : string) :
  targetFile_found m t = true <-> has_target m t.
Proof.
  unfold targetFile_found, has_target. rewrite existsb_exists. split.
  - intros ([s t'] & Hin & Heq). apply bool_decide_eq_true in Heq. cbn in Heq. subst t'.
    exists s. by apply elem_of_map_to_list, list_elem_of_In.
  - intros (s & Hs). exists (s, t). split.
    + by apply list_elem_of_In, elem_of_map_to_list.
    + by apply bool_decide_eq_true.
Qed.

Lemma targetFile_found_false (m : gmap string string) (t : string) :
  targetFile_found m t = false <-> ~ has_target m t.
Proof.
  rewrite <- targetFile_found_spec. by destruct (targetFile_found m t).
Qed.

Lemma carryOver_loop_app (l1 l2 : list (string * string)) (m : gmap string string) :
  carryOver_loop (l1 ++ l2) m = carryOver_loop l2 (carryOver_loop l1 m).
Proof.
  revert m. induction l1 as [|[s t] l1 IH]; intros m; [done|]. cbn. apply IH.
Qed.

(** An entry of the current build whose source path is not a source path
    of the input entries is kept, and its target is given to no other
    source. *)
Lemma carryOver_loop_protects (entries : list (string * string)) (m0 m : gmap string string)
    (s d : string) :
  s ∉ entries.*1 ->
  m !! s = Some d ->
  (forall s', m !! s' = Some d -> m0 !! s' = Some d) ->
  carryOver_loop entries m !! s = Some d
  /\ (forall s', carryOver_loop entries m !! s' = Some d -> m0 !! s' = Some d).
Proof.
  revert m. induction entries as [|[s1 t1] rest IH]; intros m Hs Hm Hd; [done|].
  cbn in Hs. apply not_elem_of_cons in Hs as [Hne Hs]. cbn [carryOver_loop].
  destruct (targetFile_found m t1) eqn:Hfound; [by apply IH|].
  apply targetFile_found_false in Hfound.
  assert (t1 ≠ d) as Ht by (intros ->; apply Hfound; by exists s).
  apply IH; [done| |].
  - by rewrite lookup_insert_ne.
  - intros s' Hs'. apply Hd. rewrite lookup_insert in Hs'.
    destruct (decide (s1 = s')); [congruence|done].
Qed.

(** With fresh source paths and pairwise distinct targets, the result does
    not depend on the order: an input entry is in it exactly when its
    target was not a target before. *)
Lemma carryOver_loop_fresh (entries : list (string * string)) (m : gmap string string) :
  NoDup entries.*1 -> NoDup entries.*2 ->
  (forall s t, (s, t) ∈ entries -> m !! s = None) ->
  forall s t, carryOver_loop entries m !! s = Some t
              <-> m !! s = Some t \/ ((s, t) ∈ entries /\ ~ has_target m t).
Proof.
  revert m. induction entries as [|[s1 t1] rest IH]; intros m Hkeys Htargets Hfresh s t.
  - cbn. split; [by left|]. intros [?|[Hin _]]; [done|]. by apply elem_of_nil in Hin.
  - cbn in Hkeys, Htargets. apply NoDup_cons in Hkeys as [Hs1 Hkeys].
    apply NoDup_cons in Htargets as [Ht1 Htargets]. cbn [carryOver_loop].
    assert (m !! s1 = None) as Hm1 by (apply (Hfresh s1 t1); left).
    assert (forall s' t', (s', t') ∈ rest -> s' ≠ s1 /\ t' ≠ t1) as Hrest.
    { intros s' t' Hin. split; intros ->.
      - apply Hs1. apply list_elem_of_fmap. by exists (s1, t').
      - apply Ht1. apply list_elem_of_fmap. by exists (s', t1). }
    destruct (targetFile_found m t1) eqn:Hfound.
    + apply targetFile_found_spec in Hfound.
      rewrite IH; [|done|done|intros s' t' Hin; apply (Hfresh s' t'); by right].
      split; intros [Hm|[Hin Hno]]; try (by left).
      * right. split; [by right|done].
      * apply elem_of_cons in Hin as [[= -> ->]|Hin]; [done|]. by right.
    + apply targetFile_found_false in Hfound.
      rewrite IH; [|done|done|].
      2:{ intros s' t' Hin. destruct (Hrest s' t' Hin) as [Hne _].
          rewrite lookup_insert_ne by done. apply (Hfresh s' t'). by right. }
      assert (forall t', t' ≠ t1 -> has_target (<[s1:=t1]> m) t' <-> has_target m t') as Hhas.
      { intros t' Hne. split; intros [s' Hs'].
        - rewrite lookup_insert in Hs'. destruct (decide (s1 = s')); [congruence|by exists s'].
        - exists s'. rewrite lookup_insert_ne; [done|]. intros ->. congruence. }
      rewrite lookup_insert. destruct (decide (s1 = s)) as [->|Hne].
      * split.
        -- intros [[= ->]|[Hin _]].
           ++ right. split; [left|done].
           ++ by destruct (Hrest s t Hin).
        -- intros [Hm|[Hin Hno]]; [congruence|].
           apply elem_of_cons in Hin as [[= ->]|Hin]; [by left|].
           by destruct (Hrest s t Hin).
      * split.
        -- intros [Hm|[Hin Hno]]; [by left|]. right. split; [by right|].
           destruct (Hrest s t Hin) as [_ Ht]. by rewrite <- (Hhas t Ht).
        -- intros [Hm|[Hin Hno]]; [by left|].
           apply elem_of_cons in Hin as [[= -> ->]|Hin]; [done|]. right. split; [done|].
           destruct (Hrest s t Hin) as [_ Ht]. by rewrite (Hhas t Ht).
Qed.




(** ** Disk size estimate *)

(** *** binary64 arithmetic is exact on the values that arise *)

Lemma digits2_log2 (p : positive) : Z.pos (digits2_pos p) = Z.log2 (Z.pos p) + 1.
Proof.
  induction p as [p IH|p IH|]; cbn [digits2_pos]; [| |reflexivity].
  - rewrite Pos2Z.inj_succ, IH. change (Z.pos p~1) with (2 * Z.pos p + 1).
    rewrite Z.log2_succ_double by lia. lia.
  - rewrite Pos2Z.inj_succ, IH. change (Z.pos p~0) with (2 * Z.pos p).
    rewrite Z.log2_double by lia. lia.
Qed.

Lemma iter_pos_nat {A} (f : A -> A) (p : positive) (x : A) :
  SpecFloat.iter_pos f p x = Nat.iter (Pos.to_nat p) f x.
Proof.
  revert x. induction p as [p IH|p IH|]; intros x; cbn [SpecFloat.iter_pos]; [| |reflexivity].
  - rewrite !IH, Pos2Nat.inj_xI.
    replace (S (2 * Pos.to_nat p)) with (Pos.to_nat p + (Pos.to_nat p + 1))%nat by lia.
    rewrite !Nat.iter_add. reflexivity.
  - rewrite !IH, Pos2Nat.inj_xO.
    replace (2 * Pos.to_nat p)%nat with (Pos.to_nat p + Pos.to_nat p)%nat by lia.
    rewrite Nat.iter_add. reflexivity.
Qed.

Lemma shr_1_even (m : Z) :
  0 <= m -> shr_1 (Build_shr_record (2 * m) false false) = Build_shr_record m false false.
Proof. intros Hm. destruct m as [|p|p]; [reflexivity|reflexivity|lia]. Qed.

Lemma iter_shr_1_exact (n : nat) (m : Z) :
  0 <= m ->
  Nat.iter n shr_1 (Build_shr_record (m * 2 ^ Z.of_nat n) false false)
    = Build_shr_record m false false.
Proof.
  revert m. induction n as [|n IH]; intros m Hm.
  - change (Z.of_nat 0) with 0. rewrite Z.pow_0_r, Z.mul_1_r. reflexivity.
  - rewrite Nat.iter_succ.
    replace (m * 2 ^ Z.of_nat (S n)) with ((2 * m) * 2 ^ Z.of_nat n)
      by (rewrite Nat2Z.inj_succ, Z.pow_succ_r by lia; ring).
    rewrite IH by lia. apply shr_1_even. exact Hm.
Qed.

Lemma shl_pos (p d : positive) : Z.pos (Pos.iter xO p d) = Z.pos p * 2 ^ Z.pos d.
Proof.
  induction d as [|d IH] using Pos.peano_ind.
  - cbn [Pos.iter]. change (2 ^ 1) with 2. lia.
  - rewrite Pos.iter_succ, Pos2Z.inj_succ, Z.pow_succ_r by lia.
    change (Z.pos (Pos.iter xO p d)~0) with (2 * Z.pos (Pos.iter xO p d)). rewrite IH. ring.
Qed.

(** rounding a mantissa that already has 53 digits *)
Lemma round_aux_53 (s : bool) (m : positive) (e : Z) :
  Z.log2 (Z.pos m) = 52 -> -1074 <= e <= 971 ->
  binary_round_aux 53 1024 s (Z.pos m) e loc_Exact = S754_finite s m e.
Proof.
  intros Hm He. unfold binary_round_aux, shr_fexp, fexp, emin.
  cbn [Zdigits2 shr_record_of_loc]. rewrite digits2_log2, Hm.
  replace (Z.max (52 + 1 + e - 53) (3 - 1024 - 53) - e) with 0 by lia.
  cbn [shr shr_m loc_of_shr_record round_nearest_even].
  cbn [Zdigits2 shr_record_of_loc]. rewrite digits2_log2, Hm.
  replace (Z.max (52 + 1 + e - 53) (3 - 1024 - 53) - e) with 0 by lia.
  cbn [shr shr_m].
  destruct (Z.leb_spec e (1024 - 53)); [reflexivity|lia].
Qed.

(** rounding a longer mantissa whose low bits are zero *)
Lemma round_aux_exact (s : bool) (m : positive) (e k : Z) (q : positive) :
  0 < k -> Z.log2 (Z.pos m) = 52 + k -> Z.pos m = Z.pos q * 2 ^ k ->
  -1074 <= e + k <= 971 ->
  binary_round_aux 53 1024 s (Z.pos m) e loc_Exact = S754_finite s q (e + k).
Proof.
  intros Hk Hm Hq He. 
  assert (Z.log2 (Z.pos q) = 52) as Hlq.
  { rewrite Hq in Hm. rewrite Z.log2_mul_pow2 in Hm by lia. lia. }
  unfold binary_round_aux, shr_fexp, fexp, emin.
  cbn [Zdigits2 shr_record_of_loc]. rewrite digits2_log2, Hm.
  replace (Z.max (52 + k + 1 + e - 53) (3 - 1024 - 53) - e) with k by lia.
  destruct k as [|kp|kp]; [lia| |lia].
  assert (SpecFloat.iter_pos shr_1 kp (Build_shr_record (Z.pos m) false false)
          = Build_shr_record (Z.pos q) false false) as Hiter.
  { rewrite iter_pos_nat, Hq, <- (positive_nat_Z kp). apply iter_shr_1_exact. lia. }
  cbn [shr]. rewrite Hiter.
  cbn [shr_m loc_of_shr_record round_nearest_even].
  cbn [Zdigits2 shr_record_of_loc]. rewrite digits2_log2, Hlq.
  replace (Z.max (52 + 1 + (e + Z.pos kp) - 53) (3 - 1024 - 53) - (e + Z.pos kp)) with 0 by lia.
  cbn [shr shr_m].
  destruct (Z.leb_spec (e + Z.pos kp) (1024 - 53)); [reflexivity|lia].
Qed.

Lemma float64_of_uint64_exact (n : Z) :
  0 < n < 2 ^ 53 ->
  exists m, Float64.of_uint64 n = S754_finite false m (Z.log2 n - 52)
            /\ Z.pos m = n * 2 ^ (52 - Z.log2 n).
Proof.
  intros Hn. destruct n as [|p|p]; [lia| |lia].
  assert (Z.log2 (Z.pos p) < 53) as Hl by (apply Z.log2_lt_pow2; lia).
  pose proof (Z.log2_nonneg (Z.pos p)) as Hl0.
  unfold Float64.of_uint64, binary_normalize, binary_round, shl_align, fexp, emin.
  rewrite digits2_log2.
  replace (Z.max (Z.log2 (Z.pos p) + 1 + 0 - 53) (3 - 1024 - 53) - 0)
    with (Z.log2 (Z.pos p) - 52) by lia.
  replace (Z.max (Z.log2 (Z.pos p) + 1 + 0 - 53) (3 - 1024 - 53))
    with (Z.log2 (Z.pos p) - 52) by lia.
  destruct (Z.log2 (Z.pos p) - 52) as [|d|d] eqn:Hd; [|lia|].
  - exists p. split.
    + apply round_aux_53; lia.
    + replace (52 - Z.log2 (Z.pos p)) with 0 by lia. lia.
  - exists (Pos.iter xO p d). 
    assert (Z.pos (Pos.iter xO p d) = Z.pos p * 2 ^ (52 - Z.log2 (Z.pos p))) as Hm.
    { rewrite shl_pos. f_equal. f_equal. lia. }
    split; [|exact Hm].
    apply round_aux_53; [|lia].
    rewrite Hm, Z.log2_mul_pow2 by lia. lia.
Qed.

Lemma float64_scale_exact (n : Z) :
  0 < n < 2 ^ 51 ->
  Float64.to_uint64 (Float64.mul (Float64.of_uint64 n) expansionSafetyFactor) = 3 * n / 2.
Proof.
  intros Hn.
  destruct (float64_of_uint64_exact n) as (m & -> & Hm); [lia|].
  assert (Z.log2 n < 51) as Hl by (apply Z.log2_lt_pow2; lia).
  pose proof (Z.log2_nonneg n) as Hl0.
  set (L := Z.log2 (3 * n)).
  assert (Z.log2 n + 1 <= L <= Z.log2 n + 2) as HL.
  { unfold L. split.
    - apply Z.log2_le_pow2; [lia|].
      pose proof (Z.log2_spec n ltac:(lia)) as [Hlo _].
      rewrite Z.pow_add_r, Z.pow_1_r by lia. lia.
    - assert (Z.log2 (3 * n) < Z.log2 n + 3); [|lia].
      apply Z.log2_lt_pow2; [lia|].
      pose proof (Z.log2_spec n ltac:(lia)) as [_ Hhi].
      replace (Z.log2 n + 3) with (Z.succ (Z.log2 n) + 2) by lia.
      rewrite Z.pow_add_r by lia. change (2 ^ 2) with 4. lia. }
  unfold Float64.mul, expansionSafetyFactor, SFmul. cbn [xorb].
  set (k := L - Z.log2 n + 51).
  assert (exists q, Z.pos q = 3 * n * 2 ^ (52 - L)) as [q Hq].
  { assert (0 < 3 * n * 2 ^ (52 - L)) as Hpos by (apply Z.mul_pos_pos; [lia|apply Z.pow_pos_nonneg; lia]).
    destruct (3 * n * 2 ^ (52 - L)) as [|q|q]; [lia| |lia]. by exists q. }
  assert (Z.pos (m * 6755399441055744) = Z.pos q * 2 ^ k) as Hprod.
  { rewrite Pos2Z.inj_mul, Hm, Hq. unfold k.
    change (Z.pos 6755399441055744) with (3 * 2 ^ 51).
    replace (n * 2 ^ (52 - Z.log2 n) * (3 * 2 ^ 51))
      with (3 * n * (2 ^ (52 - Z.log2 n) * 2 ^ 51)) by ring.
    rewrite <- !Z.mul_assoc. f_equal. f_equal.
    rewrite <- !Z.pow_add_r by lia. f_equal. lia. }
  rewrite (round_aux_exact false _ _ k q).
  - cbn [Float64.to_uint64].
    replace (Z.log2 n - 52 + -52 + k) with (L - 53) by (unfold k; lia).
    destruct (Z.leb_spec 0 (L - 53)); [lia|].
    rewrite Hq. replace (- (L - 53)) with (Z.succ (52 - L)) by lia.
    rewrite Z.pow_succ_r by lia.
    rewrite Z.div_mul_cancel_r; [reflexivity|lia|].
    apply Z.pow_nonzero; lia.
  - unfold k. lia.
  - rewrite Hprod, Z.log2_mul_pow2 by (unfold k; lia).
    rewrite Hq, Z.log2_mul_pow2 by lia. fold L. unfold k. lia.
  - exact Hprod.
  - unfold k. lia.
Qed.

Lemma getSizeOnDiskInBytes_range {DracutPackageInformation : Type}
    (w : World DracutPackageInformation) (rootDir : string)
    (tr tr' : Trace DracutPackageInformation) (sizeInBytes : Z) :
  getSizeOnDiskInBytes w rootDir tr = (Ok sizeInBytes, tr') ->
  0 <= sizeInBytes < 2 ^ 64.
Proof.
  unfold getSizeOnDiskInBytes, bind, emit, perform, ret.
  destruct (shell_du w _ rootDir) as [duStdout|e]; [|done].
  destruct (du_size_submatch duStdout) as [digits|]; [|done].
  destruct (ParseUint64 digits) as [sizeInKbs|e]; [|done].
  intros [= <- _]. apply Z.mod_pos_bound. done.
Qed.

Lemma diskSizeEstimateInMBs_formula (sizeInBytes : Z) :
  0 <= sizeInBytes < 2 ^ 64 ->
  diskSizeEstimateInMBs sizeInBytes expansionSafetyFactor = 3 * (sizeInBytes / MiB + 1) / 2.
Proof.
  intros Hsize. unfold diskSizeEstimateInMBs.
  assert (0 <= sizeInBytes / MiB < 2 ^ 44) as Hmb.
  { split; [apply Z.div_pos; [lia|done]|].
    apply Z.div_lt_upper_bound; [done|]. change (MiB * 2 ^ 44) with (2 ^ 64). lia. }
  assert (2 ^ 44 < 2 ^ 51) as Hpow by done.
  rewrite Z.mod_small by (unfold uint64_modulus; assert (2 ^ 44 < 2 ^ 64) by done; lia).
  apply float64_scale_exact. lia.
Qed.

(** C4, as stated, fails.  For a content of exactly one mebibyte ([du]
    reports 1024 kilobytes) the estimate is 3 megabytes, not 1.5 rounded up
    to 2; for a content of 1023 kilobytes it is 1 megabyte, less than the
    product 1.498... rounded up to 2. *)
Lemma disk_size_estimate_is_not_the_rounded_up_product :
  let tab := String "009"%char "" in
  let estimate duStdout :=
    (getDiskSizeEstimateInMBs (Sample.world None [] "" duStdout) "/mnt"
       expansionSafetyFactor []).1 in
  estimate ("1024" +:+ tab +:+ "/mnt") = Ok 3
  /\ spec_diskSizeEstimateInMBs (1024 * KiB) = 2
  /\ estimate ("1023" +:+ tab +:+ "/mnt") = Ok 1
  /\ spec_diskSizeEstimateInMBs (1023 * KiB) = 2.
Proof. repeat split; by vm_compute. Qed.

(** C4, amended.  For every content size measured by [getSizeOnDiskInBytes]
    (always below 2^64), the estimate in megabytes is the number of whole
    mebibytes in the size, plus one, multiplied by the safety factor 1.5
    and rounded down: the binary64 product of the Go code is exact on these
    values. *)
Theorem disk_size_estimate_formula
    {DracutPackageInformation : Type} (w : World DracutPackageInformation) (rootDir : string)
    (tr tr' : Trace DracutPackageInformation) (sizeInBytes : Z) :
  getSizeOnDiskInBytes w rootDir tr = (Ok sizeInBytes, tr') ->
  0 <= sizeInBytes < 2 ^ 64
  /\ getDiskSizeEstimateInMBs w rootDir expansionSafetyFactor tr
     = (Ok (3 * (sizeInBytes / MiB + 1) / 2), tr').
Proof.
  intros Hmeasured. pose proof (getSizeOnDiskInBytes_range w _ _ _ _ Hmeasured) as Hrange.
  split; [exact Hrange|].
  unfold getDiskSizeEstimateInMBs, bind, ret. rewrite Hmeasured.
  by rewrite diskSizeEstimateInMBs_formula.
Qed.

Lemma disk_size_estimate_formula_witness :
  let tab := String "009"%char "" in
  let w := Sample.world None [] "" ("2560" +:+ tab +:+ "/mnt") in
  getDiskSizeEstimateInMBs w "/mnt" expansionSafetyFactor []
  = (Ok 4, [EvLogDebug "Calculating total size for (/mnt)"; EvDiskUsage "/mnt"]).
Proof.
  intros tab w.
  exact (proj2 (disk_size_estimate_formula w "/mnt" [] _ (2560 * KiB) eq_refl)).
Defined.

(** * Further properties *)

(** * Further properties of the package *)

(** [t] occurs in the message between [p] and [q]. *)
Ltac mentions_between p q :=
  apply (mentions_by _ p _ q); unfold wrapf; cbn [Error];
  rewrite ?append_assoc; reflexivity.

(** Two histories (or traces) are equal up to the grouping of their parts. *)
Ltac history_eq :=
  repeat match goal with x := _ |- _ => subst x end;
  cbn [map fst snd app take];
  repeat (progress (rewrite <- ?app_assoc; cbn [app]));
  reflexivity.

(** ** Saved configuration: failures and the remaining fields *)

(** X1.  [updateSavedConfigs] fails in two ways only.  When the saved
    configuration cannot be loaded, the error wraps the cause and names the
    file, and nothing is persisted.  Otherwise the failure is that of
    persisting the merged configuration, and the error wraps it. *)
Theorem updateSavedConfigs_failure_modes
    {DracutPackageInformation : Type} (w : World DracutPackageInformation)
    (path newArgs base file : string) (info : option DracutPackageInformation)
    (tr : Trace DracutPackageInformation) (err : error) :
  let run := updateSavedConfigs w path newArgs base file info tr in
  run.1 = Err err ->
  (exists e, load_saved_configs w tr path = Err e
             /\ err = wrapf ("failed to load saved configurations (" +:+ path +:+ "):" +:+ nl) e
             /\ run.2 = tr ++ [EvLoadSavedConfigs path]
             /\ wraps err e /\ mentions (Error err) path)
  \/ (exists e cfg loaded,
        load_saved_configs w tr path = Ok loaded
        /\ persist_saved_configs w (tr ++ [EvLoadSavedConfigs path]) cfg path = Some e
        /\ err = wrapf ("failed to save iso configs:" +:+ nl) e
        /\ run.2 = tr ++ [EvLoadSavedConfigs path; EvPersistSavedConfigs cfg path]
        /\ wraps err e).
Proof.
  intros run. subst run.
  unfold updateSavedConfigs, bind, loadSavedConfigs, persistSavedConfigs, perform, ret.
  destruct (load_saved_configs w tr path) as [loaded|e] eqn:Hload; cbn [fst snd].
  - match goal with
    | |- context [persist_saved_configs w ?t ?c path] =>
        destruct (persist_saved_configs w t c path) as [e|] eqn:Hpersist
    end; cbn [fst snd]; [|done].
    intros [= <-]. right. eexists _, _, _. split; [reflexivity|].
    split; [exact Hpersist|]. split; [reflexivity|].
    split; [by rewrite <- app_assoc|apply wraps_wrapf].
  - intros [= <-]. left. exists e. split; [done|]. split; [done|]. split; [done|].
    split; [apply wraps_wrapf|].
    mentions_between "failed to load saved configurations (" ("):" +:+ nl +:+ Error e).
Qed.

Lemma updateSavedConfigs_failure_modes_witness :
  let fails ev := match ev with EvLoadSavedConfigs _ => true | _ => false end in
  let w := Faulty.world fails Faulty.never None [] "" "" in
  (updateSavedConfigs w "/x/saved-configs.yaml" "quiet" "" "" None []).2
    = [EvLoadSavedConfigs "/x/saved-configs.yaml"].
Proof.
  intros fails w.
  destruct (updateSavedConfigs_failure_modes w "/x/saved-configs.yaml" "quiet" "" "" None []
              (wrapf ("failed to load saved configurations (/x/saved-configs.yaml):" +:+ nl)
                 Faulty.failure) eq_refl)
    as [(e & _ & _ & Htr & _)|(e & cfg & loaded & Hload & _)].
  - exact Htr.
  - discriminate Hload.
Defined.

(** X2.  What [updateSavedConfigs] returns in the fields other than the
    URLs.  Without a saved configuration it is the new values as given.
    With one, the dracut package information is the new one when there is
    one and the saved one otherwise; and when the saved extra arguments are
    empty the new extra arguments are stored as given, white space
    included. *)
Theorem updateSavedConfigs_kernel_args_and_dracut_info
    {DracutPackageInformation : Type} (w : World DracutPackageInformation)
    (path newArgs base file : string) (info : option DracutPackageInformation)
    (tr : Trace DracutPackageInformation) (cfg : SavedConfigs DracutPackageInformation) :
  (updateSavedConfigs w path newArgs base file info tr).1 = Ok cfg ->
  (load_saved_configs w tr path = Ok None ->
   cfg = {| ExtraCommandLine := newArgs; IsoImageBaseUrl := base;
            IsoImageFileUrl := file; DracutPackageInfo := info |})
  /\ (forall sc, load_saved_configs w tr path = Ok (Some sc) ->
        (ExtraCommandLine sc = "" -> ExtraCommandLine cfg = newArgs)
        /\ DracutPackageInfo cfg =
           match info with
           | Some newInfo => Some newInfo
           | None => DracutPackageInfo sc
           end).
Proof.
  intros Hrun.
  destruct (updateSavedConfigs_inv w _ _ _ _ _ _ _ Hrun) as [_ [[Hload ->]|(sc & Hload & ->)]].
  - split; [done|]. intros sc Hsc. congruence.
  - split; [congruence|]. intros sc' Hsc'. assert (sc' = sc) as -> by congruence.
    unfold mergeSavedConfigs. split.
    + intros Hempty. rewrite (decide_False (P := ExtraCommandLine sc ≠ "")) by (intros Hne; by apply Hne).
      destruct info; repeat destruct (decide _); reflexivity.
    + destruct info; repeat destruct (decide _); reflexivity.
Qed.

Lemma updateSavedConfigs_kernel_args_and_dracut_info_witness :
  let sc := {| ExtraCommandLine := ""; IsoImageBaseUrl := ""; IsoImageFileUrl := "";
               DracutPackageInfo := Some 7%nat |} in
  let w := Sample.world (Some sc) [] "" "" in
  exists cfg,
    (updateSavedConfigs w "/x/saved-configs.yaml" " quiet " "" "" None []).1 = Ok cfg
    /\ ExtraCommandLine cfg = " quiet " /\ DracutPackageInfo cfg = Some 7%nat.
Proof.
  intros sc w. eexists. split; [reflexivity|].
  destruct (updateSavedConfigs_kernel_args_and_dracut_info w "/x/saved-configs.yaml" " quiet "
              "" "" None [] _ eq_refl) as [_ Hsaved].
  destruct (Hsaved sc eq_refl) as [Hargs Hinfo].
  split; [by apply Hargs|exact Hinfo].
Defined.

(** ** The scan of /boot: what is recorded, where files go, how it fails *)

Section BootScanFacts.

Context {DracutPackageInformation : Type}.
Context (w : World DracutPackageInformation).
Context (usingGrubNoPrefix : bool) (writeableRootfsDir : string).

Abbreviation Bld := (LiveOSIsoBuilder DracutPackageInformation).
Abbreviation Art := (IsoArtifacts DracutPackageInformation).
Abbreviation body := (extractBootDirFiles_body w usingGrubNoPrefix writeableRootfsDir).
Abbreviation loop := (extractBootDirFiles_loop w usingGrubNoPrefix writeableRootfsDir).
Abbreviation target_of b sourcePath :=
  (ReplaceAll sourcePath writeableRootfsDir (isoArtifactsDir (workingDirs b))).

(** The classifier never touches the additional files, and it schedules a
    file exactly when its name has no slot; the path of a scheduled file is
    left as it is. *)
Lemma classifyBootFile_schedule (dir : string) (a : Art) (targetPath : string) :
  let r := classifyBootFile usingGrubNoPrefix dir a targetPath in
  additionalFiles r.1.1 = additionalFiles a
  /\ (is_boot_slot_name (GoPath.Base targetPath) -> r.2 = false)
  /\ (~ is_boot_slot_name (GoPath.Base targetPath) -> r.2 = true /\ r.1.2 = targetPath).
Proof.
  unfold classifyBootFile, is_boot_slot_name.
  destruct (decide (GoPath.Base targetPath = bootx64Binary)) as [E1|N1];
    [|destruct (decide (GoPath.Base targetPath = grubx64Binary
                        \/ GoPath.Base targetPath = grubx64NoPrefixBinary)) as [E2|N2];
      [|destruct (decide (GoPath.Base targetPath = isoGrubCfg)) as [E3|N3]]];
    destruct (HasPrefix (GoPath.Base targetPath) vmLinuzPrefix) eqn:Hv; cbn;
    (split; [reflexivity|]).
  all: try (split; [done|]; intros Hno; exfalso; apply Hno; tauto).
  split; [|done]. intros [?|[?|[?|[?|?]]]]; try done; exfalso; apply N2; tauto.
Qed.

(** What one iteration does to the additional files. *)
Lemma body_additionalFiles (b : Bld) (f : string) (tr : Trace DracutPackageInformation) :
  let dir := isoArtifactsDir (workingDirs b) in
  let r := body b f tr in
  workingDirs r.1.1 = workingDirs b
  /\ (additionalFiles (artifacts r.1.1) = additionalFiles (artifacts b)
      \/ (excluded f = false /\ ~ is_boot_slot_name (GoPath.Base (target_of b f))
          /\ r.1.2 = None
          /\ additionalFiles (artifacts r.1.1)
             = <[target_of b f := TrimPrefix (target_of b f) dir]> (additionalFiles (artifacts b))))
  /\ (r.1.2 = None -> excluded f = false ->
      ~ is_boot_slot_name (GoPath.Base (target_of b f)) ->
      additionalFiles (artifacts r.1.1)
      = <[target_of b f := TrimPrefix (target_of b f) dir]> (additionalFiles (artifacts b))).
Proof.
  intros dir r. subst r. destruct (excluded f) eqn:Hex.
  - rewrite body_excluded by done. cbn. split; [done|]. split; [by left|done].
  - unfold extractBootDirFiles_body. rewrite Hex. subst dir.
    pose proof (classifyBootFile_schedule (isoArtifactsDir (workingDirs b)) (artifacts b)
                  (target_of b f)) as (Hmap & Hslot & Hfree).
    destruct (classifyBootFile usingGrubNoPrefix (isoArtifactsDir (workingDirs b)) (artifacts b)
                (target_of b f)) as [[a tp] schedule]. cbn [fst snd] in Hmap, Hslot, Hfree.
    unfold bind, CopyNoDereference, perform, ret.
    destruct (file_CopyNoDereference w tr f tp) as [e|];
      cbn [fst snd artifacts with_artifacts workingDirs].
    + split; [done|]. split; [by left|done].
    + destruct schedule; cbn [fst snd artifacts with_artifacts workingDirs].
      * assert (~ is_boot_slot_name (GoPath.Base (target_of b f))) as Hno.
        { intros Hs. by specialize (Hslot Hs). }
        destruct (Hfree Hno) as [_ ->]. rewrite Hmap.
        split; [done|]. split; [right; by destruct a|]. intros _ _ _. by destruct a.
      * split; [done|]. split; [by left|]. intros _ _ Hno. by destruct (Hfree Hno).
Qed.

Lemma loop_additionalFiles_sound (files : list string) (b : Bld)
    (tr : Trace DracutPackageInformation) (k v : string) :
  let dir := isoArtifactsDir (workingDirs b) in
  additionalFiles (artifacts (loop files b tr).1.1) !! k = Some v ->
  additionalFiles (artifacts b) !! k = Some v
  \/ (v = TrimPrefix k dir /\ recordable writeableRootfsDir dir files k).
Proof.
  revert b tr. induction files as [|f rest IH]; intros b tr dir; [by left|].
  cbn [extractBootDirFiles_loop]. unfold bind.
  pose proof (body_additionalFiles b f tr) as (Hwd & Hmap & _). fold dir in Hmap.
  destruct (body b f tr) as [[b1 [e|]] tr1]; unfold ret; cbn [fst snd] in *.
  - intros Hk. destruct Hmap as [Hm|(_ & _ & [=] & _)]. rewrite Hm in Hk. by left.
  - intros Hk. apply IH in Hk. rewrite Hwd in Hk. fold dir in Hk.
    destruct Hk as [Hk|[-> (src & Hin & Hex & -> & Hno)]].
    + destruct Hmap as [Hm|(Hex & Hno & _ & Hm)]; rewrite Hm in Hk; [by left|].
      rewrite lookup_insert in Hk. case_decide as Hd.
      * subst k. injection Hk as <-. right. split; [done|]. exists f.
        split; [left|]. done.
      * by left.
    + right. split; [done|]. exists src. split; [by right|done].
Qed.

Lemma loop_additionalFiles_kept (files : list string) (b : Bld)
    (tr : Trace DracutPackageInformation) (k : string) :
  let dir := isoArtifactsDir (workingDirs b) in
  additionalFiles (artifacts b) !! k = Some (TrimPrefix k dir) ->
  additionalFiles (artifacts (loop files b tr).1.1) !! k = Some (TrimPrefix k dir).
Proof.
  revert b tr. induction files as [|f rest IH]; intros b tr dir Hk; [done|].
  cbn [extractBootDirFiles_loop]. unfold bind.
  pose proof (body_additionalFiles b f tr) as (Hwd & Hmap & _). fold dir in Hmap.
  assert (additionalFiles (artifacts (body b f tr).1.1) !! k = Some (TrimPrefix k dir)) as Hk1.
  { destruct Hmap as [->|(_ & _ & _ & ->)]; [done|].
    rewrite lookup_insert. case_decide as Hd; [by subst k|done]. }
  destruct (body b f tr) as [[b1 [e|]] tr1]; unfold ret; cbn [fst snd] in *; [done|].
  specialize (IH b1 tr1). rewrite Hwd in IH. by apply IH.
Qed.

Lemma loop_additionalFiles_complete (files : list string) (b : Bld)
    (tr : Trace DracutPackageInformation) (k : string) :
  let dir := isoArtifactsDir (workingDirs b) in
  (loop files b tr).1.2 = None ->
  recordable writeableRootfsDir dir files k ->
  additionalFiles (artifacts (loop files b tr).1.1) !! k = Some (TrimPrefix k dir).
Proof.
  revert b tr. induction files as [|f rest IH]; intros b tr dir Hdone (src & Hin & Hex & -> & Hno).
  { by apply elem_of_nil in Hin. }
  revert Hdone. cbn [extractBootDirFiles_loop]. unfold bind.
  pose proof (body_additionalFiles b f tr) as (Hwd & _ & Hins). fold dir in Hins.
  destruct (body b f tr) as [[b1 [e|]] tr1] eqn:Hbody; unfold ret; cbn [fst snd] in *; [done|].
  intros Hdone. apply elem_of_cons in Hin as [->|Hin].
  - pose proof (loop_additionalFiles_kept rest b1 tr1 (target_of b f)) as Hkept.
    rewrite Hwd in Hkept. apply Hkept. rewrite Hins by done. by rewrite lookup_insert_eq.
  - specialize (IH b1 tr1). rewrite Hwd in IH. apply IH; [done|].
    exists src. done.
Qed.

End BootScanFacts.

(** X3.  The additional files that [extractBootDirFiles] records.  Whatever
    the outcome, every entry maps the copy of a scanned file under the
    artifacts directory to that path with the artifacts directory stripped,
    and the file is neither excluded nor one that has a slot (a boot loader,
    grub.cfg, a kernel).  When the function succeeds, every such file of the
    scan has its entry: the map is exactly the set of these files. *)
Theorem extractBootDirFiles_additional_files
    {DracutPackageInformation : Type} (w : World DracutPackageInformation)
    (b : LiveOSIsoBuilder DracutPackageInformation) (writeableRootfsDir : string)
    (tr : Trace DracutPackageInformation) :
  let dir := isoArtifactsDir (workingDirs b) in
  let bootDir := GoPath.Join [writeableRootfsDir; "/boot"] in
  let r := extractBootDirFiles w b writeableRootfsDir tr in
  let recorded k :=
    exists files src,
      file_EnumerateDirFiles w tr bootDir = Ok files /\ src ∈ files /\ excluded src = false
      /\ k = ReplaceAll src writeableRootfsDir dir /\ ~ is_boot_slot_name (GoPath.Base k) in
  (forall k v, additionalFiles (artifacts r.1.1) !! k = Some v ->
               v = TrimPrefix k dir /\ recorded k)
  /\ (r.1.2 = None ->
      forall k, recorded k -> additionalFiles (artifacts r.1.1) !! k = Some (TrimPrefix k dir)).
Proof.
  intros dir bootDir r recorded. subst r.
  unfold extractBootDirFiles, bind, EnumerateDirFiles, perform, ret. fold bootDir.
  destruct (file_EnumerateDirFiles w tr bootDir) as [files|e] eqn:Hscan; cbn [fst snd].
  2:{ split; [|done]. intros k v Hk. cbn in Hk. by rewrite lookup_empty in Hk. }
  set (b0 := with_artifacts b (set_additionalFiles ∅ (artifacts b))).
  pose proof (loop_additionalFiles_sound w (containsGrubNoPrefix files) writeableRootfsDir
                files b0 (tr ++ [EvEnumerateDirFiles bootDir])) as Hsound.
  pose proof (loop_additionalFiles_complete w (containsGrubNoPrefix files) writeableRootfsDir
                files b0 (tr ++ [EvEnumerateDirFiles bootDir])) as Hcomplete.
  cbn zeta in Hsound, Hcomplete.
  change (isoArtifactsDir (workingDirs b0)) with dir in Hsound, Hcomplete.
  destruct (extractBootDirFiles_loop w (containsGrubNoPrefix files) writeableRootfsDir files b0
              (tr ++ [EvEnumerateDirFiles bootDir])) as [[b1 err] tr1].
  cbn [fst snd] in Hsound, Hcomplete.
  assert (forall k v, additionalFiles (artifacts b1) !! k = Some v ->
                      v = TrimPrefix k dir /\ recorded k) as Hentries.
  { intros k v Hk. destruct (Hsound k v Hk) as [Hk0|[-> (src & Hin & Hex & Hkey & Hno)]].
    - cbn in Hk0. by rewrite lookup_empty in Hk0.
    - split; [done|]. by exists files, src. }
  destruct err as [e|]; cbn [fst snd]; [split; [exact Hentries|done]|].
  repeat destruct (decide _); cbn [fst snd]; (split; [exact Hentries|]); try done.
  intros _ k (files' & src & [= <-] & Hin & Hex & Hkey & Hno).
  apply Hcomplete; [done|]. by exists src.
Qed.

Section BootScanTrace.

Context {DracutPackageInformation : Type}.
Context (w : World DracutPackageInformation).
Context (usingGrubNoPrefix : bool) (writeableRootfsDir : string).

Abbreviation Bld := (LiveOSIsoBuilder DracutPackageInformation).
Abbreviation Art := (IsoArtifacts DracutPackageInformation).
Abbreviation body := (extractBootDirFiles_body w usingGrubNoPrefix writeableRootfsDir).
Abbreviation loop := (extractBootDirFiles_loop w usingGrubNoPrefix writeableRootfsDir).
Abbreviation step b := (bootFileStep (DracutPackageInformation := DracutPackageInformation)
                          usingGrubNoPrefix writeableRootfsDir (isoArtifactsDir (workingDirs b))).

Lemma classifyBootFile_destination (dir : string) (a : Art) (targetPath : string) :
  (classifyBootFile usingGrubNoPrefix dir a targetPath).1.2
  = bootFileDestination usingGrubNoPrefix dir targetPath.
Proof.
  unfold classifyBootFile, bootFileDestination.
  destruct (decide (GoPath.Base targetPath = bootx64Binary)) as [E1|N1].
  { rewrite E1. reflexivity. }
  destruct (decide (GoPath.Base targetPath = grubx64Binary
                    \/ GoPath.Base targetPath = grubx64NoPrefixBinary)) as [[E2|E2]|N2].
  { rewrite E2. reflexivity. }
  { rewrite E2. reflexivity. }
  destruct (decide (GoPath.Base targetPath = isoGrubCfg)) as [E3|N3].
  { rewrite E3. reflexivity. }
  by destruct (HasPrefix (GoPath.Base targetPath) vmLinuzPrefix).
Qed.

(** One iteration performs one operation, and fails only with the failure
    of its copy. *)
Lemma body_step (b : Bld) (f : string) (tr : Trace DracutPackageInformation) :
  workingDirs (body b f tr).1.1 = workingDirs b
  /\ (body b f tr).2 = tr ++ [step b f]
  /\ (forall err, (body b f tr).1.2 = Some err ->
        excluded f = false
        /\ exists e dst, step b f = EvCopyFile f dst
                         /\ file_CopyNoDereference w tr f dst = Some e
                         /\ err = wrapf ("failed to extract files from under the boot folder:" +:+ nl) e).
Proof.
  unfold bootFileStep. destruct (excluded f) eqn:Hex.
  - rewrite body_excluded by done. cbn. split; [done|]. split; [done|]. by intros err.
  - unfold extractBootDirFiles_body. rewrite Hex.
    pose proof (classifyBootFile_destination (isoArtifactsDir (workingDirs b)) (artifacts b)
                  (ReplaceAll f writeableRootfsDir (isoArtifactsDir (workingDirs b)))) as Hdst.
    destruct (classifyBootFile usingGrubNoPrefix (isoArtifactsDir (workingDirs b)) (artifacts b)
                (ReplaceAll f writeableRootfsDir (isoArtifactsDir (workingDirs b))))
      as [[a tp] schedule]. cbn [fst snd] in Hdst. subst tp.
    unfold bind, CopyNoDereference, perform, ret.
    destruct (file_CopyNoDereference w tr f _) as [e|] eqn:Hcopy; cbn [fst snd].
    + split; [done|]. split; [done|]. intros err [= <-]. split; [done|].
      by eexists _, _.
    + destruct schedule; cbn [fst snd]; (split; [done|]); (split; [done|]); by intros err.
Qed.

(** The scan handles the files one by one, in order, until a copy fails. *)
Lemma loop_steps (files : list string) (b : Bld) (tr : Trace DracutPackageInformation) :
  let r := loop files b tr in
  (r.1.2 = None -> r.2 = tr ++ map (step b) files)
  /\ (forall err, r.1.2 = Some err ->
        exists before f after e dst,
          files = before ++ f :: after
          /\ excluded f = false
          /\ step b f = EvCopyFile f dst
          /\ file_CopyNoDereference w (tr ++ map (step b) before) f dst = Some e
          /\ err = wrapf ("failed to extract files from under the boot folder:" +:+ nl) e
          /\ r.2 = tr ++ map (step b) (before ++ [f])).
Proof.
  revert b tr. induction files as [|f rest IH]; intros b tr r; subst r.
  { cbn. split; [by rewrite app_nil_r|done]. }
  cbn [extractBootDirFiles_loop]. unfold bind.
  pose proof (body_step b f tr) as (Hwd & Htr & Herr).
  destruct (body b f tr) as [[b1 [e1|]] tr1]; unfold ret; cbn [fst snd] in *.
  - split; [done|]. intros err [= <-].
    destruct (Herr e1 eq_refl) as (Hex & e & dst & Hstep & Hcopy & ->).
    exists [], f, rest, e, dst. cbn. rewrite app_nil_r. by subst tr1.
  - specialize (IH b1 tr1). cbn zeta in IH. rewrite Hwd in IH. destruct IH as [IHok IHerr].
    subst tr1. split.
    + intros Hdone. rewrite IHok by done. by rewrite <- app_assoc.
    + intros err Hfail.
      destruct (IHerr err Hfail) as (before & g & after & e & dst & -> & Hex & Hstep & Hcopy & -> & Htr).
      exists (f :: before), g, after, e, dst.
      split; [done|]. split; [done|]. split; [done|].
      split; [by rewrite <- app_assoc in Hcopy|]. split; [done|].
      rewrite Htr. by rewrite <- app_assoc.
Qed.

End BootScanTrace.


Section LastFound.

Context {DracutPackageInformation : Type}.
Context (w : World DracutPackageInformation).
Context (usingGrubNoPrefix : bool) (writeableRootfsDir : string).
Context (get : IsoArtifacts DracutPackageInformation -> string) (is_name : string -> Prop).
Context (Hslot : slot_of get is_name).
Context (Hnames : forall name, is_name name -> name ≠ ".").

Abbreviation loop := (extractBootDirFiles_loop w usingGrubNoPrefix writeableRootfsDir).

(** When several scanned files have the name of a slot, the slot holds the
    path of the one scanned last. *)
Lemma loop_slot_last (before after : list string) (f : string)
    (b : LiveOSIsoBuilder DracutPackageInformation) (tr : Trace DracutPackageInformation) :
  let target := ReplaceAll f writeableRootfsDir (isoArtifactsDir (workingDirs b)) in
  (loop (before ++ f :: after) b tr).1.2 = None ->
  excluded f = false ->
  is_name (GoPath.Base target) ->
  ~ found_in is_name writeableRootfsDir b after ->
  get (artifacts (loop (before ++ f :: after) b tr).1.1) = target.
Proof.
  intros target Hdone Hex Hname Hafter. revert Hdone. rewrite loop_app.
  pose proof (loop_workingDirs w usingGrubNoPrefix writeableRootfsDir get is_name Hslot Hnames
                before b tr) as Hwd1.
  destruct (loop before b tr) as [[b1 [e|]] tr1]; cbn [fst snd] in *; [done|].
  cbn [extractBootDirFiles_loop]. unfold bind.
  destruct (body_kept w usingGrubNoPrefix writeableRootfsDir b1 f tr1 Hex)
    as (b2 & err & tp & Hbody & Hwd2 & m & Ha).
  rewrite Hbody. destruct err as [e|]; unfold ret; cbn [fst snd]; [done|].
  intros Hdone.
  rewrite (loop_slot_kept w usingGrubNoPrefix writeableRootfsDir get is_name Hslot Hnames).
  - destruct Hslot as [Hset Hclass]. rewrite Ha, Hset, Hwd1.
    apply (proj1 (Hclass _ _ _ _)). exact Hname.
  - intros (g & Hg & Hgex & Hgname). apply Hafter. exists g.
    split; [done|]. split; [done|]. by rewrite <- Hwd1, <- Hwd2.
Qed.

End LastFound.

(** X5.  When [extractBootDirFiles] succeeds.  If the enumeration of /boot
    fails, the function fails with an error that wraps the failure, after
    that single operation, and the additional files are left empty.  If the
    scan runs to its end and both a shim and a grub binary were found, the
    function succeeds (grub.cfg and a kernel are not required), and each of
    the two slots holds the path, under the artifacts directory, of the
    file of that name that was scanned last. *)
Theorem extractBootDirFiles_success
    {DracutPackageInformation : Type} (w : World DracutPackageInformation)
    (b : LiveOSIsoBuilder DracutPackageInformation) (writeableRootfsDir : string)
    (tr : Trace DracutPackageInformation) :
  let dir := isoArtifactsDir (workingDirs b) in
  let bootDir := GoPath.Join [writeableRootfsDir; "/boot"] in
  let b0 := with_artifacts b (set_additionalFiles ∅ (artifacts b)) in
  let tr0 := tr ++ [EvEnumerateDirFiles bootDir] in
  (forall e, file_EnumerateDirFiles w tr bootDir = Err e ->
     extractBootDirFiles w b writeableRootfsDir tr
     = (b0, Some (wrapf ("failed to scan /boot folder:" +:+ nl) e), tr0))
  /\ (forall files,
        let scan := extractBootDirFiles_loop w (containsGrubNoPrefix files) writeableRootfsDir
                      files b0 tr0 in
        file_EnumerateDirFiles w tr bootDir = Ok files ->
        scan.1.2 = None ->
        found_in is_shim writeableRootfsDir b files ->
        found_in is_grub writeableRootfsDir b files ->
        extractBootDirFiles w b writeableRootfsDir tr = (scan.1.1, None, scan.2)
        /\ (forall before f after,
              files = before ++ f :: after -> excluded f = false ->
              ~ found_in is_shim writeableRootfsDir b after ->
              is_shim (GoPath.Base (ReplaceAll f writeableRootfsDir dir)) ->
              bootx64EfiPath (artifacts scan.1.1) = ReplaceAll f writeableRootfsDir dir)
        /\ (forall before f after,
              files = before ++ f :: after -> excluded f = false ->
              ~ found_in is_grub writeableRootfsDir b after ->
              is_grub (GoPath.Base (ReplaceAll f writeableRootfsDir dir)) ->
              grubx64EfiPath (artifacts scan.1.1) = ReplaceAll f writeableRootfsDir dir)).
Proof.
  intros dir bootDir b0 tr0.
  assert (forall name, is_shim name -> name ≠ ".") as Hshim_name by (by intros ? ->).
  assert (forall name, is_grub name -> name ≠ ".") as Hgrub_name by (by intros ? [-> | ->]).
  split.
  { intros e Hscan. unfold extractBootDirFiles, bind, EnumerateDirFiles, perform, ret.
    fold bootDir. by rewrite Hscan. }
  intros files scan Hscan Hdone Hshim Hgrub. split; [|split].
  - unfold extractBootDirFiles, bind, EnumerateDirFiles, perform, ret.
    fold bootDir. rewrite Hscan. fold b0 tr0. fold scan.
    assert (bootx64EfiPath (artifacts scan.1.1) ≠ "") as H1.
    { apply (loop_slot_filled w _ _ bootx64EfiPath is_shim shim_slot Hshim_name); [|done|by right].
      intros name. unfold is_shim. destruct (decide (name = bootx64Binary)); [by left|by right]. }
    assert (grubx64EfiPath (artifacts scan.1.1) ≠ "") as H2.
    { apply (loop_slot_filled w _ _ grubx64EfiPath is_grub grub_slot Hgrub_name); [|done|by right].
      intros name. unfold is_grub.
      destruct (decide (name = grubx64Binary)); [left; by left|].
      destruct (decide (name = grubx64NoPrefixBinary)); [left; by right|right; tauto]. }
    destruct scan as [[b1 err] tr1]. cbn [fst snd] in *. subst err.
    by rewrite !decide_False.
  - intros before f after -> Hex Hafter Hname.
    apply (loop_slot_last w _ _ bootx64EfiPath is_shim shim_slot Hshim_name before after f b0);
      done.
  - intros before f after -> Hex Hafter Hname.
    apply (loop_slot_last w _ _ grubx64EfiPath is_grub grub_slot Hgrub_name before after f b0);
      done.
Qed.

(** ** Grub configuration: the operations of [updateGrubCfg] *)


(** ** Assembling the ISO *)

(** X7.  What a successful [createIsoImage] hands to isomaker, provided the
    [range] over the additional files visits each entry once.  The ISO is
    [<output dir>/<base name>.iso].  The files to copy are, in this order:
    the files of the caller; the squashfs image, to [liveos/rootfs.img];
    the additional files, each from its key to its value and without
    following symbolic links; the saved configuration, when its file exists,
    to [/azl-image-customizer/saved-configs.yaml]; the PXE grub.cfg, when
    its file exists, to [/boot/grub2/grub-pxe.cfg].  Unattended install,
    BIOS boot and the RPM repository are off.  The five operations are the
    two existence checks, the creation of the output directory, and the
    construction and the run of isomaker. *)
Theorem createIsoImage_hands_files_to_isomaker
    {DracutPackageInformation : Type} (w : World DracutPackageInformation)
    (b : LiveOSIsoBuilder DracutPackageInformation) (additionalIsoFiles : list FileToCopy)
    (isoOutputDir isoOutputBaseName isoImagePath : string)
    (tr tr' : Trace DracutPackageInformation) :
  let a := artifacts b in
  let plain src dst :=
    {| Src := src; Content := None; Dest := dst; Permissions := None; NoDereference := false |} in
  let linked (entry : string * string) :=
    {| Src := entry.1; Content := None; Dest := entry.2; Permissions := None;
       NoDereference := true |} in
  range_order w tr (additionalFiles a) ≡ₚ map_to_list (additionalFiles a) ->
  createIsoImage w b additionalIsoFiles isoOutputDir isoOutputBaseName tr = (Ok isoImagePath, tr') ->
  isoImagePath = GoPath.Join [isoOutputDir; isoOutputBaseName +:+ ".iso"]
  /\ exists cfg savedExists pxeExists bootFiles,
       tr' = tr ++ [EvPathExists (savedConfigsFilePath a); EvPathExists (pxeGrubCfgPath a);
                    EvMkdirAll isoOutputDir; EvNewIsoMaker cfg; EvIsoMakerMake cfg]
       /\ file_PathExists w tr (savedConfigsFilePath a) = Ok savedExists
       /\ file_PathExists w (tr ++ [EvPathExists (savedConfigsFilePath a)]) (pxeGrubCfgPath a)
          = Ok pxeExists
       /\ bootFiles ≡ₚ map linked (map_to_list (additionalFiles a))
       /\ im_additionalIsoFiles cfg =
          additionalIsoFiles
          ++ [plain (squashfsImagePath a) "liveos/rootfs.img"]
          ++ bootFiles
          ++ (if savedExists
              then [plain (savedConfigsFilePath a) "/azl-image-customizer/saved-configs.yaml"]
              else [])
          ++ (if pxeExists then [plain (pxeGrubCfgPath a) "/boot/grub2/grub-pxe.cfg"] else [])
       /\ im_unattendedInstall cfg = false /\ im_enableBiosBoot cfg = false
       /\ im_enableRpmRepo cfg = false
       /\ im_initrdPath cfg = initrdImagePath a /\ im_grubCfgPath cfg = isoGrubCfgPath a
       /\ im_buildDir cfg = isomakerBuildDir (workingDirs b)
       /\ im_outputDir cfg = isoOutputDir /\ im_outputBaseName cfg = isoOutputBaseName.
Proof.
  intros a plain linked Hrange.
  unfold createIsoImage, bind, rangeMap, PathExists, MkdirAll, perform, ret. fold a.
  destruct (file_PathExists w tr (savedConfigsFilePath a)) as [savedExists|e] eqn:Hsaved;
    [|done].
  destruct (file_PathExists w _ (pxeGrubCfgPath a)) as [pxeExists|e] eqn:Hpxe; [|done].
  destruct (os_MkdirAll w _ isoOutputDir) as [e|]; [done|].
  match goal with
  | |- context [isomaker_New w ?t ?c] => set (cfg := c); destruct (isomaker_New w t cfg) as [e|]
  end; [done|].
  destruct (isomaker_Make w _ cfg) as [e|]; [done|].
  intros [= <- <-]. split.
  { cbn [name getImageNameFromImageBaseName]. by rewrite !append_empty_l. }
  exists cfg, savedExists, pxeExists, (map linked (range_order w tr (additionalFiles a))).
  split; [by rewrite <- !app_assoc|]. split; [reflexivity|]. split; [reflexivity|].
  split; [by rewrite Hrange|]. split; [|done].
  subst cfg. cbn [im_additionalIsoFiles].
  change (GoPath.Join [liveOSDir; liveOSImage]) with "liveos/rootfs.img".
  change (GoPath.Join ["/"; savedConfigsDir; savedConfigsFileName])
    with "/azl-image-customizer/saved-configs.yaml".
  change (GoPath.Join ["/"; grubCfgDir; pxeGrubCfg]) with "/boot/grub2/grub-pxe.cfg".
  destruct savedExists, pxeExists; rewrite <- ?app_assoc, ?app_nil_r; reflexivity.
Qed.

Lemma createIsoImage_hands_files_to_isomaker_witness :
  let b := Sample.builder (Some 1%nat) in
  let w := Sample.world None [] "" "" in
  exists cfg,
    (createIsoImage w b [] "/out" "myimage" []).1 = Ok "/out/myimage.iso"
    /\ EvIsoMakerMake cfg ∈ (createIsoImage w b [] "/out" "myimage" []).2
    /\ im_additionalIsoFiles cfg =
       [ {| Src := "/x/liveos/rootfs.img"; Content := None; Dest := "liveos/rootfs.img";
            Permissions := None; NoDereference := false |} ].
Proof.
  intros b w.
  destruct (createIsoImage w b [] "/out" "myimage" []) as [r tr'] eqn:Hrun.
  assert (r = Ok "/out/myimage.iso") as -> by (vm_compute in Hrun; by injection Hrun as <- _).
  destruct (createIsoImage_hands_files_to_isomaker w b [] "/out" "myimage" "/out/myimage.iso"
              [] tr' (reflexivity _) Hrun)
    as (_ & cfg & savedExists & pxeExists & bootFiles & Htr & Hsaved & Hpxe & Hboot & Hfiles & _).
  exists cfg. split; [reflexivity|]. split.
  - cbn [fst snd]. rewrite Htr. cbn. do 4 right. left.
  - rewrite Hfiles. injection Hsaved as <-. injection Hpxe as <-.
    apply Permutation_nil_r in Hboot. subst bootFiles. reflexivity.
Defined.

(** ** Rebuilding an ISO from an unchanged OS *)

Lemma with_artifacts_same {DracutPackageInformation : Type}
    (b : LiveOSIsoBuilder DracutPackageInformation) :
  with_artifacts b (set_dracutPackageInfo (dracutPackageInfo (artifacts b)) (artifacts b)) = b.
Proof. destruct b as [wd [] dirs]. reflexivity. Qed.

Lemma createImageFromUnchangedOS_builder
    {DracutPackageInformation : Type} (H : Helpers DracutPackageInformation)
    (w : World DracutPackageInformation) (b : LiveOSIsoBuilder DracutPackageInformation)
    (baseConfigPath : string) (isoConfig : option Iso) (pxeConfig : option Pxe)
    (outputImageDir outputImageBase outputPXEArtifactsDir : string)
    (tr : Trace DracutPackageInformation) :
  let r := createImageFromUnchangedOS H w b baseConfigPath isoConfig pxeConfig outputImageDir
             outputImageBase outputPXEArtifactsDir tr in
  let tr1 := tr ++ [EvLogInfo "Creating LiveOS iso image using unchanged OS partitions"] in
  match (updateSavedConfigs w (savedConfigsFilePath (artifacts b))
           (micIsoConfigToIsoMakerConfig H baseConfigPath isoConfig).2
           (match pxeConfig with Some p => pxe_IsoImageBaseUrl p | None => "" end)
           (match pxeConfig with Some p => pxe_IsoImageFileUrl p | None => "" end)
           (dracutPackageInfo (artifacts b)) tr1).1 with
  | Err e =>
      r.1 = (b, Some (wrapf ("failed to combine saved configurations with new configuration:"
                             +:+ nl) e))
  | Ok cfg =>
      r.1.1 = with_artifacts b (set_dracutPackageInfo (DracutPackageInfo cfg) (artifacts b))
  end.
Proof.
  intros r tr1.
  destruct (micIsoConfigToIsoMakerConfig H baseConfigPath isoConfig) as [files extra] eqn:Hmic.
  cbn [snd].
  destruct (updateSavedConfigs w _ extra _ _ (dracutPackageInfo (artifacts b)) tr1)
    as [[cfg|e] tr2] eqn:Hmerged; cbn [fst snd]; subst r;
    unfold createImageFromUnchangedOS; unfold bind at 1; unfold emit at 1; fold tr1;
    rewrite Hmic; unfold bind at 1; rewrite Hmerged; [|reflexivity].
  unfold bind.
  destruct (updateGrubCfg H w _ _ cfg outputImageBase tr2) as [[e|] tr3]; [reflexivity|].
  by destruct (createIsoImageAndPXEFolder H w _ files outputImageDir outputImageBase
                 outputPXEArtifactsDir tr3) as [[e|] tr4].
Qed.

(** X8.  [createImageFromUnchangedOS] changes the builder in its dracut
    package information only.  When the saved configuration cannot be
    merged the builder is left as it was; otherwise the information becomes
    that of the merged configuration: the builder's own when it has one,
    else the one of the configuration saved on the input ISO, else none.
    This is the information that the later PXE checks see. *)
Theorem createImageFromUnchangedOS_dracut_info
    {DracutPackageInformation : Type} (H : Helpers DracutPackageInformation)
    (w : World DracutPackageInformation) (b : LiveOSIsoBuilder DracutPackageInformation)
    (baseConfigPath : string) (isoConfig : option Iso) (pxeConfig : option Pxe)
    (outputImageDir outputImageBase outputPXEArtifactsDir : string)
    (tr : Trace DracutPackageInformation) :
  let r := createImageFromUnchangedOS H w b baseConfigPath isoConfig pxeConfig outputImageDir
             outputImageBase outputPXEArtifactsDir tr in
  let tr1 := tr ++ [EvLogInfo "Creating LiveOS iso image using unchanged OS partitions"] in
  let path := savedConfigsFilePath (artifacts b) in
  let merged :=
    (updateSavedConfigs w path (micIsoConfigToIsoMakerConfig H baseConfigPath isoConfig).2
       (match pxeConfig with Some p => pxe_IsoImageBaseUrl p | None => "" end)
       (match pxeConfig with Some p => pxe_IsoImageFileUrl p | None => "" end)
       (dracutPackageInfo (artifacts b)) tr1).1 in
  (exists info, r.1.1 = with_artifacts b (set_dracutPackageInfo info (artifacts b)))
  /\ (forall e, merged = Err e ->
        r.1.1 = b
        /\ r.1.2 = Some (wrapf ("failed to combine saved configurations with new configuration:"
                                 +:+ nl) e))
  /\ (forall cfg, merged = Ok cfg ->
        dracutPackageInfo (artifacts r.1.1) = DracutPackageInfo cfg
        /\ DracutPackageInfo cfg =
           match dracutPackageInfo (artifacts b), load_saved_configs w tr1 path with
           | Some info, _ => Some info
           | None, Ok (Some sc) => DracutPackageInfo sc
           | None, _ => None
           end).
Proof.
  intros r tr1 path merged.
  pose proof (createImageFromUnchangedOS_builder H w b baseConfigPath isoConfig pxeConfig
                outputImageDir outputImageBase outputPXEArtifactsDir tr) as Hb.
  cbn zeta in Hb. fold r tr1 path merged in Hb.
  pose proof (updateSavedConfigs_inv w path
                (micIsoConfigToIsoMakerConfig H baseConfigPath isoConfig).2
                (match pxeConfig with Some p => pxe_IsoImageBaseUrl p | None => "" end)
                (match pxeConfig with Some p => pxe_IsoImageFileUrl p | None => "" end)
                (dracutPackageInfo (artifacts b)) tr1) as Hinv.
  fold merged in Hinv.
  destruct merged as [cfg|e].
  - split; [by eexists|]. split; [done|]. intros cfg' [= <-]. split; [by rewrite Hb|].
    destruct (Hinv cfg eq_refl) as [_ [[-> ->]|(sc & -> & ->)]]; cbn.
    + by destruct (dracutPackageInfo (artifacts b)).
    + unfold mergeSavedConfigs.
      destruct (dracutPackageInfo (artifacts b)); repeat destruct (decide _); reflexivity.
  - split; [|split].
    + exists (dracutPackageInfo (artifacts b)). rewrite with_artifacts_same. by rewrite Hb.
    + intros e' [= <-]. by rewrite Hb.
    + intros cfg [=].
Qed.

(** ** Measuring a directory: parsing the output of [du] *)

Lemma class_space_not_digit (c : ascii) : is_class_space c = true -> is_digit c = false.
Proof.
  destruct c as [[] [] [] [] [] [] [] []]; cbn; intros Hc; try discriminate Hc; reflexivity.
Qed.

Lemma leading_digits_app (digits : string) (c : ascii) (rest : string) :
  only_digits digits = true -> is_digit c = false ->
  leading_digits (digits +:+ String c rest) = (digits, String c rest).
Proof.
  intros Hd Hc. induction digits as [|d ds IH].
  - change ("" +:+ String c rest) with (String c rest). cbn [leading_digits]. by rewrite Hc.
  - cbn [only_digits] in Hd. apply andb_true_iff in Hd as [Hd1 Hd2].
    rewrite append_cons. cbn [leading_digits]. rewrite Hd1, IH by done. reflexivity.
Qed.

Lemma leading_digits_spec (s digits rest : string) :
  leading_digits s = (digits, rest) -> s = digits +:+ rest /\ only_digits digits = true.
Proof.
  revert digits rest. induction s as [|c s IH]; intros digits rest; cbn [leading_digits].
  - by intros [= <- <-].
  - destruct (is_digit c) eqn:Hc.
    + destruct (leading_digits s) as [d r]. intros [= <- <-].
      destruct (IH d r eq_refl) as [-> Hd]. split; [done|]. cbn [only_digits]. by rewrite Hc.
    + by intros [= <- <-].
Qed.

(** [du_size_submatch] finds the digits exactly in the outputs of the form
    that the pattern describes. *)
Lemma du_size_submatch_spec (duStdout digits : string) :
  du_size_submatch duStdout = Some digits <-> du_output_of digits duStdout.
Proof.
  unfold du_size_submatch, du_output_of. split.
  - destruct (leading_digits duStdout) as [ds rest] eqn:Hl.
    apply leading_digits_spec in Hl as [-> Hds].
    destruct ds as [|d ds]; [done|]. destruct rest as [|c rest]; [done|].
    destruct (is_class_space c) eqn:Hc; [|done]. intros [= <-].
    split; [done|]. split; [done|]. by exists c, rest.
  - intros (Hne & Hds & c & rest & -> & Hc).
    rewrite leading_digits_app by (by try apply class_space_not_digit).
    destruct digits; [done|]. by rewrite Hc.
Qed.

Lemma decimal_value_app (a : Z) (s t : string) :
  decimal_value a (s +:+ t) = decimal_value (decimal_value a s) t.
Proof.
  revert a. induction s as [|c s IH]; intros a; [reflexivity|].
  rewrite append_cons. cbn [decimal_value]. apply IH.
Qed.

Lemma digit_char (k : Z) :
  0 <= k < 10 ->
  let c := ascii_of_nat (48 + Z.to_nat k) in
  is_digit c = true /\ Z.of_nat (nat_of_ascii c) - 48 = k.
Proof.
  intros Hk c. subst c. unfold is_digit. rewrite !nat_ascii_embedding by lia. split.
  - apply andb_true_iff. split; apply Nat.leb_le; lia.
  - lia.
Qed.

(** The digits written for [n] are digits, and reading them gives [n]. *)
Lemma decimal_digits_spec (fuel : nat) (n : Z) (acc : string) :
  (0 < fuel)%nat -> 0 <= n < 10 ^ Z.of_nat fuel ->
  exists s, decimal_digits fuel n acc = s +:+ acc /\ s ≠ "" /\ only_digits s = true
            /\ forall a, decimal_value a s = a * 10 ^ Z.of_nat (String.length s) + n.
Proof.
  revert n acc. induction fuel as [|fuel IH]; intros n acc Hfuel Hn; [lia|].
  cbn [decimal_digits].
  destruct (digit_char (n mod 10)) as [Hd Hv]; [apply Z.mod_pos_bound; lia|].
  set (c := ascii_of_nat (48 + Z.to_nat (n mod 10))) in *.
  destruct (Z.ltb_spec n 10) as [Hsmall|Hbig].
  - exists (String c ""). split; [reflexivity|]. split; [done|]. split.
    + cbn [only_digits]. by rewrite Hd.
    + intros a. cbn [decimal_value String.length]. rewrite Hv.
      rewrite Z.mod_small by lia. change (10 ^ Z.of_nat 1) with 10. lia.
  - assert (0 <= n / 10 < 10 ^ Z.of_nat fuel) as Hdiv.
    { split; [apply Z.div_pos; lia|].
      apply Z.div_lt_upper_bound; [lia|].
      rewrite Nat2Z.inj_succ, Z.pow_succ_r in Hn by lia. lia. }
    assert (1 <= n / 10) as Hone by (apply Z.div_le_lower_bound; lia).
    destruct (IH (n / 10) (String c acc)) as (s & Hs & Hne & Hds & Hval); [|exact Hdiv|].
    { destruct fuel; [|lia]. change (10 ^ Z.of_nat 0) with 1 in Hdiv. lia. }
    clear Hdiv Hone.
    exists (s +:+ String c ""). split; [|split; [|split]].
    + rewrite Hs. by rewrite append_assoc.
    + by destruct s.
    + clear -Hds Hd. induction s as [|x s IHs].
      * rewrite append_empty_l. cbn [only_digits]. by rewrite Hd.
      * cbn [only_digits] in Hds. apply andb_true_iff in Hds as [Hx Hs].
        rewrite append_cons. cbn [only_digits]. rewrite Hx. by apply IHs.
    + intros a. rewrite decimal_value_app, Hval. cbn [decimal_value]. rewrite Hv.
      assert (String.length (s +:+ String c "") = S (String.length s)) as ->.
      { clear. induction s as [|x s IHs]; [reflexivity|].
        rewrite append_cons. cbn [String.length]. by rewrite IHs. }
      rewrite Nat2Z.inj_succ, Z.pow_succ_r by lia.
      pose proof (Z.div_mod n 10 ltac:(lia)). lia.
Qed.

Lemma FormatUint64_parse (n : Z) :
  0 <= n < 2 ^ 64 ->
  FormatUint64 n ≠ "" /\ only_digits (FormatUint64 n) = true
  /\ ParseUint64 (FormatUint64 n) = Ok n.
Proof.
  intros Hn. unfold FormatUint64.
  destruct (decimal_digits_spec 20 n "") as (s & -> & Hne & Hds & Hval); [lia| |].
  { assert (2 ^ 64 < 10 ^ Z.of_nat 20) by done. lia. }
  rewrite append_empty_r. split; [done|]. split; [done|].
  unfold ParseUint64. rewrite Hval. change (0 * _ + n) with n. unfold uint64_modulus.
  destruct (Z.ltb_spec n (2 ^ 64)); [done|lia].
Qed.

(** X9.  [getSizeOnDiskInBytes] reads the size that [du -s] reports.  When
    the output of [du] is the decimal numeral of [n] kilobytes ([n] below
    2^64) followed by a white space character and anything else, the result
    is [n] times 1024 bytes, reduced modulo 2^64 as the [uint64] product is;
    it is [n * 1024] exactly when [n] is below 2^54.  The only operations
    are a log line and the run of [du]. *)
Theorem getSizeOnDiskInBytes_reads_du_output
    {DracutPackageInformation : Type} (w : World DracutPackageInformation)
    (rootDir : string) (tr : Trace DracutPackageInformation)
    (n : Z) (c : ascii) (rest : string) :
  let logged := tr ++ [EvLogDebug ("Calculating total size for (" +:+ rootDir +:+ ")")] in
  0 <= n < 2 ^ 64 ->
  is_class_space c = true ->
  shell_du w logged rootDir = Ok (FormatUint64 n +:+ String c rest) ->
  getSizeOnDiskInBytes w rootDir tr
  = (Ok ((n * 1024) mod 2 ^ 64), logged ++ [EvDiskUsage rootDir])
  /\ (n < 2 ^ 54 -> (n * 1024) mod 2 ^ 64 = n * 1024).
Proof.
  intros logged Hn Hc Hdu. split.
  - unfold getSizeOnDiskInBytes, bind, emit, perform, ret. fold logged. rewrite Hdu.
    destruct (FormatUint64_parse n Hn) as (Hne & Hds & Hparse).
    rewrite (proj2 (du_size_submatch_spec _ (FormatUint64 n))).
    + by rewrite Hparse.
    + split; [done|]. split; [done|]. by exists c, rest.
  - intros Hsmall. apply Z.mod_small.
    assert (2 ^ 54 * 1024 = 2 ^ 64) by done. lia.
Qed.

Lemma getSizeOnDiskInBytes_reads_du_output_witness :
  let tab := String "009"%char "" in
  let w := Sample.world None [] "" ("2560" +:+ tab +:+ "/mnt") in
  (getSizeOnDiskInBytes w "/mnt" []).1 = Ok 2621440.
Proof.
  intros tab w.
  destruct (getSizeOnDiskInBytes_reads_du_output w "/mnt" [] 2560 "009"%char "/mnt")
    as [Hrun Hexact]; [lia|reflexivity|reflexivity|].
  rewrite Hrun. cbn [fst]. rewrite Hexact by lia. reflexivity.
Defined.

(** X10.  [getSizeOnDiskInBytes] fails in three ways only, and in each it
    has done nothing but log and run [du].  The run of [du] failed: the
    error wraps the failure and names the directory.  The output does not
    begin with digits followed by a white space character: the error quotes
    the output.  The digits denote a number that does not fit 64 bits: the
    error wraps the range error of the conversion. *)
Theorem getSizeOnDiskInBytes_failure_modes
    {DracutPackageInformation : Type} (w : World DracutPackageInformation)
    (rootDir : string) (tr : Trace DracutPackageInformation) (err : error) :
  let logged := tr ++ [EvLogDebug ("Calculating total size for (" +:+ rootDir +:+ ")")] in
  let r := getSizeOnDiskInBytes w rootDir tr in
  r.1 = Err err ->
  r.2 = logged ++ [EvDiskUsage rootDir]
  /\ ((exists e, shell_du w logged rootDir = Err e /\ wraps err e
                 /\ mentions (Error err) rootDir)
      \/ (exists duStdout,
            shell_du w logged rootDir = Ok duStdout
            /\ (forall digits, ~ du_output_of digits duStdout)
            /\ err = Errorf ("failed to parse 'du -s' output (" +:+ duStdout +:+ ").") [])
      \/ (exists duStdout digits e,
            shell_du w logged rootDir = Ok duStdout
            /\ du_output_of digits duStdout
            /\ 2 ^ 64 <= decimal_value 0 digits
            /\ ParseUint64 digits = Err e /\ wraps err e)).
Proof.
  intros logged r. subst r.
  unfold getSizeOnDiskInBytes, bind, emit, perform, ret. fold logged.
  destruct (shell_du w logged rootDir) as [duStdout|e]; cbn [fst snd].
  - destruct (du_size_submatch duStdout) as [digits|] eqn:Hmatch; cbn [fst snd].
    + destruct (ParseUint64 digits) as [v|e] eqn:Hparse; cbn [fst snd]; [done|].
      intros [= <-]. split; [done|]. right. right. exists duStdout, digits, e.
      split; [done|]. split; [by apply du_size_submatch_spec|]. split.
      * unfold ParseUint64, uint64_modulus in Hparse.
        destruct (Z.ltb_spec (decimal_value 0 digits) (2 ^ 64)); [done|lia].
      * split; [done|apply wraps_wrapf].
    + intros [= <-]. split; [done|]. right. left. exists duStdout.
      split; [done|]. split; [|done].
      intros digits Hd. apply du_size_submatch_spec in Hd. congruence.
  - intros [= <-]. split; [done|]. left. exists e. split; [done|].
    split; [apply wraps_wrapf|].
    mentions_between "failed to find the size of the specified folder using 'du' for ("
                     ("):" +:+ nl +:+ Error e).
Qed.

Lemma getSizeOnDiskInBytes_failure_modes_witness :
  let w := Sample.world None [] "" "12K" in
  (getSizeOnDiskInBytes w "/mnt" []).1
  = Err (Errorf "failed to parse 'du -s' output (12K)." []).
Proof.
  intros w.
  destruct (getSizeOnDiskInBytes_failure_modes w "/mnt" []
              (Errorf "failed to parse 'du -s' output (12K)." []) eq_refl)
    as [_ [(e & Hdu & _)|[(duStdout & Hdu & _ & Herr)|(duStdout & digits & e & Hdu & Hout & _)]]].
  - discriminate Hdu.
  - reflexivity.
  - reflexivity.
Defined.

(** ** The disk size estimate and the disk layout *)

Lemma estimate_bounds (sizeInBytes : Z) :
  0 <= sizeInBytes ->
  let est := 3 * (sizeInBytes / MiB + 1) / 2 in
  sizeInBytes / MiB + 1 <= est /\ sizeInBytes < est * MiB.
Proof.
  intros Hn est.
  assert (0 <= sizeInBytes / MiB) as Hm by (apply Z.div_pos; [lia|done]).
  assert (sizeInBytes / MiB + 1 <= est) as Hest.
  { subst est. apply Z.div_le_lower_bound; lia. }
  split; [exact Hest|].
  pose proof (Z.div_mod sizeInBytes MiB ltac:(done)) as Hdiv.
  pose proof (Z.mod_pos_bound sizeInBytes MiB ltac:(done)) as Hmod.
  assert (0 < MiB) by done. nia.
Qed.

(** X11.  The estimate of [getDiskSizeEstimateInMBs] is safe: for every
    size measured by [getSizeOnDiskInBytes], the estimated number of
    megabytes, counted in mebibytes, is strictly more than the measured
    content (and at least one megabyte, also for an empty directory), and a
    larger content never gets a smaller estimate. *)
Theorem disk_size_estimate_covers_content
    {DracutPackageInformation : Type} (w : World DracutPackageInformation) (rootDir : string)
    (tr tr' : Trace DracutPackageInformation) (sizeInBytes : Z) :
  getSizeOnDiskInBytes w rootDir tr = (Ok sizeInBytes, tr') ->
  exists estimate,
    getDiskSizeEstimateInMBs w rootDir expansionSafetyFactor tr = (Ok estimate, tr')
    /\ estimate = diskSizeEstimateInMBs sizeInBytes expansionSafetyFactor
    /\ 1 <= estimate
    /\ sizeInBytes < estimate * MiB
    /\ (forall larger, sizeInBytes <= larger < 2 ^ 64 ->
          estimate <= diskSizeEstimateInMBs larger expansionSafetyFactor).
Proof.
  intros Hmeasured.
  pose proof (getSizeOnDiskInBytes_range w _ _ _ _ Hmeasured) as Hrange.
  exists (diskSizeEstimateInMBs sizeInBytes expansionSafetyFactor).
  split; [|split; [reflexivity|]].
  { unfold getDiskSizeEstimateInMBs, bind, ret. by rewrite Hmeasured. }
  rewrite diskSizeEstimateInMBs_formula by exact Hrange.
  destruct (estimate_bounds sizeInBytes) as [Hlow Hcover]; [lia|].
  assert (0 <= sizeInBytes / MiB) as Hm by (apply Z.div_pos; [lia|done]).
  split; [lia|]. split; [exact Hcover|].
  intros larger Hlarger. rewrite diskSizeEstimateInMBs_formula by lia.
  apply Z.div_le_mono; [lia|].
  assert (sizeInBytes / MiB <= larger / MiB) by (apply Z.div_le_mono; [done|lia]). lia.
Qed.

Lemma disk_size_estimate_covers_content_witness :
  let tab := String "009"%char "" in
  let w := Sample.world None [] "" ("0" +:+ tab +:+ "/mnt") in
  (getDiskSizeEstimateInMBs w "/mnt" expansionSafetyFactor []).1 = Ok 1.
Proof.
  intros tab w.
  destruct (disk_size_estimate_covers_content w "/mnt" [] _ 0 eq_refl)
    as (estimate & Hrun & -> & _).
  rewrite Hrun. reflexivity.
Defined.

(** X12.  The disk that [createWriteableImageFromSquashfs] lays out for a
    squashfs content of [sizeInBytes] bytes (below 2^63).  Its maximum size
    is the estimate, in mebibytes.  It has two partitions: the ESP from 1
    MiB to 9 MiB, and the rootfs from 9 MiB to the end of the disk.  When
    the content is 17 MiB or more, the room after the ESP is more than the
    content.  When the content is less than 5 MiB, the disk ends before the
    ESP does. *)
Theorem squashfs_disk_layout (sizeInBytes : Z) :
  0 <= sizeInBytes < 2 ^ 63 ->
  let estimate := diskSizeEstimateInMBs sizeInBytes expansionSafetyFactor in
  let disk := squashfsDiskConfig estimate in
  disk_MaxSize disk = Some (estimate * MiB)
  /\ disk_Partitions disk =
     [ {| part_Id := "esp"; part_Start := Some (1 * MiB); part_End := Some (9 * MiB);
          part_Type := Some PartitionTypeESP |};
       {| part_Id := "rootfs"; part_Start := Some (9 * MiB); part_End := None;
          part_Type := None |} ]
  /\ (17 * MiB <= sizeInBytes -> sizeInBytes < estimate * MiB - 9 * MiB)
  /\ (sizeInBytes < 5 * MiB -> estimate * MiB < 9 * MiB).
Proof.
  intros Hn estimate disk. subst disk estimate.
  rewrite diskSizeEstimateInMBs_formula by (assert (2 ^ 63 < 2 ^ 64) by done; lia).
  set (m := sizeInBytes / MiB).
  assert (0 <= m < 2 ^ 43) as Hm.
  { subst m. split; [apply Z.div_pos; [lia|done]|].
    apply Z.div_lt_upper_bound; [done|]. change (MiB * 2 ^ 43) with (2 ^ 63). lia. }
  set (est := 3 * (m + 1) / 2).
  assert (m + 1 <= est <= 3 * 2 ^ 42) as Hest.
  { subst est. split; [apply Z.div_le_lower_bound; lia|].
    apply Z.div_le_upper_bound; [lia|]. assert (2 * (3 * 2 ^ 42) = 3 * 2 ^ 43) by done. lia. }
  pose proof (Z.div_mod sizeInBytes MiB ltac:(done)) as Hdiv. fold m in Hdiv.
  pose proof (Z.mod_pos_bound sizeInBytes MiB ltac:(done)) as Hmod.
  assert (MiB = 2 ^ 20) as HMiB by done.
  split; [|split; [reflexivity|split]].
  - unfold squashfsDiskConfig. cbn [disk_MaxSize]. f_equal. apply Z.mod_small.
    unfold uint64_modulus. assert (3 * 2 ^ 42 * 2 ^ 20 < 2 ^ 64) by done. nia.
  - intros Hbig.
    assert (17 <= m) as Hm17.
    { subst m. apply Z.div_le_lower_bound; [done|]. lia. }
    assert (m + 10 <= est) as Hroom.
    { subst est. apply Z.div_le_lower_bound; lia. }
    nia.
  - intros Hsmall.
    assert (m < 5) as Hm5.
    { subst m. apply Z.div_lt_upper_bound; [done|]. lia. }
    assert (est < 9) as Hshort.
    { subst est. apply Z.div_lt_upper_bound; lia. }
    nia.
Qed.

Lemma squashfs_disk_layout_witness :
  disk_MaxSize (squashfsDiskConfig (diskSizeEstimateInMBs (100 * MiB) expansionSafetyFactor))
  = Some (151 * MiB).
Proof.
  destruct (squashfs_disk_layout (100 * MiB)) as [Hmax _]; [done|].
  rewrite Hmax. reflexivity.
Defined.

(** ** Finding the kernel *)

Section KernelFacts.

Context {DracutPackageInformation : Type}.
Context (host : Host DracutPackageInformation).
Context (kernelParentPath : string) (empty : string -> bool).

Abbreviation query kernelDir :=
  (HCall (DracutPackageInformation := DracutPackageInformation)
     (FileIsDirEmpty (GoPath.Join [kernelParentPath; kernelDir]))).

(** With answers that do not change during the loop, the loop keeps the
    directories that are not empty, in order, after one query each. *)
Lemma findKernelVersion_loop_filter (kernelDirs filtered : list string)
    (h : History DracutPackageInformation) :
  (forall h' kernelDir, kernelDir ∈ kernelDirs ->
     host_call host h' (FileIsDirEmpty (GoPath.Join [kernelParentPath; kernelDir]))
     = Ok (empty kernelDir)) ->
  findKernelVersion_loop host kernelParentPath kernelDirs filtered h
  = (Ok (filtered ++ filter (fun kernelDir => empty kernelDir = false) kernelDirs),
     h ++ map (fun kernelDir => query kernelDir) kernelDirs).
Proof.
  revert filtered h. induction kernelDirs as [|d rest IH]; intros filtered h Hempty.
  - cbn. unfold hret. by rewrite !app_nil_r.
  - cbn [findKernelVersion_loop]. unfold hbind, call. rewrite Hempty by left.
    rewrite IH by (intros h' d' Hd'; apply Hempty; by right).
    rewrite filter_cons. cbn [map]. rewrite <- (app_assoc h [_]). f_equal.
    destruct (empty d) eqn:Hd.
    + rewrite decide_False by done. reflexivity.
    + rewrite decide_True by done. by rewrite <- app_assoc.
Qed.

End KernelFacts.

(** X13.  [findKernelVersion] requires exactly one installed kernel.  Let
    the directory of the kernel modules be readable, and let the emptiness
    of its entries be known and not change during the function.  Empty
    entries are ignored.  With exactly one entry that is not empty, its name
    becomes the kernel version and the function succeeds; with none it
    fails, the builder unchanged, and so it does with more than one.  Every
    entry is queried once, in order. *)
Theorem findKernelVersion_unique_kernel
    {DracutPackageInformation : Type} (host : Host DracutPackageInformation)
    (b : LiveOSIsoBuilder DracutPackageInformation) (writeableRootfsDir : string)
    (h : History DracutPackageInformation) (kernelDirs : list string) (empty : string -> bool) :
  let kernelParentPath := GoPath.Join [writeableRootfsDir; kernelModulesDir] in
  let kernels := filter (fun kernelDir => empty kernelDir = false) kernelDirs in
  let queries :=
    map (fun kernelDir => HCall (FileIsDirEmpty (GoPath.Join [kernelParentPath; kernelDir])))
      kernelDirs in
  let r := findKernelVersion host b writeableRootfsDir h in
  host_call host h (OsReadDir kernelParentPath) = Ok kernelDirs ->
  (forall h' kernelDir, kernelDir ∈ kernelDirs ->
     host_call host h' (FileIsDirEmpty (GoPath.Join [kernelParentPath; kernelDir]))
     = Ok (empty kernelDir)) ->
  r = match kernels with
      | [] => (b, Some noKernelError, h ++ [HCall (OsReadDir kernelParentPath)] ++ queries)
      | [kernelDir] =>
          (with_artifacts b (set_kernelVersion kernelDir (artifacts b)), None,
           h ++ [HCall (OsReadDir kernelParentPath)] ++ queries
             ++ [HBase (EvLogDebug ("Found installed kernel version (" +:+ kernelDir +:+ ")"))])
      | _ => (b, Some severalKernelsError, h ++ [HCall (OsReadDir kernelParentPath)] ++ queries)
      end.
Proof.
  intros kernelParentPath kernels queries r Hread Hempty. subst r.
  unfold findKernelVersion. fold kernelParentPath. unfold hbind at 1. unfold call at 1.
  rewrite Hread. unfold hbind at 1.
  rewrite (findKernelVersion_loop_filter host kernelParentPath empty) by exact Hempty.
  fold kernels. fold queries. cbn [app].
  destruct kernels as [|v [|v' more]]; unfold hret; rewrite <- ?app_assoc; try reflexivity.
  unfold hbind, logDebug, lift, emit. cbn [map app fst snd kernelVersion artifacts
    with_artifacts set_kernelVersion]. by rewrite <- ?app_assoc.
Qed.

Lemma findKernelVersion_unique_kernel_witness :
  let empty path := bool_decide (path = "/rootfs/usr/lib/modules/5.10.0-old") in
  let host := Faulty.host (Sample.world None [] "" "") Faulty.never
                ["5.10.0-old"; "5.15.0-new"] empty Faulty.never None in
  let b := newLiveOSIsoBuilder "/build" in
  (findKernelVersion host b "/rootfs" []).1
  = (with_artifacts b (set_kernelVersion "5.15.0-new" (artifacts b)), None).
Proof.
  intros empty host b.
  pose proof (findKernelVersion_unique_kernel host b "/rootfs" []
                ["5.10.0-old"; "5.15.0-new"]
                (fun kernelDir => bool_decide (kernelDir = "5.10.0-old")) eq_refl) as Hthm.
  cbn zeta in Hthm. rewrite Hthm; [reflexivity|].
  intros h' kernelDir Hin.
  apply elem_of_cons in Hin as [->|Hin]; [reflexivity|].
  apply elem_of_cons in Hin as [->|Hin]; [reflexivity|].
  by apply elem_of_nil in Hin.
Defined.

(** ** Scanning an extracted ISO *)

Section IsoScanFacts.

Context {DracutPackageInformation : Type}.
Context (isoExpansionFolder : string).

Abbreviation Art := (IsoArtifacts DracutPackageInformation).
Abbreviation scan_body := (createIsoBuilderFromIsoImage_body (DracutPackageInformation := DracutPackageInformation) isoExpansionFolder).
Abbreviation scan := (createIsoBuilderFromIsoImage_loop (DracutPackageInformation := DracutPackageInformation) isoExpansionFolder).

Lemma classifyIsoFile_schedule (a : Art) (isoFile : string) :
  additionalFiles (classifyIsoFile a isoFile).1 = additionalFiles a
  /\ (is_iso_slot_name (GoPath.Base isoFile) -> (classifyIsoFile a isoFile).2 = false)
  /\ (~ is_iso_slot_name (GoPath.Base isoFile) -> (classifyIsoFile a isoFile).2 = true).
Proof.
  unfold classifyIsoFile, is_iso_slot_name.
  repeat (destruct (decide (GoPath.Base isoFile = _)) as [?|?]);
    destruct (HasPrefix (GoPath.Base isoFile) vmLinuzPrefix) eqn:Hv; cbn;
    (split; [reflexivity|]); (split; [try done|]).
  all: try (intros Hno; exfalso; apply Hno; tauto).
  all: try done.
  intros [?|[?|[?|[?|[?|[?|?]]]]]]; done.
Qed.

Lemma scan_body_additionalFiles (a : Art) (isoFile : string) :
  additionalFiles (scan_body a isoFile) =
    if (classifyIsoFile a isoFile).2
    then <[isoFile := TrimPrefix isoFile isoExpansionFolder]> (additionalFiles a)
    else additionalFiles a.
Proof.
  unfold createIsoBuilderFromIsoImage_body.
  pose proof (classifyIsoFile_schedule a isoFile) as [Hmap _].
  destruct (classifyIsoFile a isoFile) as [a' [|]]; cbn [fst snd] in *; by rewrite <- Hmap.
Qed.

Lemma scan_cons (isoFile : string) (rest : list string) (a : Art) :
  scan (isoFile :: rest) a = scan rest (scan_body a isoFile).
Proof. reflexivity. Qed.

Lemma scan_sound (isoFiles : list string) (a : Art) (k v : string) :
  additionalFiles (scan isoFiles a) !! k = Some v ->
  additionalFiles a !! k = Some v
  \/ (k ∈ isoFiles /\ ~ is_iso_slot_name (GoPath.Base k) /\ v = TrimPrefix k isoExpansionFolder).
Proof.
  revert a. induction isoFiles as [|f rest IH]; intros a; [by left|].
  cbn [createIsoBuilderFromIsoImage_loop fold_left]. intros Hk.
  apply IH in Hk as [Hk|(Hin & Hno & ->)].
  - rewrite scan_body_additionalFiles in Hk.
    pose proof (classifyIsoFile_schedule a f) as (_ & Hslot & Hfree).
    destruct (classifyIsoFile a f).2 eqn:Hs; [|by left].
    rewrite lookup_insert in Hk. case_decide as Hd; [|by left].
    subst k. injection Hk as <-. right. split; [left|]. split; [|done].
    intros Hname. specialize (Hslot Hname). congruence.
  - right. split; [by right|done].
Qed.

Lemma scan_kept (isoFiles : list string) (a : Art) (k : string) :
  additionalFiles a !! k = Some (TrimPrefix k isoExpansionFolder) ->
  additionalFiles (scan isoFiles a) !! k = Some (TrimPrefix k isoExpansionFolder).
Proof.
  revert a. induction isoFiles as [|f rest IH]; intros a Hk; [done|].
  cbn [createIsoBuilderFromIsoImage_loop fold_left]. apply IH.
  rewrite scan_body_additionalFiles. destruct (classifyIsoFile a f).2; [|done].
  rewrite lookup_insert. case_decide as Hd; [by subst k|done].
Qed.

Lemma scan_complete (isoFiles : list string) (a : Art) (k : string) :
  k ∈ isoFiles -> ~ is_iso_slot_name (GoPath.Base k) ->
  additionalFiles (scan isoFiles a) !! k = Some (TrimPrefix k isoExpansionFolder).
Proof.
  revert a. induction isoFiles as [|f rest IH]; intros a Hin Hno.
  { by apply elem_of_nil in Hin. }
  cbn [createIsoBuilderFromIsoImage_loop fold_left].
  apply elem_of_cons in Hin as [->|Hin]; [|by apply IH].
  apply scan_kept. rewrite scan_body_additionalFiles.
  pose proof (classifyIsoFile_schedule a f) as (_ & _ & Hfree).
  rewrite (Hfree Hno). by rewrite lookup_insert_eq.
Qed.

(** A slot is given the path of a file of its name and is left alone by
    any other file. *)
Lemma scan_body_slot (name : string) (get : Art -> string) (a : Art) (isoFile : string) :
  (name, get) ∈ iso_slots ->
  (GoPath.Base isoFile = name -> get (scan_body a isoFile) = isoFile)
  /\ (GoPath.Base isoFile ≠ name -> get (scan_body a isoFile) = get a).
Proof.
  intros Hslot. unfold iso_slots in Hslot.
  repeat (apply elem_of_cons in Hslot as [[= -> ->]|Hslot]);
    [| | | | | |by apply elem_of_nil in Hslot].
  all: unfold createIsoBuilderFromIsoImage_body, classifyIsoFile; split; intros Hname.
  all: try (rewrite Hname; reflexivity).
  all: repeat (destruct (decide (GoPath.Base isoFile = _)) as [?|?]); try done;
    destruct (HasPrefix (GoPath.Base isoFile) vmLinuzPrefix); reflexivity.
Qed.

Lemma scan_slot_kept (name : string) (get : Art -> string) (isoFiles : list string) (a : Art) :
  (name, get) ∈ iso_slots ->
  (forall f, f ∈ isoFiles -> GoPath.Base f ≠ name) ->
  get (scan isoFiles a) = get a.
Proof.
  intros Hslot. revert a. induction isoFiles as [|f rest IH]; intros a Hnone; [done|].
  rewrite scan_cons.
  rewrite IH by (intros g Hg; apply Hnone; by right).
  apply (scan_body_slot name get a f Hslot). apply Hnone. left.
Qed.

Lemma scan_slot_last (name : string) (get : Art -> string) (before after : list string)
    (f : string) (a : Art) :
  (name, get) ∈ iso_slots ->
  GoPath.Base f = name ->
  (forall g, g ∈ after -> GoPath.Base g ≠ name) ->
  get (scan (before ++ f :: after) a) = f.
Proof.
  intros Hslot Hname Hafter.
  assert (scan (before ++ f :: after) a = scan after (scan_body (scan before a) f)) as ->.
  { unfold createIsoBuilderFromIsoImage_loop. by rewrite fold_left_app. }
  rewrite (scan_slot_kept name get after _ Hslot Hafter).
  by apply (scan_body_slot name get _ f Hslot).
Qed.

End IsoScanFacts.

(** X14.  What the scan of an extracted ISO records
    ([createIsoBuilderFromIsoImage]).  The additional files are exactly the
    scanned files whose name has no slot, each mapped to its path with the
    expansion folder stripped.  A slot that is filled by name (the shim, the
    grub binary, grub.cfg, the squashfs image, the initrd image, the saved
    configuration) keeps its value when no scanned file has the name and
    otherwise holds the path of the last scanned file of that name.  A
    [grubx64-noprefix.efi] and a kernel named just [vmlinuz] have no slot
    here: they are carried as additional files. *)
Theorem createIsoBuilderFromIsoImage_loop_classifies
    {DracutPackageInformation : Type} (isoExpansionFolder : string) (isoFiles : list string)
    (a : IsoArtifacts DracutPackageInformation) :
  let scanned :=
    createIsoBuilderFromIsoImage_loop isoExpansionFolder isoFiles (set_additionalFiles ∅ a) in
  (forall k v,
     additionalFiles scanned !! k = Some v
     <-> k ∈ isoFiles /\ ~ is_iso_slot_name (GoPath.Base k)
         /\ v = TrimPrefix k isoExpansionFolder)
  /\ (forall name get, (name, get) ∈ iso_slots ->
        ((forall f, f ∈ isoFiles -> GoPath.Base f ≠ name) -> get scanned = get a)
        /\ (forall before f after,
              isoFiles = before ++ f :: after -> GoPath.Base f = name ->
              (forall g, g ∈ after -> GoPath.Base g ≠ name) ->
              get scanned = f))
  /\ (forall f, f ∈ isoFiles ->
        GoPath.Base f = grubx64NoPrefixBinary \/ GoPath.Base f = "vmlinuz" ->
        additionalFiles scanned !! f = Some (TrimPrefix f isoExpansionFolder)).
Proof.
  intros scanned. subst scanned. split; [|split].
  - intros k v. split.
    + intros Hk. apply scan_sound in Hk as [Hk|Hk]; [|done].
      cbn in Hk. by rewrite lookup_empty in Hk.
    + intros (Hin & Hno & ->). by apply scan_complete.
  - intros name get Hslot. split.
    + intros Hnone. rewrite (scan_slot_kept _ name get isoFiles _ Hslot Hnone).
      unfold iso_slots in Hslot.
      repeat (apply elem_of_cons in Hslot as [[= -> ->]|Hslot]); try reflexivity.
      by apply elem_of_nil in Hslot.
    + intros before f after -> Hname Hafter. by apply (scan_slot_last _ name).
  - intros f Hin Hname. apply scan_complete; [done|].
    unfold is_iso_slot_name. destruct Hname as [-> | ->]; intros [?|[?|[?|[?|[?|[?|?]]]]]]; done.
Qed.

(** ** Extracting an ISO: what is acquired is released *)

(** X15.  [extractIsoImageContents] releases what it acquired, in the
    reverse order, as its last operations, whatever fails in between.  With
    the temporary mount directory created, the last operation is its
    removal; with the loop device attached, the device is closed just
    before; with the ISO mounted, the mount is closed just before that.
    Between the mount and the releases it performs a non-empty prefix of
    four operations (create the expansion folder, copy the files, close the
    mount cleanly, close the loop device cleanly), all four when it
    succeeds.  A failure before the mount is returned after the releases
    due at that point. *)
Theorem extractIsoImageContents_releases
    {DracutPackageInformation : Type} (host : Host DracutPackageInformation)
    (buildDir isoImageFile isoExpansionFolder : string)
    (h : History DracutPackageInformation) :
  let r := extractIsoImageContents host buildDir isoImageFile isoExpansionFolder h in
  let h1 := h ++ [HCall (OsMkdirTemp buildDir "tmp-iso-mount-")] in
  let h2 := h1 ++ [HCall (NewLoopback isoImageFile)] in
  match host_call host h (OsMkdirTemp buildDir "tmp-iso-mount-") with
  | Err e =>
      r = (Some (wrapf ("failed to create temporary mount folder for iso:" +:+ nl) e), h1)
  | Ok mountDir =>
      match host_call host h1 (NewLoopback isoImageFile) with
      | Err e =>
          r = (Some (wrapf ("failed to create loop device for (" +:+ isoImageFile
                            +:+ "):" +:+ nl) e),
               h2 ++ [HBase (EvRemoveAll mountDir)])
      | Ok devicePath =>
          let mount := NewMount devicePath mountDir "iso9660" MS_RDONLY "" false in
          let h3 := h2 ++ [HCall mount] in
          match host_call host h2 mount with
          | Some e =>
              r = (Some e, h3 ++ [HCall (LoopbackClose devicePath);
                                  HBase (EvRemoveAll mountDir)])
          | None =>
              let work :=
                [ HBase (EvMkdirAll isoExpansionFolder);
                  HCall (CopyPartitionFiles (mountDir +:+ "/.") isoExpansionFolder);
                  HCall (MountCleanClose devicePath mountDir);
                  HCall (LoopbackCleanClose devicePath) ] in
              exists n,
                r.2 = h3 ++ take (S n) work
                         ++ [ HCall (MountClose devicePath mountDir);
                              HCall (LoopbackClose devicePath);
                              HBase (EvRemoveAll mountDir) ]
                /\ (r.1 = None -> take (S n) work = work)
          end
      end
  end.
Proof.
  intros r h1 h2.
  destruct (host_call host h (OsMkdirTemp buildDir "tmp-iso-mount-")) as [mountDir|e] eqn:Htmp.
  2:{ subst r. unfold extractIsoImageContents, hbind, call. by rewrite Htmp. }
  destruct (host_call host h1 (NewLoopback isoImageFile)) as [devicePath|e] eqn:Hloop.
  2:{ subst r. unfold extractIsoImageContents, hbind, call, lift, hret, RemoveAll, perform.
      rewrite Htmp. fold h1. rewrite Hloop. history_eq. }
  cbn zeta.
  destruct (host_call host h2 (NewMount devicePath mountDir "iso9660" MS_RDONLY "" false))
    as [e|] eqn:Hmount.
  { subst r. unfold extractIsoImageContents, hbind, call, lift, hret, RemoveAll, perform.
    rewrite Htmp. fold h1. rewrite Hloop. fold h2. rewrite Hmount. history_eq. }
  subst r. unfold extractIsoImageContents, hbind, call, lift, hret, RemoveAll, MkdirAll, perform.
  rewrite Htmp. fold h1. rewrite Hloop. fold h2. rewrite Hmount.
  set (h3 := h2 ++ [HCall (NewMount devicePath mountDir "iso9660" MS_RDONLY "" false)]).
  cbn [map fst snd app].
  destruct (os_MkdirAll (world_after host h3) [] isoExpansionFolder) as [e|].
  { exists 0%nat. cbn [fst snd]. split; [history_eq|done]. }
  destruct (host_call host _ (CopyPartitionFiles (mountDir +:+ "/.") isoExpansionFolder))
    as [e|].
  { exists 1%nat. cbn [fst snd]. split; [history_eq|done]. }
  destruct (host_call host _ (MountCleanClose devicePath mountDir)) as [e|].
  { exists 2%nat. cbn [fst snd]. split; [history_eq|done]. }
  destruct (host_call host _ (LoopbackCleanClose devicePath)) as [e|];
    exists 3%nat; cbn [fst snd]; (split; [history_eq|done]).
Qed.

(** ** Computations on the host only add to the history *)

Section Grows.

Context {DracutPackageInformation : Type}.
Context (host : Host DracutPackageInformation).

Lemma grows_hret {A} (a : A) : grows (DracutPackageInformation := DracutPackageInformation) (hret a).
Proof. intros h. exists []. by rewrite app_nil_r. Qed.

Lemma grows_call (op : HostOp) : grows (call host op).
Proof. intros h. by exists [HCall op]. Qed.

Lemma grows_lift {A} (m : World DracutPackageInformation -> IO DracutPackageInformation A) :
  grows (lift host m).
Proof.
  intros h. unfold lift. destruct (m (world_after host h) []) as [a tr]. by exists (map HBase tr).
Qed.

Lemma grows_hbind {A B} (m : HostIO DracutPackageInformation A)
    (k : A -> HostIO DracutPackageInformation B) :
  grows m -> (forall a, grows (k a)) -> grows (hbind m k).
Proof.
  intros Hm Hk h. unfold hbind. destruct (Hm h) as [d1 H1].
  destruct (m h) as [a h1]. cbn [snd] in H1. subst h1.
  destruct (Hk a (h ++ d1)) as [d2 H2]. exists (d1 ++ d2). by rewrite H2, app_assoc.
Qed.

End Grows.

(** Decompose a computation into its operations; [known] closes the calls
    of functions whose lemma is at hand. *)
Ltac grows_with known :=
  repeat
    (cbv beta zeta;
     first
       [ apply grows_hret | apply grows_call | apply grows_lift | known
       | apply grows_hbind; [|intros ?]
       | match goal with
         | |- grows (match ?x with _ => _ end) => destruct x
         end ]).

Ltac grows := grows_with fail.

Section GrowsFunctions.

Context {DracutPackageInformation : Type}.
Context (H : Helpers DracutPackageInformation) (host : Host DracutPackageInformation).

Lemma grows_extractIsoImageContents (buildDir isoImageFile isoExpansionFolder : string) :
  grows (extractIsoImageContents host buildDir isoImageFile isoExpansionFolder).
Proof. unfold extractIsoImageContents. grows. Qed.

Lemma grows_findKernelVersion_loop (parent : string) (dirs filtered : list string) :
  grows (findKernelVersion_loop host parent dirs filtered).
Proof.
  revert filtered. induction dirs as [|d rest IH]; intros filtered; cbn [findKernelVersion_loop];
    grows_with ltac:(apply IH).
Qed.

Lemma grows_findKernelVersion (b : LiveOSIsoBuilder DracutPackageInformation) (root : string) :
  grows (findKernelVersion host b root).
Proof.
  unfold findKernelVersion, logDebug. grows_with ltac:(apply grows_findKernelVersion_loop).
Qed.

Lemma grows_stageIsoMakerInitrdArtifacts (b : LiveOSIsoBuilder DracutPackageInformation)
    (root staging : string) :
  grows (stageIsoMakerInitrdArtifacts host b root staging).
Proof. unfold stageIsoMakerInitrdArtifacts, logDebug. grows. Qed.

Lemma grows_prepareRootfsForDracut (root : string) : grows (prepareRootfsForDracut host root).
Proof. unfold prepareRootfsForDracut, logDebug. grows. Qed.

Lemma grows_populateWriteableRootfsDir (src root : string) :
  grows (populateWriteableRootfsDir host src root).
Proof. unfold populateWriteableRootfsDir, logDebug. grows. Qed.

Lemma grows_createSquashfsImage (b : LiveOSIsoBuilder DracutPackageInformation) (root : string) :
  grows (createSquashfsImage host b root).
Proof. unfold createSquashfsImage, logDebug. grows. Qed.

Lemma grows_generateInitrdImage_loop (root : string) (rpms : list string) :
  grows (generateInitrdImage_loop host root rpms).
Proof.
  induction rpms as [|p rest IH]; cbn [generateInitrdImage_loop]; unfold logDebug;
    grows_with ltac:(apply IH).
Qed.

Lemma grows_generateInitrdImage (b : LiveOSIsoBuilder DracutPackageInformation)
    (root src dst : string) :
  grows (generateInitrdImage host b root src dst).
Proof.
  unfold generateInitrdImage, logDebug.
  grows_with ltac:(apply grows_generateInitrdImage_loop).
Qed.

Lemma grows_prepareLiveOSDir (b : LiveOSIsoBuilder DracutPackageInformation)
    (saved root staging extra base file out : string) :
  grows (prepareLiveOSDir H host b saved root staging extra base file out).
Proof.
  unfold prepareLiveOSDir, logDebug.
  grows_with ltac:(first [ apply grows_findKernelVersion
                         | apply grows_stageIsoMakerInitrdArtifacts
                         | apply grows_prepareRootfsForDracut ]).
Qed.

Lemma grows_prepareArtifactsFromFullImage (b : LiveOSIsoBuilder DracutPackageInformation)
    (saved raw extra base file out : string) :
  grows (prepareArtifactsFromFullImage H host b saved raw extra base file out).
Proof.
  unfold prepareArtifactsFromFullImage, logDebug, logInfo.
  grows_with ltac:(first [ apply grows_populateWriteableRootfsDir
                         | apply grows_prepareLiveOSDir
                         | apply grows_createSquashfsImage
                         | apply grows_generateInitrdImage ]).
Qed.

End GrowsFunctions.

(** ** From an ISO to a builder: registration and clean-up *)

Lemma cleanUp_trace {DracutPackageInformation : Type} (w : World DracutPackageInformation)
    (b : LiveOSIsoBuilder DracutPackageInformation) (tr : Trace DracutPackageInformation) :
  (cleanUp w b tr).2 = tr ++ map EvRemoveAll (rev (cleanupDirs b)).
Proof.
  unfold cleanUp. rewrite cleanUp_loop_walk by lia. rewrite firstn_all.
  apply cleanUp_walk_trace.
Qed.

(** The deferred function of [createIsoBuilderFromIsoImage]: on failure the
    registered directories are removed, the last registered first. *)
Lemma createIsoBuilderFromIsoImage_deferred
    {DracutPackageInformation : Type} (host : Host DracutPackageInformation)
    (b : LiveOSIsoBuilder DracutPackageInformation) (err : error)
    (h : History DracutPackageInformation) :
  let r :=
    (cleanupErr <- lift host (fun w => cleanUp w b) ;;
     match cleanupErr with
     | Some ce =>
         hret (b, Some (Errorf (Error err +:+ ":" +:+ nl +:+ "failed to clean-up:" +:+ nl
                                +:+ Error ce) [err; ce]))
     | None => hret (b, Some err)
     end)%host h in
  r.1.1 = b
  /\ (exists err', r.1.2 = Some err' /\ wraps err' err)
  /\ r.2 = h ++ map (fun dir => HBase (EvRemoveAll dir)) (rev (cleanupDirs b)).
Proof.
  intros r. subst r. unfold hbind, lift, hret.
  pose proof (cleanUp_trace (world_after host h) b []) as Htr.
  destruct (cleanUp (world_after host h) b []) as [[ce|] tr]; cbn [fst snd] in *;
    subst tr; rewrite app_nil_l, map_map.
  - split; [done|]. split; [|done]. eexists. split; [reflexivity|].
    eapply wraps_step; [apply list_elem_of_here|apply wraps_refl].
  - split; [done|]. split; [|done]. eexists. split; [reflexivity|apply wraps_refl].
Qed.


(** ** The initrd: required packages *)

Section PackageChecks.

Context {DracutPackageInformation : Type}.
Context (host : Host DracutPackageInformation).
Context (rootDir : string) (installed : string -> bool).
Hypothesis Hinstalled :
  forall h requiredRpm,
    host_call host h (IsPackageInstalled rootDir requiredRpm) = installed requiredRpm.

(** The loop over the required packages stops at the first one that is
    not installed; it performs nothing but its log lines and queries. *)
Lemma generateInitrdImage_loop_first_missing (rpms : list string)
    (h : History DracutPackageInformation) :
  let r := generateInitrdImage_loop host rootDir rpms h in
  r.1 = find (fun requiredRpm => negb (installed requiredRpm)) rpms
  /\ exists checks,
       r.2 = h ++ checks
       /\ Forall (is_package_check rootDir) checks.
Proof.
  revert h. induction rpms as [|p rest IH]; intros h r;
    assert (Hr : r = generateInitrdImage_loop host rootDir _ h) by reflexivity;
    clearbody r; cbn [generateInitrdImage_loop find] in Hr |- *.
  - subst r. split; [done|]. exists []. split; [by rewrite app_nil_r|constructor].
  - unfold hbind at 1 in Hr. unfold logDebug, lift, emit in Hr. cbn [map app fst snd] in Hr.
    unfold hbind at 1 in Hr. unfold call at 1 in Hr. rewrite Hinstalled in Hr.
    assert (Forall (is_package_check (DracutPackageInformation := DracutPackageInformation)
                      rootDir)
              [HBase (EvLogDebug ("Checking if (" +:+ p +:+ ") is installed"));
               HCall (IsPackageInstalled rootDir p)]) as Hpair.
    { repeat constructor; exists p; [by left|by right]. }
    destruct (installed p); cbn [negb]; subst r.
    + destruct (IH ((h ++ [HBase (EvLogDebug ("Checking if (" +:+ p +:+ ") is installed"))])
                      ++ [HCall (IsPackageInstalled rootDir p)])) as (Hres & checks & Hh & Hall).
      split; [exact Hres|].
      exists ([HBase (EvLogDebug ("Checking if (" +:+ p +:+ ") is installed"));
               HCall (IsPackageInstalled rootDir p)] ++ checks).
      split; [rewrite Hh; history_eq|]. by apply Forall_app.
    + unfold hret. cbn [fst snd]. split; [done|].
      exists [HBase (EvLogDebug ("Checking if (" +:+ p +:+ ") is installed"));
              HCall (IsPackageInstalled rootDir p)].
      split; [history_eq|exact Hpair].
Qed.

End PackageChecks.

(** X17.  [generateInitrdImage] runs dracut only when every required
    package is installed.  With the chroot created and initialised, the
    function checks the required packages in order (performing nothing but
    log lines and package queries); at the first one that is not installed
    it fails with the error that names this package, and dracut is not run;
    when all are installed, dracut is run in the chroot for the kernel
    version of the builder.  In both cases the last operation closes the
    chroot, leaving it on disk. *)
Theorem generateInitrdImage_requires_packages
    {DracutPackageInformation : Type} (host : Host DracutPackageInformation)
    (b : LiveOSIsoBuilder DracutPackageInformation)
    (rootfsSourceDir artifactsSourceDir artifactsTargetDir : string)
    (installed : string -> bool) (h : History DracutPackageInformation) :
  let r := generateInitrdImage host b rootfsSourceDir artifactsSourceDir artifactsTargetDir h in
  let h1 := h ++ [HBase (EvLogDebug "Generating initrd")] in
  let h2 := h1 ++ [HCall (NewChroot rootfsSourceDir true)] in
  let h3 := h2 ++ [HCall (ChrootInitialize rootfsSourceDir "" true)] in
  let dracut :=
    ChrootUnsafeRun rootfsSourceDir true "dracut"
      ["/initrd.img"; "--kver"; kernelVersion (artifacts b); "--filesystems"; "squashfs";
       "--include"; artifactsSourceDir; artifactsTargetDir] in
  host_call host h1 (NewChroot rootfsSourceDir true) = true ->
  host_call host h2 (ChrootInitialize rootfsSourceDir "" true) = None ->
  (forall h' requiredRpm,
     host_call host h' (IsPackageInstalled rootfsSourceDir requiredRpm) = installed requiredRpm) ->
  exists checks,
    Forall (is_package_check rootfsSourceDir) checks
    /\ match find (fun requiredRpm => negb (installed requiredRpm)) requiredRpms with
       | Some requiredRpm =>
           r = (b, Some (missingPackageError requiredRpm),
                h3 ++ checks ++ [HCall (ChrootClose rootfsSourceDir true)])
       | None =>
           exists rest,
             r.2 = h3 ++ checks ++ [HCall dracut] ++ rest
                      ++ [HCall (ChrootClose rootfsSourceDir true)]
       end.
Proof.
  intros r h1 h2 h3 dracut Hchroot Hinit Hinstalled.
  assert (Hr : r = generateInitrdImage host b rootfsSourceDir artifactsSourceDir
                     artifactsTargetDir h) by reflexivity.
  clearbody r. unfold generateInitrdImage in Hr.
  unfold hbind at 1 in Hr. unfold logDebug at 1, lift at 1, emit in Hr.
  cbn [map app fst snd] in Hr. fold h1 in Hr.
  unfold hbind at 1 in Hr. unfold call at 1 in Hr. rewrite Hchroot in Hr. cbn [negb] in Hr.
  fold h2 in Hr.
  unfold hbind at 1 in Hr. unfold hbind at 1 in Hr. unfold call at 1 in Hr.
  rewrite Hinit in Hr. fold h3 in Hr. unfold hbind at 1 in Hr.
  destruct (generateInitrdImage_loop_first_missing host rootfsSourceDir installed Hinstalled
              requiredRpms h3) as (Hres & checks & Hh & Hall).
  exists checks. split; [exact Hall|].
  destruct (generateInitrdImage_loop host rootfsSourceDir requiredRpms h3) as [missing h4].
  cbn [fst snd] in Hres, Hh. subst h4. rewrite <- Hres.
  destruct missing as [requiredRpm|].
  - unfold hret at 1 in Hr. unfold hbind, call, hret in Hr. subst r.
    f_equal. history_eq.
  - unfold hbind at 1 in Hr. unfold call at 1 in Hr. fold dracut in Hr.
    destruct (host_call host (h3 ++ checks) dracut) as [e|].
    { unfold hret at 1 in Hr. unfold hbind, call, hret in Hr. subst r. cbn [snd].
      exists []. history_eq. }
    unfold hbind at 1 in Hr. unfold call at 1 in Hr.
    match type of Hr with
    | context [host_call host ?hh (FileCopy ?s ?d)] =>
        destruct (host_call host hh (FileCopy s d)) as [e|];
        unfold hret at 1 in Hr; unfold hbind, call, hret in Hr; subst r; cbn [snd];
        exists [HCall (FileCopy s d)]; history_eq
    end.
Qed.

Lemma generateInitrdImage_requires_packages_witness :
  let installed requiredRpm := negb (bool_decide (requiredRpm = "device-mapper")) in
  let host := Faulty.host (Sample.world None [] "" "") Faulty.never [] Faulty.never
                installed None in
  let b := newLiveOSIsoBuilder "/build" in
  (generateInitrdImage host b "/rootfs" "/boot-staging" "/boot" []).1
  = (b, Some (missingPackageError "device-mapper")).
Proof.
  intros installed host b.
  destruct (generateInitrdImage_requires_packages host b "/rootfs" "/boot-staging" "/boot"
              installed [] eq_refl eq_refl (fun _ _ => eq_refl)) as (checks & _ & Hthm).
  cbn [find requiredRpms] in Hthm.
  change (installed "squashfs-tools") with true in Hthm.
  change (installed "tar") with true in Hthm.
  change (installed "device-mapper") with false in Hthm.
  cbn [negb] in Hthm. by rewrite Hthm.
Defined.

(** ** The squashfs image *)

(** X18.  [createSquashfsImage] never runs mksquashfs over a stale image,
    and a failing existence check is no error.  When the image is reported
    to exist, it is removed first, and mksquashfs runs only if the removal
    succeeded; when the image does not exist, or when the existence check
    itself fails, mksquashfs is run at once.  The function succeeds exactly
    when mksquashfs was run and succeeded; only then the builder changes, in
    the path of the squashfs image alone. *)
Theorem createSquashfsImage_stale_image
    {DracutPackageInformation : Type} (host : Host DracutPackageInformation)
    (b : LiveOSIsoBuilder DracutPackageInformation) (writeableRootfsDir : string)
    (h : History DracutPackageInformation) :
  let r := createSquashfsImage host b writeableRootfsDir h in
  let imagePath := GoPath.Join [isoArtifactsDir (workingDirs b); liveOSImage] in
  let h1 := h ++ [HBase (EvLogDebug ("Creating squashfs of " +:+ writeableRootfsDir))] in
  let h2 := h1 ++ [HBase (EvPathExists imagePath)] in
  let remove := OsRemove imagePath in
  let mksquashfs := ShellExecuteLive false "mksquashfs" [writeableRootfsDir; imagePath] in
  let built hs :=
    r.2 = hs ++ [HCall mksquashfs]
    /\ (r.1.2 = None <-> host_call host hs mksquashfs = None) in
  match file_PathExists (world_after host h1) [] imagePath with
  | Ok true =>
      match host_call host h2 remove with
      | Some e => r.2 = h2 ++ [HCall remove] /\ (exists e', r.1.2 = Some e' /\ wraps e' e)
      | None => built (h2 ++ [HCall remove])
      end
  | _ => built h2
  end
  /\ r.1.1 = match r.1.2 with
             | None => with_artifacts b (set_squashfsImagePath imagePath (artifacts b))
             | Some _ => b
             end.
Proof.
  intros r imagePath h1 h2 remove mksquashfs built.
  assert (Hr : r = createSquashfsImage host b writeableRootfsDir h) by reflexivity.
  clearbody r. unfold createSquashfsImage in Hr.
  unfold hbind at 1 in Hr. unfold logDebug at 1, lift at 1, emit in Hr.
  cbn [map app fst snd] in Hr. fold h1 in Hr. fold imagePath in Hr.
  unfold hbind at 1 in Hr. unfold lift at 1, PathExists, perform in Hr.
  cbn [map app fst snd] in Hr. fold h2 in Hr. fold mksquashfs in Hr.
  assert (forall hs,
            r = (err <- call host mksquashfs ;;
                 match err with
                 | Some e => hret (b, Some (wrapf ("failed to create squashfs:" +:+ nl) e))
                 | None =>
                     hret (with_artifacts b (set_squashfsImagePath imagePath (artifacts b)), None)
                 end)%host hs ->
            built hs
            /\ r.1.1 = match r.1.2 with
                       | None => with_artifacts b (set_squashfsImagePath imagePath (artifacts b))
                       | Some _ => b
                       end) as Hbuilt.
  { intros hs ->. unfold built, hbind, call, hret.
    destruct (host_call host hs mksquashfs) as [e|]; cbn [fst snd]; done. }
  destruct (file_PathExists (world_after host h1) [] imagePath) as [[|]|e0].
  - unfold hbind at 1 in Hr. unfold call at 1 in Hr. fold remove in Hr.
    destruct (host_call host h2 remove) as [e|].
    + unfold hret in Hr. subst r. cbn [fst snd]. split; [|done]. split; [done|].
      eexists. split; [reflexivity|]. apply wraps_wrapf.
    + by apply Hbuilt.
  - unfold hbind at 1, hret at 1 in Hr. by apply Hbuilt.
  - unfold hbind at 1, hret at 1 in Hr. by apply Hbuilt.
Qed.

(** ** From a full image to the artifacts of an ISO *)

Section ArtifactsFromFullImage.

Context {DracutPackageInformation : Type}.
Context (H : Helpers DracutPackageInformation) (host : Host DracutPackageInformation).

Abbreviation Bld := (LiveOSIsoBuilder DracutPackageInformation).
Abbreviation Hist := (History DracutPackageInformation).

(** A successful [extractBootDirFiles] has found both boot loaders. *)
Lemma extractBootDirFiles_boot_loaders (w : World DracutPackageInformation) (b : Bld)
    (writeableRootfsDir : string) (tr : Trace DracutPackageInformation) :
  let r := extractBootDirFiles w b writeableRootfsDir tr in
  workingDirs r.1.1 = workingDirs b
  /\ (r.1.2 = None ->
      bootx64EfiPath (artifacts r.1.1) ≠ "" /\ grubx64EfiPath (artifacts r.1.1) ≠ "").
Proof.
  intros r.
  assert (Hr : r = extractBootDirFiles w b writeableRootfsDir tr) by reflexivity.
  clearbody r. unfold extractBootDirFiles in Hr. unfold bind at 1 in Hr.
  unfold EnumerateDirFiles, perform in Hr.
  destruct (file_EnumerateDirFiles w tr _) as [files|e].
  2:{ unfold ret in Hr. by subst r. }
  unfold bind at 1 in Hr.
  match type of Hr with
  | context [extractBootDirFiles_loop w ?u ?root ?fs ?b0 ?tr0] =>
      pose proof (loop_workingDirs w u root bootx64EfiPath is_shim shim_slot
                    ltac:(by intros ? ->) fs b0 tr0) as Hwd;
      destruct (extractBootDirFiles_loop w u root fs b0 tr0) as [[b1 [e|]] tr1]
  end; cbn [fst snd] in Hwd.
  { unfold ret in Hr. by subst r. }
  destruct (decide (bootx64EfiPath (artifacts b1) = "")).
  { unfold ret in Hr. by subst r. }
  destruct (decide (grubx64EfiPath (artifacts b1) = "")).
  { unfold ret in Hr. by subst r. }
  unfold ret in Hr. by subst r.
Qed.

Lemma findKernelVersion_workingDirs (b : Bld) (writeableRootfsDir : string) (h : Hist) :
  workingDirs (findKernelVersion host b writeableRootfsDir h).1.1 = workingDirs b.
Proof.
  unfold findKernelVersion. unfold hbind at 1. unfold call at 1.
  destruct (host_call host h _) as [kernelDirs|e]; [|done].
  unfold hbind at 1. destruct (findKernelVersion_loop host _ kernelDirs [] _) as [[l|e] h1];
    [|done].
  destruct l as [|v [|v' more]]; done.
Qed.

(** A successful [prepareLiveOSDir] keeps the working directories and
    leaves both boot loaders in the artifact table. *)
Lemma prepareLiveOSDir_boot_loaders (b : Bld)
    (saved root staging extra base file out : string) (h : Hist) :
  let r := prepareLiveOSDir H host b saved root staging extra base file out h in
  r.1.2 = None ->
  workingDirs r.1.1 = workingDirs b
  /\ bootx64EfiPath (artifacts r.1.1) ≠ "" /\ grubx64EfiPath (artifacts r.1.1) ≠ "".
Proof.
  intros r.
  assert (Hr : r = prepareLiveOSDir H host b saved root staging extra base file out h)
    by reflexivity.
  clearbody r. unfold prepareLiveOSDir in Hr.
  unfold hbind at 1 in Hr. unfold logDebug at 1, lift at 1, emit in Hr.
  cbn [map app fst snd] in Hr. unfold hbind at 1 in Hr.
  match type of Hr with
  | context [findKernelVersion host b root ?hh] =>
      pose proof (findKernelVersion_workingDirs b root hh) as Hwd1;
      destruct (findKernelVersion host b root hh) as [[b1 [e|]] h1]
  end; cbn [fst snd] in Hwd1.
  { unfold hret in Hr. by subst r. }
  unfold hbind at 1 in Hr. unfold call at 1 in Hr.
  destruct (host_call host h1 (GetDracutVersion root)) as [info [e|]]; cbn [fst snd] in Hr.
  { unfold hret in Hr. by subst r. }
  unfold hbind at 1 in Hr. unfold lift at 1 in Hr.
  match type of Hr with
  | context [extractBootDirFiles ?w ?b2 root []] =>
      pose proof (extractBootDirFiles_boot_loaders w b2 root []) as [Hwd2 Hboot];
      destruct (extractBootDirFiles w b2 root []) as [[b3 [e|]] tr3]
  end; cbn [fst snd] in Hwd2, Hboot.
  { unfold hret in Hr. by subst r. }
  specialize (Hboot eq_refl).
  assert (forall (m : HostIO DracutPackageInformation (Bld * option error)) hh,
            r = m hh -> (forall hh', (m hh').1.1 = b3) ->
            r.1.2 = None ->
            workingDirs r.1.1 = workingDirs b
            /\ bootx64EfiPath (artifacts r.1.1) ≠ "" /\ grubx64EfiPath (artifacts r.1.1) ≠ "")
    as Hsame.
  { intros m hh -> Hm _. rewrite Hm. split; [|done]. by rewrite Hwd2, <- Hwd1. }
  eapply Hsame; [exact Hr|]. intros hh'.
  unfold hbind at 1. unfold lift at 1.
  destruct (PathExists _ saved []) as [[exists_|e] tr4]; [|done].
  unfold hbind at 1.
  match goal with
  | |- context [(if exists_ then ?m1 else ?m2) ?hh] =>
      destruct ((if exists_ then m1 else m2) hh) as [[e|] h5]
  end; [done|].
  unfold hbind at 1. unfold lift at 1.
  destruct (updateSavedConfigs _ _ _ _ _ _ []) as [[cfg|e] tr6]; [|done].
  unfold hbind at 1. unfold lift at 1.
  destruct (updateGrubCfg _ _ _ _ _ _ []) as [[e|] tr7]; [done|].
  unfold hbind at 1.
  destruct (stageIsoMakerInitrdArtifacts _ _ _ _ _) as [[e|] h8]; [done|].
  unfold hbind at 1.
  destruct (prepareRootfsForDracut _ _ _) as [[e|] h9]; done.
Qed.

Lemma createSquashfsImage_builder (b : Bld) (writeableRootfsDir : string) (h : Hist) :
  let r := createSquashfsImage host b writeableRootfsDir h in
  r.1.2 = None ->
  r.1.1 = with_artifacts b
            (set_squashfsImagePath (GoPath.Join [isoArtifactsDir (workingDirs b); liveOSImage])
               (artifacts b)).
Proof.
  intros r.
  assert (Hr : r = createSquashfsImage host b writeableRootfsDir h) by reflexivity.
  clearbody r. unfold createSquashfsImage in Hr.
  unfold hbind at 1 in Hr. unfold logDebug at 1, lift at 1, emit in Hr.
  cbn [map app fst snd] in Hr.
  unfold hbind at 1 in Hr. unfold lift at 1 in Hr.
  destruct (PathExists _ _ []) as [exists_ tr1].
  unfold hbind at 1 in Hr.
  assert (forall removed hs,
            r = (match removed with
                 | Some e =>
                     hret (b, Some (wrapf ("failed to delete existing squashfs image ("
                                           +:+ GoPath.Join [isoArtifactsDir (workingDirs b);
                                                            liveOSImage]
                                           +:+ "):" +:+ nl) e))
                 | None =>
                     err <- call host (ShellExecuteLive false "mksquashfs"
                                         [writeableRootfsDir;
                                          GoPath.Join [isoArtifactsDir (workingDirs b);
                                                       liveOSImage]]) ;;
                     match err with
                     | Some e => hret (b, Some (wrapf ("failed to create squashfs:" +:+ nl) e))
                     | None =>
                         hret (with_artifacts b
                                 (set_squashfsImagePath
                                    (GoPath.Join [isoArtifactsDir (workingDirs b); liveOSImage])
                                    (artifacts b)), None)
                     end
                 end)%host hs ->
            r.1.2 = None ->
            r.1.1 = with_artifacts b
                      (set_squashfsImagePath
                         (GoPath.Join [isoArtifactsDir (workingDirs b); liveOSImage])
                         (artifacts b))) as Htail.
  { intros [e|] hs ->; [done|]. unfold hbind, call, hret.
    by destruct (host_call host hs _) as [e|]. }
  destruct exists_ as [[|]|e0].
  - unfold call at 1 in Hr. cbv beta iota in Hr. exact (Htail _ _ Hr).
  - unfold hret at 1 in Hr. cbv beta iota in Hr. exact (Htail None _ Hr).
  - unfold hret at 1 in Hr. cbv beta iota in Hr. exact (Htail None _ Hr).
Qed.

Lemma generateInitrdImage_builder (b : Bld) (root src dst : string) (h : Hist) :
  let r := generateInitrdImage host b root src dst h in
  r.1.2 = None ->
  r.1.1 = with_artifacts b
            (set_initrdImagePath (GoPath.Join [isoArtifactsDir (workingDirs b); initrdImage])
               (artifacts b)).
Proof.
  intros r.
  assert (Hr : r = generateInitrdImage host b root src dst h) by reflexivity.
  clearbody r. unfold generateInitrdImage in Hr.
  unfold hbind at 1 in Hr. unfold logDebug at 1, lift at 1, emit in Hr.
  cbn [map app fst snd] in Hr.
  unfold hbind at 1 in Hr. unfold call at 1 in Hr.
  destruct (host_call host _ (NewChroot root true)); cbn [negb] in Hr.
  2:{ unfold hret in Hr. by subst r. }
  unfold hbind at 1 in Hr. unfold hbind at 1 in Hr. unfold call at 1 in Hr.
  destruct (host_call host _ (ChrootInitialize root "" true)) as [e|].
  { unfold hret at 1 in Hr. unfold hbind, call, hret in Hr. by subst r. }
  unfold hbind at 1 in Hr.
  destruct (generateInitrdImage_loop host root requiredRpms _) as [[p|] h4].
  { unfold hret at 1 in Hr. unfold hbind, call, hret in Hr. by subst r. }
  unfold hbind at 1 in Hr. unfold call at 1 in Hr.
  destruct (host_call host h4 _) as [e|].
  { unfold hret at 1 in Hr. unfold hbind, call, hret in Hr. by subst r. }
  unfold hbind at 1 in Hr. unfold call at 1 in Hr.
  destruct (host_call host _ (FileCopy _ _)) as [e|];
    unfold hret at 1 in Hr; unfold hbind, call, hret in Hr; by subst r.
Qed.

End ArtifactsFromFullImage.

(** X19.  [prepareArtifactsFromFullImage] closes the connection to the raw
    image whatever happens, and on success it leaves in the builder what
    the ISO is made from.  If the connection cannot be opened, its error is
    returned as it is and nothing else is done.  Otherwise the last
    operation closes the connection.  When the function succeeds, the
    working directories of the builder are unchanged, both boot loaders are
    in the artifact table, and the squashfs and initrd images are recorded
    under the artifacts directory. *)
Theorem prepareArtifactsFromFullImage_result
    {DracutPackageInformation : Type} (H : Helpers DracutPackageInformation)
    (host : Host DracutPackageInformation) (b : LiveOSIsoBuilder DracutPackageInformation)
    (inputSavedConfigsFilePath rawImageFile extraCommandLine pxeIsoImageBaseUrl
     pxeIsoImageFileUrl outputImageBase : string) (h : History DracutPackageInformation) :
  let r := prepareArtifactsFromFullImage H host b inputSavedConfigsFilePath rawImageFile
             extraCommandLine pxeIsoImageBaseUrl pxeIsoImageFileUrl outputImageBase h in
  let h1 := h ++ [HBase (EvLogInfo "Preparing iso artifacts");
                  HBase (EvLogDebug ("Connecting to raw image (" +:+ rawImageFile +:+ ")"))] in
  let connect :=
    ConnectToExistingImage rawImageFile (isoBuildDir (workingDirs b))
      "readonly-rootfs-mount" false in
  match host_call host h1 connect with
  | Err e => r = (b, Some e, h1 ++ [HCall connect])
  | Ok rootDir =>
      (exists body,
         r.2 = h1 ++ [HCall connect] ++ body ++ [HCall (ImageConnectionClose rootDir)])
      /\ (r.1.2 = None ->
          workingDirs r.1.1 = workingDirs b
          /\ bootx64EfiPath (artifacts r.1.1) ≠ ""
          /\ grubx64EfiPath (artifacts r.1.1) ≠ ""
          /\ squashfsImagePath (artifacts r.1.1)
             = GoPath.Join [isoArtifactsDir (workingDirs b); liveOSImage]
          /\ initrdImagePath (artifacts r.1.1)
             = GoPath.Join [isoArtifactsDir (workingDirs b); initrdImage])
  end.
Proof.
  intros r h1 connect.
  assert (Hr : r = prepareArtifactsFromFullImage H host b inputSavedConfigsFilePath
                     rawImageFile extraCommandLine pxeIsoImageBaseUrl pxeIsoImageFileUrl
                     outputImageBase h) by reflexivity.
  clearbody r. unfold prepareArtifactsFromFullImage in Hr.
  unfold hbind at 1 in Hr. unfold logInfo at 1, lift at 1, emit in Hr.
  cbn [map app fst snd] in Hr.
  unfold hbind at 1 in Hr. unfold logDebug at 1, lift at 1, emit in Hr.
  cbn [map app fst snd] in Hr.
  replace ((h ++ [HBase (EvLogInfo "Preparing iso artifacts")])
             ++ [HBase (EvLogDebug ("Connecting to raw image (" +:+ rawImageFile +:+ ")"))])
    with h1 in Hr by history_eq.
  unfold hbind at 1 in Hr. unfold call at 1 in Hr. fold connect in Hr.
  destruct (host_call host h1 connect) as [rootDir|e].
  2:{ unfold hret in Hr. exact Hr. }
  unfold hbind at 1 in Hr.
  set (h2 := h1 ++ [HCall connect]) in Hr.
  match type of Hr with
  | r = (let '(a, h') := ?m h2 in _) =>
      assert (grows m) as Hgrows;
      [|destruct (Hgrows h2) as [body Hbody];
        assert (forall r', r' = m h2 -> r'.1.2 = None ->
                workingDirs r'.1.1 = workingDirs b
                /\ bootx64EfiPath (artifacts r'.1.1) ≠ ""
                /\ grubx64EfiPath (artifacts r'.1.1) ≠ ""
                /\ squashfsImagePath (artifacts r'.1.1)
                   = GoPath.Join [isoArtifactsDir (workingDirs b); liveOSImage]
                /\ initrdImagePath (artifacts r'.1.1)
                   = GoPath.Join [isoArtifactsDir (workingDirs b); initrdImage]) as Hpost;
        [|destruct (m h2) as [[b' err] h3]]]
  end.
  - unfold logDebug.
    grows_with ltac:(first [ apply grows_populateWriteableRootfsDir
                           | apply grows_prepareLiveOSDir
                           | apply grows_createSquashfsImage
                           | apply grows_generateInitrdImage ]).
  - clear Hr Hbody Hgrows. intros r' Hr'. cbv beta zeta in Hr'.
    unfold hbind at 1 in Hr'.
    destruct (populateWriteableRootfsDir _ _ _ _) as [[e|] h3].
    { unfold hret in Hr'. by subst r'. }
    unfold hbind at 1 in Hr'.
    match type of Hr' with
    | context [prepareLiveOSDir H host b ?s ?root ?st ?x ?u ?f ?o h3] =>
        pose proof (prepareLiveOSDir_boot_loaders H host b s root st x u f o h3) as Hlive;
        destruct (prepareLiveOSDir H host b s root st x u f o h3) as [[b1 [e|]] h4]
    end.
    { unfold hret in Hr'. by subst r'. }
    cbn [fst snd] in Hlive. destruct (Hlive eq_refl) as (Hwd & Hshim & Hgrub).
    unfold hbind at 1 in Hr'.
    match type of Hr' with
    | context [createSquashfsImage host b1 ?root h4] =>
        pose proof (createSquashfsImage_builder host b1 root h4) as Hsquash;
        destruct (createSquashfsImage host b1 root h4) as [[b2 [e|]] h5]
    end.
    { unfold hret in Hr'. by subst r'. }
    cbn [fst snd] in Hsquash. specialize (Hsquash eq_refl). subst b2.
    unfold hbind at 1 in Hr'.
    match type of Hr' with
    | context [generateInitrdImage host ?bb ?root ?s ?d h5] =>
        pose proof (generateInitrdImage_builder host bb root s d h5) as Hinitrd;
        destruct (generateInitrdImage host bb root s d h5) as [[b3 [e|]] h6]
    end.
    { unfold hret in Hr'. by subst r'. }
    cbn [fst snd] in Hinitrd. specialize (Hinitrd eq_refl). subst b3.
    unfold hret in Hr'. subst r'. cbn [fst snd]. intros _. rewrite <- Hwd. by destruct b1.
  - specialize (Hpost _ eq_refl). cbn [fst snd] in Hbody, Hpost. subst h3.
    unfold hbind, call, hret in Hr. subst r. cbn [fst snd].
    split; [|exact Hpost]. exists body. history_eq.
Qed.

(** ** From a full disk image to an ISO: the build directory *)

(** The history of [prepareArtifactsFromFullImage]: the connection, when
    opened, is closed by the last operation. *)
Lemma prepareArtifactsFromFullImage_history
    {DracutPackageInformation : Type} (H : Helpers DracutPackageInformation)
    (host : Host DracutPackageInformation) (b : LiveOSIsoBuilder DracutPackageInformation)
    (saved rawImageFile extra base file out : string) (h : History DracutPackageInformation) :
  let r := prepareArtifactsFromFullImage H host b saved rawImageFile extra base file out h in
  let h1 := h ++ [HBase (EvLogInfo "Preparing iso artifacts");
                  HBase (EvLogDebug ("Connecting to raw image (" +:+ rawImageFile +:+ ")"))] in
  let connect :=
    ConnectToExistingImage rawImageFile (isoBuildDir (workingDirs b))
      "readonly-rootfs-mount" false in
  match host_call host h1 connect with
  | Err e => r = (b, Some e, h1 ++ [HCall connect])
  | Ok rootDir =>
      exists body, r.2 = h1 ++ [HCall connect] ++ body ++ [HCall (ImageConnectionClose rootDir)]
  end.
Proof.
  intros r h1 connect.
  assert (Hr : r = prepareArtifactsFromFullImage H host b saved rawImageFile extra base file
                     out h) by reflexivity.
  clearbody r. unfold prepareArtifactsFromFullImage in Hr.
  unfold hbind at 1 in Hr. unfold logInfo at 1, lift at 1, emit in Hr.
  cbn [map app fst snd] in Hr.
  unfold hbind at 1 in Hr. unfold logDebug at 1, lift at 1, emit in Hr.
  cbn [map app fst snd] in Hr.
  replace ((h ++ [HBase (EvLogInfo "Preparing iso artifacts")])
             ++ [HBase (EvLogDebug ("Connecting to raw image (" +:+ rawImageFile +:+ ")"))])
    with h1 in Hr by history_eq.
  unfold hbind at 1 in Hr. unfold call at 1 in Hr. fold connect in Hr.
  destruct (host_call host h1 connect) as [rootDir|e].
  2:{ unfold hret in Hr. exact Hr. }
  unfold hbind at 1 in Hr.
  set (h2 := h1 ++ [HCall connect]) in Hr.
  match type of Hr with
  | r = (let '(a, h') := ?m h2 in _) =>
      assert (grows m) as Hgrows;
      [|destruct (Hgrows h2) as [body Hbody]; destruct (m h2) as [[b' err] h3]]
  end.
  - unfold logDebug.
    grows_with ltac:(first [ apply grows_populateWriteableRootfsDir
                           | apply grows_prepareLiveOSDir
                           | apply grows_createSquashfsImage
                           | apply grows_generateInitrdImage ]).
  - cbn [fst snd] in Hbody. subst h3.
    unfold hbind, call, hret in Hr. subst r. cbn [fst snd]. exists body. history_eq.
Qed.

(** X20.  [createLiveOSIsoImage] always ends by removing its build
    directory [<buildDir>/tmp]: the removal is the last operation of every
    run, whatever failed before.  The function succeeds only if that
    removal succeeded.  The connection to the raw image, once opened, is
    closed before the removal; if it cannot be opened, nothing is done
    between the attempt and the removal. *)
Theorem createLiveOSIsoImage_removes_build_dir
    {DracutPackageInformation : Type} (H : Helpers DracutPackageInformation)
    (host : Host DracutPackageInformation) (buildDir baseConfigPath : string)
    (inputIsoArtifacts : option (LiveOSIsoBuilder DracutPackageInformation))
    (isoConfig : option Iso) (pxeConfig : option Pxe)
    (rawImageFile outputImageDir outputImageBase outputPXEArtifactsDir : string)
    (h : History DracutPackageInformation) :
  let r := createLiveOSIsoImage H host buildDir baseConfigPath inputIsoArtifacts isoConfig
             pxeConfig rawImageFile outputImageDir outputImageBase outputPXEArtifactsDir h in
  let dir := GoPath.Join [buildDir; "tmp"] in
  let intro := [HBase (EvLogInfo "Preparing iso artifacts");
                HBase (EvLogDebug ("Connecting to raw image (" +:+ rawImageFile +:+ ")"))] in
  let connect := ConnectToExistingImage rawImageFile dir "readonly-rootfs-mount" false in
  exists body,
    r.2 = h ++ body ++ [HBase (EvRemoveAll dir)]
    /\ (r.1 = None -> os_RemoveAll (world_after host (h ++ body)) [] dir = None)
    /\ match host_call host (h ++ intro) connect with
       | Ok rootDir =>
           exists before after,
             body = before ++ [HCall (ImageConnectionClose rootDir)] ++ after
       | Err _ => body = intro ++ [HCall connect]
       end.
Proof.
  intros r dir intro connect.
  assert (Hr : r = createLiveOSIsoImage H host buildDir baseConfigPath inputIsoArtifacts
                     isoConfig pxeConfig rawImageFile outputImageDir outputImageBase
                     outputPXEArtifactsDir h) by reflexivity.
  clearbody r. unfold createLiveOSIsoImage in Hr.
  destruct (micIsoConfigToIsoMakerConfig H baseConfigPath isoConfig)
    as [additionalIsoFiles extraCommandLine].
  unfold hbind at 1 in Hr. unfold hbind at 1 in Hr.
  match type of Hr with
  | context [prepareArtifactsFromFullImage H host ?b ?s ?raw ?x ?u ?f ?o h] =>
      pose proof (prepareArtifactsFromFullImage_history H host b s raw x u f o h) as Hhist;
      destruct (prepareArtifactsFromFullImage H host b s raw x u f o h) as [[b1 err] h1]
  end.
  cbv zeta in Hhist. fold intro in Hhist.
  change (isoBuildDir (workingDirs (newLiveOSIsoBuilder buildDir))) with dir in Hhist.
  fold connect in Hhist.
  assert (forall e hs mid,
            r = lift host (fun w => createLiveOSIsoImage_deferred w
                                      (newLiveOSIsoBuilder buildDir) e) hs ->
            hs = h ++ mid ->
            r.2 = h ++ mid ++ [HBase (EvRemoveAll dir)]
            /\ (r.1 = None -> os_RemoveAll (world_after host (h ++ mid)) [] dir = None))
    as Hend.
  { intros e hs mid -> ->. unfold lift, createLiveOSIsoImage_deferred, bind, RemoveAll, perform, ret.
    cbn [fst snd map app].
    change (isoBuildDir (workingDirs (newLiveOSIsoBuilder buildDir))) with dir.
    split; [history_eq|].
    destruct (os_RemoveAll (world_after host (h ++ mid)) [] dir) as [ce|]; [|done].
    by destruct e. }
  destruct err as [e|].
  - unfold hret at 1 in Hr.
    destruct (host_call host (h ++ intro) connect) as [rootDir|e0].
    + destruct Hhist as [body Hbody]. cbn [snd] in Hbody.
      exists (intro ++ [HCall connect] ++ body ++ [HCall (ImageConnectionClose rootDir)]).
      destruct (Hend _ _ (intro ++ [HCall connect] ++ body
                            ++ [HCall (ImageConnectionClose rootDir)]) Hr) as [Hh Hok].
      { rewrite Hbody. history_eq. }
      split; [exact Hh|]. split; [exact Hok|].
      exists (intro ++ [HCall connect] ++ body), []. history_eq.
    + injection Hhist as _ _ Hh1.
      exists (intro ++ [HCall connect]).
      destruct (Hend _ _ (intro ++ [HCall connect]) Hr) as [Hh Hok].
      { rewrite Hh1. history_eq. }
      done.
  - destruct (host_call host (h ++ intro) connect) as [rootDir|e0]; [|discriminate Hhist].
    destruct Hhist as [body Hbody]. cbn [snd] in Hbody.
    unfold hbind at 1 in Hr. unfold lift at 1 in Hr.
    destruct (carryOverAdditionalFiles _ inputIsoArtifacts b1 []) as [b2 tr2].
    unfold hbind at 1 in Hr. unfold lift at 1 in Hr.
    destruct (createIsoImageAndPXEFolder H _ b2 additionalIsoFiles outputImageDir
                outputImageBase outputPXEArtifactsDir []) as [err3 tr3].
    set (after := map HBase tr2 ++ map HBase tr3).
    exists (intro ++ [HCall connect] ++ body ++ [HCall (ImageConnectionClose rootDir)] ++ after).
    assert (exists e, r = lift host (fun w => createLiveOSIsoImage_deferred w
                                               (newLiveOSIsoBuilder buildDir) e)
                            ((h1 ++ map HBase tr2) ++ map HBase tr3)) as [e He].
    { destruct err3 as [e3|]; unfold hret in Hr; eexists; exact Hr. }
    destruct (Hend _ _ (intro ++ [HCall connect] ++ body
                          ++ [HCall (ImageConnectionClose rootDir)] ++ after) He) as [Hh Hok].
    { rewrite Hbody. subst after. history_eq. }
    split; [exact Hh|]. split; [exact Hok|].
    exists (intro ++ [HCall connect] ++ body), after. history_eq.
Qed.

(** ** From a squashfs to a writeable disk image *)

(** X21.  [createWriteableImageFromSquashfs] creates the disk image only
    once the size of the mounted squashfs is known, with the disk layout of
    that estimate, and releases what it acquired in the reverse order.  A
    failure to create the mount directory, to attach the loop device or to
    mount is returned after the releases due at that point.  With the
    squashfs mounted, a failing size estimate is returned without any image
    being created; otherwise the image is created from the contents of the
    mount with [squashfsDiskConfig] of the estimate, followed (as far as
    each step succeeds) by the clean close of the mount and of the loop
    device.  In both cases the last operations close the mount, close the
    loop device and remove the mount directory. *)
Theorem createWriteableImageFromSquashfs_sizes_and_releases
    {DracutPackageInformation : Type} (host : Host DracutPackageInformation)
    (b : LiveOSIsoBuilder DracutPackageInformation) (buildDir rawImageFile : string)
    (h : History DracutPackageInformation) :
  let r := createWriteableImageFromSquashfs host b buildDir rawImageFile h in
  let image := squashfsImagePath (artifacts b) in
  let h0 := h ++ [HBase (EvLogInfo ("Creating writeable image from squashfs ("
                                    +:+ image +:+ ")"))] in
  let h1 := h0 ++ [HCall (OsMkdirTemp buildDir "tmp-squashfs-mount-")] in
  let h2 := h1 ++ [HCall (NewLoopback image)] in
  match host_call host h0 (OsMkdirTemp buildDir "tmp-squashfs-mount-") with
  | Err e =>
      r = (Some (wrapf ("failed to create temporary mount folder for squashfs:" +:+ nl) e), h1)
  | Ok squashMountDir =>
      match host_call host h1 (NewLoopback image) with
      | Err e =>
          r = (Some (wrapf ("failed to create loop device for (" +:+ image +:+ "):" +:+ nl) e),
               h2 ++ [HBase (EvRemoveAll squashMountDir)])
      | Ok devicePath =>
          let mount := NewMount devicePath squashMountDir "squashfs" 0 "" false in
          let h3 := h2 ++ [HCall mount] in
          let releases :=
            [ HCall (MountClose devicePath squashMountDir);
              HCall (LoopbackClose devicePath);
              HBase (EvRemoveAll squashMountDir) ] in
          match host_call host h2 mount with
          | Some e =>
              r = (Some e, h3 ++ [HCall (LoopbackClose devicePath);
                                  HBase (EvRemoveAll squashMountDir)])
          | None =>
              let estimate :=
                getDiskSizeEstimateInMBs (world_after host h3) squashMountDir
                  expansionSafetyFactor [] in
              match estimate.1 with
              | Err e =>
                  r = (Some (wrapf ("failed to calculate the disk size of " +:+ squashMountDir
                                    +:+ ":" +:+ nl) e),
                       h3 ++ map HBase estimate.2 ++ releases)
              | Ok safeDiskSizeMB =>
                  let work :=
                    [ HCall (CreateNewImage rawImageFile (squashfsDiskConfig safeDiskSizeMB)
                               squashfsFileSystemConfigs buildDir "writeable-raw-image"
                               (squashMountDir +:+ "/."));
                      HCall (MountCleanClose devicePath squashMountDir);
                      HCall (LoopbackCleanClose devicePath) ] in
                  exists n,
                    r.2 = h3 ++ map HBase estimate.2
                             ++ [HBase (EvLogDebug ("safeDiskSizeMB = "
                                                    +:+ FormatUint64 safeDiskSizeMB))]
                             ++ take (S n) work ++ releases
                    /\ (r.1 = None -> take (S n) work = work)
              end
          end
      end
  end.
Proof.
  intros r image h0 h1 h2.
  assert (Hr : r = createWriteableImageFromSquashfs host b buildDir rawImageFile h)
    by reflexivity.
  clearbody r. unfold createWriteableImageFromSquashfs in Hr. fold image in Hr.
  unfold hbind at 1 in Hr. unfold logInfo at 1, lift at 1, emit in Hr.
  cbn [map app fst snd] in Hr. fold h0 in Hr.
  unfold hbind at 1 in Hr. unfold call at 1 in Hr. fold h1 in Hr.
  destruct (host_call host h0 (OsMkdirTemp buildDir "tmp-squashfs-mount-"))
    as [squashMountDir|e].
  2:{ exact Hr. }
  unfold hbind at 1 in Hr. unfold hbind at 1 in Hr. unfold call at 1 in Hr. fold h2 in Hr.
  destruct (host_call host h1 (NewLoopback image)) as [devicePath|e].
  2:{ unfold hret at 1 in Hr. unfold hbind, lift, hret, RemoveAll, perform in Hr.
      cbn [map app fst snd] in Hr. exact Hr. }
  cbv zeta.
  unfold hbind at 1 in Hr. unfold hbind at 1 in Hr. unfold call at 1 in Hr.
  set (h3 := h2 ++ [HCall (NewMount devicePath squashMountDir "squashfs" 0 "" false)])
    in Hr |- *.
  destruct (host_call host h2 (NewMount devicePath squashMountDir "squashfs" 0 "" false))
    as [e|].
  { unfold hret at 1 in Hr. unfold hbind, call, lift, hret, RemoveAll, perform in Hr.
    cbn [map app fst snd] in Hr. subst r. f_equal. history_eq. }
  unfold hbind at 1 in Hr. unfold hbind at 1 in Hr. unfold lift at 1 in Hr.
  destruct (getDiskSizeEstimateInMBs (world_after host h3) squashMountDir
              expansionSafetyFactor []) as [[safeDiskSizeMB|e] tr].
  2:{ unfold hret at 1 in Hr. unfold hbind, call, lift, hret, RemoveAll, perform in Hr.
      cbn [map app fst snd] in Hr |- *. subst r. f_equal. history_eq. }
  cbn [fst snd].
  unfold hbind at 1 in Hr. unfold logDebug at 1, lift at 1, emit in Hr.
  cbn [map app fst snd] in Hr.
  unfold hbind at 1 in Hr. unfold call at 1 in Hr.
  destruct (host_call host _ (CreateNewImage _ _ _ _ _ _)) as [e|].
  { exists 0%nat. unfold hret at 1 in Hr. unfold hbind, call, lift, hret, RemoveAll, perform in Hr.
    cbn [map app fst snd] in Hr. subst r. cbn [fst snd]. split; [history_eq|done]. }
  unfold hbind at 1 in Hr. unfold call at 1 in Hr.
  destruct (host_call host _ (MountCleanClose devicePath squashMountDir)) as [e|].
  { exists 1%nat. unfold hret at 1 in Hr. unfold hbind, call, lift, hret, RemoveAll, perform in Hr.
    cbn [map app fst snd] in Hr. subst r. cbn [fst snd]. split; [history_eq|done]. }
  unfold hbind at 1 in Hr. unfold call at 1 in Hr.
  destruct (host_call host _ (LoopbackCleanClose devicePath)) as [e|];
    exists 2%nat; unfold hret at 1 in Hr;
    unfold hbind, call, lift, hret, RemoveAll, perform in Hr;
    cbn [map app fst snd] in Hr; subst r; cbn [fst snd]; (split; [history_eq|done]).
Qed.

(** ** The PXE artifacts folder *)

